(** * gofeed: Sitemap extraction, feed-type detection and orchestration

    A shallow embedding of [parser.go] (the orchestrating parser and
    [DetectFeedType]) and of [sitemap/parse.go] with [sitemap/feed.go].

    The XML pull cursor ([goxpp]) and the helpers of [internal/shared] are
    collaborators of this code: they are modelled over the token stream that
    the XML decoder delivers.  Go functions returning [(value, error)] become
    functions into [outcome]; the loops [for { ... }] become fixpoints over a
    fuel counter, and the entry points supply more fuel than the loops can
    use. *)

From stdpp Require Import base strings list option gmap.
From Stdlib Require Import ZArith Ascii String Lia.

Local Open Scope string_scope.
Local Open Scope list_scope.

(** ** Results of Go calls *)

(** A call returns a value with a nil error ([Done]), a non-nil error
    ([Fail]), or panics ([Panic]); [Starved] only says that the fuel given to
    the model was too small. *)
Inductive outcome (E A : Type) : Type :=
| Done (a : A)
| Fail (e : E)
| Panic
| Starved.

Arguments Done {E A} a.
Arguments Fail {E A} e.
Arguments Panic {E A}.
Arguments Starved {E A}.

Definition outcome_bind_def {E A B : Type} (f : A → outcome E B) (m : outcome E A) : outcome E B :=
  match m with
  | Done a => f a
  | Fail e => Fail e
  | Panic => Panic
  | Starved => Starved
  end.

#[global] Instance outcome_ret {E} : MRet (outcome E) := λ A a, Done a.
#[global] Instance outcome_bind {E} : MBind (outcome E) := λ A B f m, outcome_bind_def f m.

Definition isDone {E A} (o : outcome E A) : bool :=
  match o with Done _ => true | _ => false end.

(** Two calls end the same way, with values related by [R]. *)
Definition outcome_rel {E A B} (R : A → B → Prop) (o1 : outcome E A) (o2 : outcome E B) : Prop :=
  match o1, o2 with
  | Done a, Done b => R a b
  | Fail e1, Fail e2 => e1 = e2
  | Panic, Panic => True
  | Starved, Starved => True
  | _, _ => False
  end.

(** [strings.ToLower], on the UTF-8 bytes of a string, as far as a comparison
    of its result with a string of ASCII characters can tell, which is all
    this code does with it.  The letters [A]-[Z] are mapped to [a]-[z], and
    so are the two letters outside ASCII whose lower case is an ASCII letter:
    U+0130 (capital I with a dot, the bytes 196 176) to [i] and U+212A (the
    Kelvin sign, the bytes 226 132 170) to [k].  Go maps the other upper-case
    letters outside ASCII to lower-case letters outside ASCII, and an invalid
    byte to U+FFFD; here their bytes are kept, and they are outside ASCII
    either way. *)
Definition lower_ascii (c : ascii) : ascii :=
  let n := nat_of_ascii c in
  if (65 <=? n)%nat && (n <=? 90)%nat then ascii_of_nat (n + 32) else c.

Fixpoint ToLower (s : string) : string :=
  match s with
  | EmptyString => EmptyString
  | String c rest =>
      let plain := String (lower_ascii c) (ToLower rest) in
      match rest with
      | String d rest1 =>
          if Ascii.eqb c "196" && Ascii.eqb d "176" then String "i" (ToLower rest1)
          else
            match rest1 with
            | String e rest2 =>
                if Ascii.eqb c "226" && Ascii.eqb d "132" && Ascii.eqb e "170"
                then String "k" (ToLower rest2)
                else plain
            | EmptyString => plain
            end
      | EmptyString => plain
      end
  end.

(** ** The spec's words on names *)

Module spec.

(** The upper-case form of a lower-case letter. *)
Definition capital (b : ascii) : ascii := ascii_of_nat (nat_of_ascii b - 32).

(** The spec's "named (case-insensitively)" [c], for a name [c] written in
    lower-case letters: [n] has the letters of [c], one by one, each in its
    lower-case or in its upper-case form. *)
Fixpoint named (n c : string) : bool :=
  match n, c with
  | EmptyString, EmptyString => true
  | String a n', String b c' => (Ascii.eqb a b || Ascii.eqb a (capital b)) && named n' c'
  | _, _ => false
  end.

(** The lower-case letters that only their own two forms are folded to:
    all but [i] and [k]. *)
Definition plainLetter (b : ascii) : bool :=
  (97 <=? nat_of_ascii b)%nat && (nat_of_ascii b <=? 122)%nat
  && negb (Ascii.eqb b "i") && negb (Ascii.eqb b "k").

Fixpoint plain (c : string) : bool :=
  match c with
  | EmptyString => true
  | String b c' => plainLetter b && plain c'
  end.

End spec.

(** ** The token stream of [encoding/xml] *)

(** [xml.Attr]: a qualified name and a value. *)
Record Attr : Type := mkAttr {
  Attr_Space : string;
  Attr_Local : string;
  Attr_Value : string
}.

Inductive MiscKind : Type := KComment | KProcInst | KDirective.

(** What [xml.Decoder.Token] delivers, one constructor per token type;
    [Malformed] stands for the syntax error the decoder reports (and keeps
    reporting) at a place it cannot tokenise. *)
Inductive Token : Type :=
| StartElement (space name : string) (attrs : list Attr)
| EndElement (space name : string)
| CharData (data : string)
| Misc (kind : MiscKind) (data : string)
| Malformed (msg : string).

(** A well-formed piece of a document: elements with their children, text,
    and comments, processing instructions or directives. *)
Inductive Node : Type :=
| Element (space name : string) (attrs : list Attr) (children : list Node)
| Chars (data : string)
| Other (kind : MiscKind) (data : string).

(** The tokens of a node, in document order. *)
Fixpoint tokens (n : Node) : list Token :=
  match n with
  | Element s nm a cs =>
      StartElement s nm a :: flat_map tokens cs ++ [EndElement s nm]
  | Chars d => [CharData d]
  | Other k d => [Misc k d]
  end.

Definition forest (cs : list Node) : list Token := flat_map tokens cs.

(** ** The pull cursor *)

Module xpp.

Inductive XMLEventType : Type :=
| StartDocument
| EndDocument
| StartTag
| EndTag
| Text
| Comment
| ProcessingInstruction
| Directive
| IgnorableWhitespace.

#[global] Instance XMLEventType_eq_dec : EqDecision XMLEventType.
Proof. solve_decision. Defined.

Inductive error : Type :=
| ErrExpect (event : XMLEventType) (name : string)
            (gotEvent : XMLEventType) (gotSpace gotName : string)
| ErrSyntax (msg : string)
| ErrUnexpectedEOF
| ErrNoRoot
| ErrNoNextTag
| ErrNotOnStartTag
| ErrDecodeText (msg : string)
| ErrExtension (msg : string)
| Errorf (e : error).

(** Modelled from the spec: the Cursor, a "forward-only XML tokenizer
    producing start-tag/end-tag/text events" ([xpp.XMLPullParser], which is
    not part of this repository's sources).  It holds the state of the current
    token and the tokens still to be read. *)
Record XMLPullParser : Type := mkCursor {
  Event : XMLEventType;
  Space : string;
  Name : string;
  Attrs : list Attr;
  TextData : string;
  input : list Token
}.

Definition NewXMLPullParser (doc : list Token) : XMLPullParser :=
  mkCursor StartDocument "" "" [] "" doc.

Definition onStart (s n : string) (a : list Attr) (rest : list Token) : XMLPullParser :=
  mkCursor StartTag s n a "" rest.

Definition onEnd (s n : string) (rest : list Token) : XMLPullParser :=
  mkCursor EndTag s n [] "" rest.

Definition onEOF : XMLPullParser := mkCursor EndDocument "" "" [] "" [].

Definition miscEvent (k : MiscKind) : XMLEventType :=
  match k with
  | KComment => Comment
  | KProcInst => ProcessingInstruction
  | KDirective => Directive
  end.

(** The cursor left by a failed read: the token state is cleared, the event
    is the last one seen and the input stays where the failure occurred. *)
Definition stalled (ev : XMLEventType) (rest : list Token) : XMLPullParser :=
  mkCursor ev "" "" [] "" rest.

(** Modelled from the spec: one step of the Cursor.  The end of the input is
    the event [EndDocument]; a malformed place is an error. *)
Definition NextToken (p : XMLPullParser) : outcome error (XMLEventType * XMLPullParser) :=
  match input p with
  | [] => Done (EndDocument, onEOF)
  | StartElement s n a :: rest => Done (StartTag, onStart s n a rest)
  | EndElement s n :: rest => Done (EndTag, onEnd s n rest)
  | CharData d :: rest => Done (Text, mkCursor Text "" "" [] d rest)
  | Misc k d :: rest => Done (miscEvent k, mkCursor (miscEvent k) "" "" [] "" rest)
  | Malformed m :: _ => Fail (ErrSyntax m)
  end.

(** Modelled from the spec: [Next] repeats [NextToken] over comments,
    directives and processing instructions and returns at a start tag, an end
    tag, text or the end of the document. *)
Fixpoint nextFrom (inp : list Token) : outcome error (XMLEventType * XMLPullParser) :=
  match inp with
  | [] => Done (EndDocument, onEOF)
  | StartElement s n a :: rest => Done (StartTag, onStart s n a rest)
  | EndElement s n :: rest => Done (EndTag, onEnd s n rest)
  | CharData d :: rest => Done (Text, mkCursor Text "" "" [] d rest)
  | Misc _ _ :: rest => nextFrom rest
  | Malformed m :: _ => Fail (ErrSyntax m)
  end.

Definition Next (p : XMLPullParser) : outcome error (XMLEventType * XMLPullParser) :=
  nextFrom (input p).

(** Modelled from the spec: "skip (consumes one full subtree unread)".
    From a start tag, tokens are read up to the end tag that closes it;
    [depth] counts the elements opened on the way.  The error is returned
    beside the cursor because callers drop it and go on with the cursor.
    Inside an open element the decoder reports the end of the input as an
    error. *)
Fixpoint skipFrom (depth : nat) (ev : XMLEventType) (inp : list Token)
  : XMLPullParser * option error :=
  match inp with
  | [] => (stalled ev [], Some ErrUnexpectedEOF)
  | StartElement _ _ _ :: rest => skipFrom (S depth) StartTag rest
  | EndElement s n :: rest =>
      match depth with
      | O => (onEnd s n rest, None)
      | S d => skipFrom d EndTag rest
      end
  | CharData _ :: rest => skipFrom depth Text rest
  | Misc k _ :: rest => skipFrom depth (miscEvent k) rest
  | Malformed m :: _ => (stalled ev inp, Some (ErrSyntax m))
  end.

Definition Skip (p : XMLPullParser) : XMLPullParser * option error :=
  skipFrom 0 (Event p) (input p).

(** Modelled from the spec: the content of the element the cursor stands on.
    The tokens up to the matching end tag are returned with the name on that
    end tag and the tokens after it. *)
Fixpoint element (depth : nat) (inp : list Token)
  : outcome error (list Token * (string * string) * list Token) :=
  match inp with
  | [] => Fail ErrUnexpectedEOF
  | StartElement s n a :: rest =>
      '(inner, nm, after) ← element (S depth) rest;
      mret (StartElement s n a :: inner, nm, after)
  | EndElement s n :: rest =>
      match depth with
      | O => Done ([], (s, n), rest)
      | S d =>
          '(inner, nm, after) ← element d rest;
          mret (EndElement s n :: inner, nm, after)
      end
  | Malformed m :: _ => Fail (ErrSyntax m)
  | t :: rest =>
      '(inner, nm, after) ← element depth rest;
      mret (t :: inner, nm, after)
  end.

(** Modelled from the spec: "read-attribute(name)"; the value of the first
    attribute with that local name, the empty string when there is none. *)
Fixpoint attributeOf (attrs : list Attr) (name : string) : string :=
  match attrs with
  | [] => ""
  | a :: rest => if bool_decide (Attr_Local a = name) then Attr_Value a else attributeOf rest name
  end.

Definition Attribute (p : XMLPullParser) (name : string) : string :=
  attributeOf (Attrs p) name.

(** Modelled from the spec: "expect-start(tag), expect-end(tag)"; the
    current event must be the given one and the current names must agree,
    letter case apart, with the given ones (["*"] agrees with every name). *)
Definition ExpectAll (p : XMLPullParser) (event : XMLEventType) (space name : string)
  : option error :=
  if bool_decide (Event p = event)
     && (bool_decide (ToLower (Space p) = ToLower space) || bool_decide (space = "*"))
     && (bool_decide (ToLower (Name p) = ToLower name) || bool_decide (name = "*"))
  then None
  else Some (ErrExpect event name (Event p) (Space p) (Name p)).

Definition Expect (p : XMLPullParser) (event : XMLEventType) (name : string) : option error :=
  ExpectAll p event "*" name.

End xpp.

(** ** Extensions and dates *)

Module ext.

(** Modelled from the spec: Extensions is an "opaque mapping" from the
    extension prefix and the element name to what was recorded for them
    ([ext.Extensions], a Go map of maps of slices, is not part of the sources
    at hand).  A recorded element is kept as its tokens. *)
Definition Extension : Type := list Token.

Abbreviation Extensions := (gmap string (gmap string (list Extension))).

End ext.

Module time.

(** [time.Time] as far as this code uses it: an instant and the location it
    is shown in. *)
Record Time : Type := mkTime {
  instant : Z;
  location : string
}.

(** [t.UTC()]: the same instant, shown in UTC. *)
Definition UTC (t : Time) : Time := mkTime (instant t) "UTC".

End time.

(** ** Helpers of [internal/shared] *)

Module shared.
Import xpp.

Section Helpers.

(** Modelled from the spec: the Extension capability,
    "recognizes(namespace) -> bool" and "given a namespace-qualified element
    and the current accumulator, returns an updated accumulator or an
    error; treated as fully opaque". *)
Variable recognizes : string → bool.
Variable extend : ext.Extensions → string → string → list Attr → list Token
                  → string + ext.Extensions.

(** Modelled from the spec: what "read-text" makes of the content of an
    element (trimming, CDATA and entity decoding happen here); it can refuse
    the content. *)
Variable decodeText : list Token → string + string.

(** Modelled from the spec: [FindRoot] reads up to the root start element,
    "skipping prolog, comments, whitespace"; reaching the end of the
    document first is an error. *)
Fixpoint findRootFrom (inp : list Token) : outcome error (XMLEventType * XMLPullParser) :=
  match inp with
  | [] => Fail ErrNoRoot
  | StartElement s n a :: rest => Done (StartTag, onStart s n a rest)
  | Malformed m :: _ => Fail (ErrSyntax m)
  | _ :: rest => findRootFrom rest
  end.

Definition FindRoot (p : XMLPullParser) : outcome error (XMLEventType * XMLPullParser) :=
  findRootFrom (input p).

(** Modelled from the spec: "next-significant-token (skips insignificant
    content, returns Start/End/EOF)", where the end of the input is
    "premature end-of-input" and fatal. *)
Fixpoint nextTagFrom (inp : list Token) : outcome error (XMLEventType * XMLPullParser) :=
  match inp with
  | [] => Fail ErrNoNextTag
  | StartElement s n a :: rest => Done (StartTag, onStart s n a rest)
  | EndElement s n :: rest => Done (EndTag, onEnd s n rest)
  | Malformed m :: _ => Fail (ErrSyntax m)
  | _ :: rest => nextTagFrom rest
  end.

Definition NextTag (p : XMLPullParser) : outcome error (XMLEventType * XMLPullParser) :=
  nextTagFrom (input p).

(** Modelled from the spec: whether the current element "belongs to a
    recognized extension namespace". *)
Definition IsExtension (p : XMLPullParser) : bool := recognizes (Space p).

(** Modelled from the spec: "read-text".  The element the cursor stands on is
    consumed up to its end tag, on which the cursor is left. *)
Definition ParseText (p : XMLPullParser) : outcome error (string * XMLPullParser) :=
  if bool_decide (Event p = StartTag) then
    '(inner, _, after) ← element 0 (input p);
    match decodeText inner with
    | inl m => Fail (ErrDecodeText m)
    | inr s => Done (s, onEnd "" (Name p) after)
    end
  else Fail ErrNotOnStartTag.

(** Modelled from the spec: the element is handed "entirely to the Extension
    capability", which returns the updated accumulator or an error.  The
    accumulator is a Go map: it is updated in place, so the map passed in and
    the map returned are one object. *)
Definition ParseExtension (fe : ext.Extensions) (p : XMLPullParser)
  : outcome error (ext.Extensions * XMLPullParser) :=
  '(inner, nm, after) ← element 0 (input p);
  match extend fe (Space p) (Name p) (Attrs p) inner with
  | inl m => Fail (ErrExtension m)
  | inr fe' => Done (fe', onEnd (fst nm) (snd nm) after)
  end.

End Helpers.

End shared.

(** ** [sitemap/feed.go] *)

Module sitemap.
Import xpp.

(** Image is an image that represents the feed. *)
Record Image : Type := mkImage {
  Image_Link : string
}.

(** Item is an RSS Item.  Pointer fields are options ([None] is nil); the
    extensions map is [None] while it is the nil map. *)
Record Item : Type := mkItem {
  Item_Title : string;
  Item_Link : string;
  Item_Image : option Image;
  Item_PubDate : string;
  Item_PubDateParsed : option time.Time;
  Item_Extensions : option ext.Extensions
}.

(** Feed is an RSS Feed. *)
Record Feed : Type := mkFeed {
  Feed_Title : string;
  Feed_Items : list Item;
  Feed_Language : string;
  Feed_Version : string
}.

(** News is a mid status for item. *)
Record News : Type := mkNews {
  News_Name : string;
  News_Title : string;
  News_Language : string;
  News_PublicationDate : string
}.

(** The zero values [&Item{}], [&Feed{}], [&News{}], [&Image{}]. *)
Definition Item0 : Item := mkItem "" "" None "" None None.
Definition Feed0 : Feed := mkFeed "" [] "" "".
Definition News0 : News := mkNews "" "" "" "".
Definition Image0 : Image := mkImage "".

(** Field assignments. *)
Definition setItemTitle (v : string) (i : Item) : Item :=
  mkItem v (Item_Link i) (Item_Image i) (Item_PubDate i) (Item_PubDateParsed i) (Item_Extensions i).
Definition setItemLink (v : string) (i : Item) : Item :=
  mkItem (Item_Title i) v (Item_Image i) (Item_PubDate i) (Item_PubDateParsed i) (Item_Extensions i).
Definition setItemImage (v : option Image) (i : Item) : Item :=
  mkItem (Item_Title i) (Item_Link i) v (Item_PubDate i) (Item_PubDateParsed i) (Item_Extensions i).
Definition setItemPubDate (v : string) (i : Item) : Item :=
  mkItem (Item_Title i) (Item_Link i) (Item_Image i) v (Item_PubDateParsed i) (Item_Extensions i).
Definition setItemPubDateParsed (v : option time.Time) (i : Item) : Item :=
  mkItem (Item_Title i) (Item_Link i) (Item_Image i) (Item_PubDate i) v (Item_Extensions i).
Definition setItemExtensions (v : option ext.Extensions) (i : Item) : Item :=
  mkItem (Item_Title i) (Item_Link i) (Item_Image i) (Item_PubDate i) (Item_PubDateParsed i) v.

Definition setFeedTitle (v : string) (f : Feed) : Feed :=
  mkFeed v (Feed_Items f) (Feed_Language f) (Feed_Version f).
Definition setFeedItems (v : list Item) (f : Feed) : Feed :=
  mkFeed (Feed_Title f) v (Feed_Language f) (Feed_Version f).
Definition setFeedLanguage (v : string) (f : Feed) : Feed :=
  mkFeed (Feed_Title f) (Feed_Items f) v (Feed_Version f).
Definition setFeedVersion (v : string) (f : Feed) : Feed :=
  mkFeed (Feed_Title f) (Feed_Items f) (Feed_Language f) v.

Definition setNewsName (v : string) (n : News) : News :=
  mkNews v (News_Title n) (News_Language n) (News_PublicationDate n).
Definition setNewsTitle (v : string) (n : News) : News :=
  mkNews (News_Name n) v (News_Language n) (News_PublicationDate n).
Definition setNewsLanguage (v : string) (n : News) : News :=
  mkNews (News_Name n) (News_Title n) v (News_PublicationDate n).
Definition setNewsPublicationDate (v : string) (n : News) : News :=
  mkNews (News_Name n) (News_Title n) (News_Language n) v.

(** An assignment through a [*Feed]: a nil pointer makes it panic. *)
Definition assign (f : Feed → Feed) (channel : option Feed) : outcome error (option Feed) :=
  match channel with
  | None => Panic
  | Some c => Done (Some (f c))
  end.

(** [if err := ...; err != nil { return ..., err }] *)
Definition check {A} (err : option error) (k : outcome error A) : outcome error A :=
  match err with
  | Some e => Fail e
  | None => k
  end.

(** ** [sitemap/parse.go] *)

Section Parser.

Variable recognizes : string → bool.
Variable extend : ext.Extensions → string → string → list Attr → list Token
                  → string + ext.Extensions.
Variable decodeText : list Token → string + string.

(** Modelled from the spec: [shared.ParseDate], the "best-effort parse" of
    a raw date; [None] is its error. *)
Variable ParseDate : string → option time.Time.

Local Abbreviation IsExtension := (shared.IsExtension recognizes).
Local Abbreviation ParseExtension := (shared.ParseExtension extend).
Local Abbreviation ParseText := (shared.ParseText decodeText).
Local Abbreviation NextTag := shared.NextTag.

(** The loop of [parsePublication]. *)
Fixpoint parsePublicationLoop (fuel : nat) (news : News) (p : XMLPullParser)
  : outcome error (News * XMLPullParser) :=
  match fuel with
  | O => Starved
  | S fuel =>
      '(tok, p) ← NextTag p;
      if bool_decide (tok = EndTag) then Done (news, p)
      else if bool_decide (tok = StartTag) then
        let name := ToLower (Name p) in
        if bool_decide (name = "name") then
          '(result, p) ← ParseText p;
          parsePublicationLoop fuel (setNewsName result news) p
        else if bool_decide (name = "language") then
          '(result, p) ← ParseText p;
          parsePublicationLoop fuel (setNewsLanguage result news) p
        else
          parsePublicationLoop fuel news (fst (Skip p))
      else parsePublicationLoop fuel news p
  end.

Definition parsePublication (fuel : nat) (p : XMLPullParser)
  : outcome error (News * XMLPullParser) :=
  check (Expect p StartTag "publication") (
    '(news, p) ← parsePublicationLoop fuel News0 p;
    check (Expect p EndTag "publication") (
      Done (news, p))).

(** The loop of [parseImage]. *)
Fixpoint parseImageLoop (fuel : nat) (image : Image) (p : XMLPullParser)
  : outcome error (Image * XMLPullParser) :=
  match fuel with
  | O => Starved
  | S fuel =>
      '(tok, p) ← NextTag p;
      if bool_decide (tok = EndTag) then Done (image, p)
      else if bool_decide (tok = StartTag) then
        let name := ToLower (Name p) in
        if bool_decide (name = "loc") then
          '(result, p) ← ParseText p;
          parseImageLoop fuel (mkImage result) p
        else
          parseImageLoop fuel image (fst (Skip p))
      else parseImageLoop fuel image p
  end.

Definition parseImage (fuel : nat) (p : XMLPullParser)
  : outcome error (Image * XMLPullParser) :=
  check (Expect p StartTag "image") (
    '(image, p) ← parseImageLoop fuel Image0 p;
    check (Expect p EndTag "image") (
      Done (image, p))).

(** The loop of [parseNews]. *)
Fixpoint parseNewsLoop (fuel : nat) (news : News) (p : XMLPullParser)
  : outcome error (News * XMLPullParser) :=
  match fuel with
  | O => Starved
  | S fuel =>
      '(tok, p) ← NextTag p;
      if bool_decide (tok = EndTag) then Done (news, p)
      else if bool_decide (tok = StartTag) then
        let name := ToLower (Name p) in
        if bool_decide (name = "publication") then
          '(result, p) ← parsePublication fuel p;
          parseNewsLoop fuel
            (setNewsLanguage (News_Language result) (setNewsName (News_Name result) news)) p
        else if bool_decide (name = "publication_date") then
          '(result, p) ← ParseText p;
          parseNewsLoop fuel (setNewsPublicationDate result news) p
        else if bool_decide (name = "title") then
          '(result, p) ← ParseText p;
          parseNewsLoop fuel (setNewsTitle result news) p
        else
          parseNewsLoop fuel news (fst (Skip p))
      else parseNewsLoop fuel news p
  end.

Definition parseNews (fuel : nat) (p : XMLPullParser)
  : outcome error (News * XMLPullParser) :=
  check (Expect p StartTag "news") (
    '(news, p) ← parseNewsLoop fuel News0 p;
    check (Expect p EndTag "news") (
      Done (news, p))).

(** What the loop of [parseItem] carries: [item], [feed] and the local map
    [extensions]. *)
Record ItemState : Type := mkItemState {
  st_item : Item;
  st_feed : Feed;
  st_extensions : ext.Extensions
}.

(** [item.PubDateParsed] after [shared.ParseDate]: assigned only when the
    date parses. *)
Definition withParsedDate (raw : string) (item : Item) : Item :=
  match ParseDate raw with
  | Some date => setItemPubDateParsed (Some (time.UTC date)) item
  | None => item
  end.

(** The loop of [parseItem]. *)
Fixpoint parseItemLoop (fuel : nat) (st : ItemState) (p : XMLPullParser)
  : outcome error (ItemState * XMLPullParser) :=
  match fuel with
  | O => Starved
  | S fuel =>
      '(tok, p) ← NextTag p;
      if bool_decide (tok = EndTag) then Done (st, p)
      else if bool_decide (tok = StartTag) then
        let name := ToLower (Name p) in
        if IsExtension p then
          '(ext, p) ← ParseExtension (st_extensions st) p;
          parseItemLoop fuel
            (mkItemState (setItemExtensions (Some ext) (st_item st)) (st_feed st) ext) p
        else if bool_decide (name = "news") then
          '(result, p) ← parseNews fuel p;
          let item := setItemTitle (News_Title result) (st_item st) in
          let item := setItemPubDate (News_PublicationDate result) item in
          let item := withParsedDate (News_PublicationDate result) item in
          let feed := setFeedTitle (News_Name result) (st_feed st) in
          let feed := setFeedLanguage (News_Language result) feed in
          parseItemLoop fuel (mkItemState item feed (st_extensions st)) p
        else if bool_decide (name = "loc") then
          if bool_decide (0 < String.length (Item_Link (st_item st)))%nat then
            parseItemLoop fuel st p
          else
            '(result, p) ← ParseText p;
            parseItemLoop fuel
              (mkItemState (setItemLink result (st_item st)) (st_feed st) (st_extensions st)) p
        else if bool_decide (name = "image") then
          '(result, p) ← parseImage fuel p;
          parseItemLoop fuel
            (mkItemState (setItemImage (Some result) (st_item st)) (st_feed st)
                         (st_extensions st)) p
        else
          parseItemLoop fuel st (fst (Skip p))
      else parseItemLoop fuel st p
  end.

Definition parseItem (fuel : nat) (p : XMLPullParser)
  : outcome error (Item * Feed * XMLPullParser) :=
  check (Expect p StartTag "url") (
    '(st, p) ← parseItemLoop fuel (mkItemState Item0 Feed0 ∅) p;
    let item :=
      if bool_decide (0 < size (st_extensions st))%nat
      then setItemExtensions (Some (st_extensions st)) (st_item st)
      else st_item st in
    check (Expect p EndTag "url") (
      Done (item, st_feed st, p))).

Definition parseVersion (p : XMLPullParser) : string :=
  let name := ToLower (Name p) in
  if bool_decide (name = "urlset") then
    let ns := Attribute p "xmlns" in
    if bool_decide (ns = "http://www.sitemaps.org/schemas/sitemap/0.9") then "0.9"
    else "unknow"
  else "unknow".

(** The loop of [parseRoot]; [channel] is the pointer [*Feed]. *)
Fixpoint parseRootLoop (fuel : nat) (channel : option Feed) (items : list Item)
  (p : XMLPullParser) : outcome error (option Feed * list Item * XMLPullParser) :=
  match fuel with
  | O => Starved
  | S fuel =>
      '(tok, p) ← NextTag p;
      if bool_decide (tok = EndTag) then Done (channel, items, p)
      else if bool_decide (tok = StartTag) then
        if IsExtension p then
          parseRootLoop fuel channel items (fst (Skip p))
        else
          let name := ToLower (Name p) in
          if bool_decide (name = "url") then
            '(item, feed, p) ← parseItem fuel p;
            let items := items ++ [item] in
            if bool_decide (channel = None) then
              channel ← (if negb (bool_decide (Feed_Title feed = ""))
                         then assign (setFeedTitle (Feed_Title feed)) channel
                         else assign (setFeedTitle "unkonow") channel);
              channel ← (if negb (bool_decide (Feed_Language feed = ""))
                         then assign (setFeedLanguage (Feed_Language feed)) channel
                         else assign (setFeedLanguage "unknow") channel);
              parseRootLoop fuel channel items p
            else
              parseRootLoop fuel channel items p
          else
            parseRootLoop fuel channel items (fst (Skip p))
      else parseRootLoop fuel channel items p
  end.

Definition parseRoot (fuel : nat) (p : XMLPullParser) : outcome error Feed :=
  match Expect p StartTag "urlset" with
  | Some sitemapErr => Fail (Errorf sitemapErr)
  | None =>
      let channel := Some Feed0 in
      let items : list Item := [] in
      let ver := parseVersion p in
      '(channel, items, p) ← parseRootLoop fuel channel items p;
      match Expect p EndTag "urlset" with
      | Some sitemapErr => Fail (Errorf sitemapErr)
      | None =>
          let channel := match channel with
                         | None => setFeedItems [] Feed0
                         | Some c => c
                         end in
          let channel :=
            if bool_decide (0 < List.length items)%nat
            then setFeedItems (Feed_Items channel ++ items) channel
            else channel in
          Done (setFeedVersion ver channel)
      end
  end.

(** Parse parses an xml feed into an sitemap.Feed.  The reader is given as
    the tokens the decoder makes of it. *)
Definition Parse (feed : list Token) : outcome error Feed :=
  let p := NewXMLPullParser feed in
  '(_, p) ← shared.FindRoot p;
  parseRoot (S (List.length feed)) p.

End Parser.

End sitemap.

(** ** [net/http] as far as [parser.go] uses it *)

Module http.

(** [url.URL] built as [&url.URL{Host: ...}]. *)
Record URL : Type := mkURL {
  Host : string
}.

(** [http.Transport]; [Proxy] is the URL that [http.ProxyURL] makes every
    request go through. *)
Record Transport : Type := mkTransport {
  TLSHandshakeTimeout : Z;
  ExpectContinueTimeout : Z;
  Proxy : option URL
}.

(** [http.Client]; a nil [Transport] is the default transport. *)
Record Client : Type := mkClient {
  Transport_ : option Transport;
  Timeout : Z
}.

Record Request : Type := mkRequest {
  Method : string;
  RequestURL : string;
  Header : list (string * string)
}.

(** [http.Response]; [CloseError] is what [Body.Close()] will return. *)
Record Response : Type := mkResponse {
  StatusCode : Z;
  Status : string;
  Body : list Byte.byte;
  CloseError : option string
}.

(** [req.Header.Set(key, value)] *)
Definition HeaderSet (key value : string) (req : Request) : Request :=
  mkRequest (Method req) (RequestURL req)
            ((key, value) :: filter (λ kv, kv.1 ≠ key) (Header req)).

End http.

(** ** [parser.go] *)

Module gofeed.

(** [time.Second], in nanoseconds. *)
Definition Second : Z := 1000000000.

(** FeedType represents one of the possible feed types that we can detect. *)
Inductive FeedType : Type :=
| FeedTypeUnknown
| FeedTypeAtom
| FeedTypeRSS
| FeedTypeSitemap.

#[global] Instance FeedType_eq_dec : EqDecision FeedType.
Proof. solve_decision. Defined.

(** An error value that a dialect parser or a translator returns.  It can be
    an [HTTPError], a struct that any code can make, or any other value; it
    cannot be the value that [errors.New] makes in [Parse], a pointer that
    does not exist before. *)
Inductive foreign : Type :=
| AnHTTPError (StatusCode : Z) (Status : string)
| Another (msg : string).

(** The errors the orchestrating parser returns, by where they come from:
    the error made by [errors.New] in [Parse] is a value of its own, the
    others are handed on from a collaborator. *)
Inductive error : Type :=
| ErrFailedToDetect
| HTTPError (StatusCode : Z) (Status : string)
| FromSitemap (e : xpp.error)
| FromRSS (msg : string)
| FromAtom (msg : string)
| FromTranslator (msg : string)
| FromClient (msg : string)
| FromBody (msg : string).

(** An error of a collaborator, handed on as it is: an [HTTPError] value
    is the same value wherever it was made. *)
Definition handed (origin : string → error) (e : foreign) : error :=
  match e with
  | AnHTTPError code status => HTTPError code status
  | Another msg => origin msg
  end.

Section Orchestrator.

(** The collaborators of the sitemap parser. *)
Variable recognizes : string → bool.
Variable extend : ext.Extensions → string → string → list Attr → list Token
                  → string + ext.Extensions.
Variable decodeText : list Token → string + string.
Variable ParseDate : string → option time.Time.

(** The XML decoder: the tokens of a byte stream, and the number of bytes a
    cursor has pulled from the stream once it has found the root. *)
Variable decode : list Byte.byte → list Token.
Variable pulled : list Byte.byte → nat.

(** Modelled from the spec: the dialect trees of RSS and Atom with their
    extractors, and the canonical [Feed]; their sources are not at hand. *)
Variable RSSFeed AtomFeed Feed : Type.
Variable rssParse : list Byte.byte → foreign + RSSFeed.
Variable atomParse : list Byte.byte → foreign + AtomFeed.

(** The argument of [Translate] is an [interface{}]. *)
Inductive AnyFeed : Type :=
| OfAtom (af : AtomFeed)
| OfRSS (rf : RSSFeed)
| OfSitemap (sf : sitemap.Feed).

(** Modelled from the spec: the Translator interface,
    "translate(dialectFeed) -> CanonicalFeed; pure, no I/O, no mutation of
    its input". *)
Record Translator : Type := mkTranslator {
  Translate : AnyFeed → foreign + Feed
}.

Variable DefaultAtomTranslator DefaultRSSTranslator DefaultSitemapTranslator : Translator.

(** The HTTP collaborators: building a request, sending it with a client, and
    the base64 encoding. *)
Variable NewRequest : string → string → string + http.Request.
Variable roundTrip : http.Client → http.Request → string + http.Response.
Variable base64 : string → string.

(** Parser is a universal feed parser that detects a given feed type, parsers
    it, and translates it to the universal feed type.  The fields [rp], [ap]
    and [sp] point to parsers without fields. *)
Record Parser : Type := mkParser {
  AtomTranslator : option Translator;
  RSSTranslator : option Translator;
  SitemapTranslator : option Translator;
  Client : option http.Client
}.

(** NewParser creates a universal feed parser. *)
Definition NewParser : Parser := mkParser None None None None.

(** DetectFeedType attempts to determine the type of feed by looking for
    specific xml elements unique to the various feed types. *)
Definition DetectFeedType (feed : list Byte.byte) : FeedType :=
  let p := xpp.NewXMLPullParser (decode feed) in
  match shared.FindRoot p with
  | Done (_, p) =>
      let name := ToLower (xpp.Name p) in
      if bool_decide (name = "rdf") then FeedTypeRSS
      else if bool_decide (name = "rss") then FeedTypeRSS
      else if bool_decide (name = "feed") then FeedTypeAtom
      else if bool_decide (name = "urlset") then FeedTypeSitemap
      else FeedTypeUnknown
  | _ => FeedTypeUnknown
  end.

Definition atomTrans (f : Parser) : Translator * Parser :=
  match AtomTranslator f with
  | Some t => (t, f)
  | None =>
      (DefaultAtomTranslator,
       mkParser (Some DefaultAtomTranslator) (RSSTranslator f) (SitemapTranslator f) (Client f))
  end.

Definition rssTrans (f : Parser) : Translator * Parser :=
  match RSSTranslator f with
  | Some t => (t, f)
  | None =>
      (DefaultRSSTranslator,
       mkParser (AtomTranslator f) (Some DefaultRSSTranslator) (SitemapTranslator f) (Client f))
  end.

Definition sitemapTrans (f : Parser) : Translator * Parser :=
  match SitemapTranslator f with
  | Some t => (t, f)
  | None =>
      (DefaultSitemapTranslator,
       mkParser (AtomTranslator f) (RSSTranslator f) (Some DefaultSitemapTranslator) (Client f))
  end.

(** [return t.Translate(v)] *)
Definition translated (t : Translator) (v : AnyFeed) : outcome error Feed :=
  match Translate t v with
  | inl e => Fail (handed FromTranslator e)
  | inr feed => Done feed
  end.

Definition parseAtomFeed (f : Parser) (feed : list Byte.byte) : outcome error Feed * Parser :=
  match atomParse feed with
  | inl e => (Fail (handed FromAtom e), f)
  | inr af => let '(t, f) := atomTrans f in (translated t (OfAtom af), f)
  end.

Definition parseRSSFeed (f : Parser) (feed : list Byte.byte) : outcome error Feed * Parser :=
  match rssParse feed with
  | inl e => (Fail (handed FromRSS e), f)
  | inr rf => let '(t, f) := rssTrans f in (translated t (OfRSS rf), f)
  end.

Definition parseSitemapFeed (f : Parser) (feed : list Byte.byte) : outcome error Feed * Parser :=
  match sitemap.Parse recognizes extend decodeText ParseDate (decode feed) with
  | Done sf => let '(t, f) := sitemapTrans f in (translated t (OfSitemap sf), f)
  | Fail e => (Fail (FromSitemap e), f)
  | Panic => (Panic, f)
  | Starved => (Starved, f)
  end.

(** Parse parses a RSS or Atom feed into the universal gofeed.Feed.  The
    bytes that [DetectFeedType] pulls through the [io.TeeReader] are kept in
    [buf] and glued back in front of what is left of [feed]. *)
Definition Parse (f : Parser) (feed : list Byte.byte) : outcome error Feed * Parser :=
  let buf := take (pulled feed) feed in
  let feedType := DetectFeedType feed in
  let feed := drop (pulled feed) feed in
  let r := buf ++ feed in
  match feedType with
  | FeedTypeAtom => parseAtomFeed f r
  | FeedTypeRSS => parseRSSFeed f r
  | FeedTypeSitemap => parseSitemapFeed f r
  | FeedTypeUnknown => (Fail ErrFailedToDetect, f)
  end.

(** ParseString parses a feed XML string and into the universal feed type. *)
Definition ParseString (f : Parser) (feed : string) : outcome error Feed * Parser :=
  Parse f (list_byte_of_string feed).

Definition httpClient (f : Parser) : http.Client * Parser :=
  match Client f with
  | Some c => (c, f)
  | None =>
      let timeout := (15 * Second)%Z in
      let c := http.mkClient None timeout in
      (c, mkParser (AtomTranslator f) (RSSTranslator f) (SitemapTranslator f) (Some c))
  end.

Definition httpClientWithProxy (f : Parser) (uRLProxy : string) : http.Client * Parser :=
  match Client f with
  | Some c => (c, f)
  | None =>
      let timeout := (15 * Second)%Z in
      let urlProxys := http.mkURL uRLProxy in
      let c := http.mkClient
                 (Some (http.mkTransport (10 * Second)%Z (1 * Second)%Z (Some urlProxys)))
                 timeout in
      (c, mkParser (AtomTranslator f) (RSSTranslator f) (SitemapTranslator f) (Some c))
  end.

(** What a function with the named results [(feed *Feed, err error)]
    returns. *)
Inductive returned : Type :=
| Return (feed : option Feed) (err : option error)
| Panics
| Starves.

(** [return f.Parse(resp.Body)] under the deferred function that closes the
    body and, when closing fails, puts its error in [err]. *)
Definition closing (ce : option string) (r : outcome error Feed) : returned :=
  match r with
  | Done feed => Return (Some feed) (if ce is Some m then Some (FromBody m) else None)
  | Fail e => Return None (if ce is Some m then Some (FromBody m) else Some e)
  | Panic => Panics
  | Starved => Starves
  end.

(** What follows the request in [ParseURL] and [ParseURLWithProxy]. *)
Definition answer (f : Parser) (sent : string + http.Response) : returned * Parser :=
  match sent with
  | inl m => (Return None (Some (FromClient m)), f)
  | inr resp =>
      if bool_decide (http.StatusCode resp < 200)%Z || bool_decide (400 ≤ http.StatusCode resp)%Z
      then (Return None (Some (HTTPError (http.StatusCode resp) (http.Status resp))), f)
      else
        let '(r, f) := Parse f (http.Body resp) in
        (closing (http.CloseError resp) r, f)
  end.

(** [client.Get(url)] *)
Definition Get (client : http.Client) (url : string) : string + http.Response :=
  match NewRequest "GET" url with
  | inl m => inl m
  | inr req => roundTrip client req
  end.

(** ParseURL fetches the contents of a given url and attempts to parse the
    response into the universal feed type. *)
Definition ParseURL (f : Parser) (feedURL : string) : returned * Parser :=
  let '(client, f) := httpClient f in
  answer f (Get client feedURL).

(** ParseURLWithProxy is add proxy for pasre.  The error of [http.NewRequest]
    is dropped, so a request that could not be built is a nil pointer. *)
Definition ParseURLWithProxy (f : Parser) (feedURL proxyURL proxyName proxyPasswd : string)
  : returned * Parser :=
  let '(client, f) := httpClientWithProxy f proxyURL in
  match NewRequest "GET" feedURL with
  | inl _ => (Panics, f)
  | inr req =>
      let basePas := base64 (proxyName +:+ ":" +:+ proxyPasswd) in
      let req := http.HeaderSet "Proxy-Authorization" ("Basic " +:+ basePas) req in
      answer f (roundTrip client req)
  end.

End Orchestrator.

End gofeed.

(** ** Reading a document as a tree

    What the sub-parsers make of the children of an element, read off the
    tree of a well-formed document.  [None] says that the parser does not
    return a value there.  These readings are compared with the cursor-driven
    parsers below. *)

Module document.
Import sitemap.

Section Reading.

Variable recognizes : string → bool.
Variable extend : ext.Extensions → string → string → list Attr → list Token
                  → string + ext.Extensions.
Variable decodeText : list Token → string + string.
Variable ParseDate : string → option time.Time.

(** The text of an element with the children [cs]. *)
Definition textOf (cs : list Node) : option string :=
  match decodeText (forest cs) with
  | inr s => Some s
  | inl _ => None
  end.

(** The children of a "publication" element. *)
Fixpoint publicationOf (news : News) (cs : list Node) : option News :=
  match cs with
  | [] => Some news
  | Element _ nm _ kids :: cs' =>
      let name := ToLower nm in
      if bool_decide (name = "name") then
        result ← textOf kids; publicationOf (setNewsName result news) cs'
      else if bool_decide (name = "language") then
        result ← textOf kids; publicationOf (setNewsLanguage result news) cs'
      else publicationOf news cs'
  | _ :: cs' => publicationOf news cs'
  end.

(** The children of an "image" element. *)
Fixpoint imageOf (image : Image) (cs : list Node) : option Image :=
  match cs with
  | [] => Some image
  | Element _ nm _ kids :: cs' =>
      if bool_decide (ToLower nm = "loc") then
        result ← textOf kids; imageOf (mkImage result) cs'
      else imageOf image cs'
  | _ :: cs' => imageOf image cs'
  end.

(** The children of a "news" element. *)
Fixpoint newsOf (news : News) (cs : list Node) : option News :=
  match cs with
  | [] => Some news
  | Element _ nm _ kids :: cs' =>
      let name := ToLower nm in
      if bool_decide (name = "publication") then
        result ← publicationOf News0 kids;
        newsOf (setNewsLanguage (News_Language result) (setNewsName (News_Name result) news)) cs'
      else if bool_decide (name = "publication_date") then
        result ← textOf kids; newsOf (setNewsPublicationDate result news) cs'
      else if bool_decide (name = "title") then
        result ← textOf kids; newsOf (setNewsTitle result news) cs'
      else newsOf news cs'
  | _ :: cs' => newsOf news cs'
  end.

(** The children of a "url" element.  A "loc" child met when the link is
    already set is not read by the parser, which then does not return an
    item. *)
Fixpoint itemChildren (st : ItemState) (cs : list Node) : option ItemState :=
  match cs with
  | [] => Some st
  | Element sp nm at_ kids :: cs' =>
      let name := ToLower nm in
      if recognizes sp then
        match extend (st_extensions st) sp nm at_ (forest kids) with
        | inr e =>
            itemChildren
              (mkItemState (setItemExtensions (Some e) (st_item st)) (st_feed st) e) cs'
        | inl _ => None
        end
      else if bool_decide (name = "news") then
        result ← newsOf News0 kids;
        let item := setItemTitle (News_Title result) (st_item st) in
        let item := setItemPubDate (News_PublicationDate result) item in
        let item := withParsedDate ParseDate (News_PublicationDate result) item in
        let feed := setFeedTitle (News_Name result) (st_feed st) in
        let feed := setFeedLanguage (News_Language result) feed in
        itemChildren (mkItemState item feed (st_extensions st)) cs'
      else if bool_decide (name = "loc") then
        if bool_decide (0 < String.length (Item_Link (st_item st)))%nat then None
        else
          result ← textOf kids;
          itemChildren
            (mkItemState (setItemLink result (st_item st)) (st_feed st) (st_extensions st)) cs'
      else if bool_decide (name = "image") then
        result ← imageOf Image0 kids;
        itemChildren
          (mkItemState (setItemImage (Some result) (st_item st)) (st_feed st)
                       (st_extensions st)) cs'
      else itemChildren st cs'
  | _ :: cs' => itemChildren st cs'
  end.

(** The item and the feed hints of a "url" element with the children [cs]. *)
Definition itemOf (cs : list Node) : option (Item * Feed) :=
  st ← itemChildren (mkItemState Item0 Feed0 ∅) cs;
  let item :=
    if bool_decide (0 < size (st_extensions st))%nat
    then setItemExtensions (Some (st_extensions st)) (st_item st)
    else st_item st in
  Some (item, st_feed st).

(** The children of the root that the root loop hands to the item
    sub-parser: elements outside the extension namespaces whose lower-cased
    name is "url". *)
Definition isUrl (n : Node) : bool :=
  match n with
  | Element sp nm _ _ => negb (recognizes sp) && bool_decide (ToLower nm = "url")
  | _ => false
  end.

Definition urlChildren (cs : list Node) : list Node := List.filter isUrl cs.

Definition itemOfNode (n : Node) : option Item :=
  match n with
  | Element _ _ _ kids => fst <$> itemOf kids
  | _ => None
  end.

(** Children of a "url" element by what the item loop does with them. *)
Definition isExtensionChild (n : Node) : bool :=
  match n with
  | Element sp _ _ _ => recognizes sp
  | _ => false
  end.

Definition isNewsChild (n : Node) : bool :=
  match n with
  | Element sp nm _ _ => negb (recognizes sp) && bool_decide (ToLower nm = "news")
  | _ => false
  end.

Definition isLocChild (n : Node) : bool :=
  match n with
  | Element sp nm _ _ => negb (recognizes sp) && bool_decide (ToLower nm = "loc")
  | _ => false
  end.

Definition isImageChild (n : Node) : bool :=
  match n with
  | Element sp nm _ _ => negb (recognizes sp) && bool_decide (ToLower nm = "image")
  | _ => false
  end.

(** Children of a "news" element that carry the publication date. *)
Definition isPublicationDate (n : Node) : bool :=
  match n with
  | Element _ nm _ _ => bool_decide (ToLower nm = "publication_date")
  | _ => false
  end.

(** Children of a "news" element that carry the publication. *)
Definition isPublication (n : Node) : bool :=
  match n with
  | Element _ nm _ _ => bool_decide (ToLower nm = "publication")
  | _ => false
  end.

End Reading.

(** Tokens that can stand in front of the root start tag: anything but a
    start tag and a malformed place. *)
Definition isProlog (t : Token) : bool :=
  match t with
  | StartElement _ _ _ | Malformed _ => false
  | _ => true
  end.

(** Nodes that are not elements: text, comments, processing instructions and
    directives. *)
Definition isLeaf (n : Node) : bool :=
  match n with
  | Element _ _ _ _ => false
  | _ => true
  end.

(** An item without its parsed date, and a feed without the parsed dates of
    its items. *)
Definition forgetDate (i : Item) : Item := setItemPubDateParsed None i.

Definition forgetDates (f : Feed) : Feed := setFeedItems (forgetDate <$> Feed_Items f) f.

Definition forgetState (st : ItemState) : ItemState :=
  mkItemState (forgetDate (st_item st)) (st_feed st) (st_extensions st).

End document.

(** ** Calls that return *)

(** A call returns: it ends with a value or with an error, it neither
    panics nor goes on for ever. *)
Definition returns {E A} (o : outcome E A) : Prop :=
  match o with
  | Done _ | Fail _ => True
  | Panic | Starved => False
  end.

(** A call returns and, when it gives a value, leaves a cursor with fewer
    than [n] tokens to read. *)
Definition below {A} (n : nat) (o : outcome xpp.error (A * xpp.XMLPullParser)) : Prop :=
  match o with
  | Done (_, p) => (List.length (xpp.input p) < n)%nat
  | Fail _ => True
  | Panic | Starved => False
  end.

(** ** Example collaborators and documents *)

Module example.

(** An element with a prefix is an extension element. *)
Definition recognizes (space : string) : bool := negb (bool_decide (space = "")).

(** The element is recorded under its prefix and its name. *)
Definition extend (fe : ext.Extensions) (space name : string) (attrs : list Attr)
  (inner : list Token) : string + ext.Extensions :=
  let m := default ∅ (fe !! space) in
  inr (<[space := <[name := default [] (m !! name) ++ [inner]]> m]> fe).

(** The text of an element: its character data. *)
Fixpoint chars (l : list Token) : string :=
  match l with
  | [] => ""
  | CharData d :: rest => d +:+ chars rest
  | _ :: rest => chars rest
  end.

Definition decodeText (l : list Token) : string + string := inr (chars l).

(** A date parser that knows two spellings of one instant. *)
Definition ParseDate (raw : string) : option time.Time :=
  if bool_decide (raw = "2024-01-02T00:00:00Z") then Some (time.mkTime 1704153600 "UTC")
  else if bool_decide (raw = "2024-01-02T01:00:00+01:00")
       then Some (time.mkTime 1704153600 "+01:00")
  else None.

(** A date parser that knows no date. *)
Definition noDate (raw : string) : option time.Time := None.

Definition Parse : list Token → outcome xpp.error sitemap.Feed :=
  sitemap.Parse recognizes extend decodeText ParseDate.

Definition el (name : string) (kids : list Node) : Node := Element "" name [] kids.

Definition sitemapNS : string := "http://www.sitemaps.org/schemas/sitemap/0.9".

(** [<url><loc>http://a/</loc><news>...</news></url>] *)
Definition newsKids : list Node :=
  [ el "publication" [ el "name" [Chars "N"]; el "language" [Chars "en"] ];
    el "publication_date" [Chars "2024-01-02T01:00:00+01:00"];
    el "title" [Chars "T"] ].

Definition newsUrlKids : list Node :=
  [ el "loc" [Chars "http://a/"]; el "news" newsKids ].

Definition newsDoc : list Token :=
  tokens (el "urlset" [ el "url" newsUrlKids ]).

(** [<urlset><url><loc>a</loc><loc>b</loc></url></urlset>] *)
Definition twoLocDoc : list Token :=
  tokens (el "urlset" [ el "url" [ el "loc" [Chars "a"]; el "loc" [Chars "b"] ] ]).

(** [<urlset><url><loc>http://a/</loc></url>
     <url><loc>http://b/</loc><loc>http://c/</loc></url></urlset>] *)
Definition secondLocKids : list Node :=
  [ el "url" [ el "loc" [Chars "http://a/"] ];
    el "url" [ el "loc" [Chars "http://b/"]; el "loc" [Chars "http://c/"] ] ].

Definition secondLocDoc : list Token := tokens (el "urlset" secondLocKids).

(** [<urlset><url>
       <news><publication_date>2024-01-02T00:00:00Z</publication_date></news>
       <news><publication_date>yesterday</publication_date></news>
     </url></urlset>] *)
Definition twoNewsKids : list Node :=
  [ el "news" [ el "publication_date" [Chars "2024-01-02T00:00:00Z"] ];
    el "news" [ el "publication_date" [Chars "yesterday"] ] ].

Definition twoNewsDoc : list Token := tokens (el "urlset" [ el "url" twoNewsKids ]).

(** [<urlset></urlset>] *)
Definition bareDoc : list Token := tokens (el "urlset" []).

(** [<urlset xmlns="http://www.sitemaps.org/schemas/sitemap/0.9">
     <url><loc>http://a/</loc></url></urlset>] *)
Definition nsDoc : list Token :=
  tokens (Element "" "urlset" [mkAttr "" "xmlns" sitemapNS]
            [ el "url" [ el "loc" [Chars "http://a/"] ] ]).

(** A root with two "url" children, an extension element, an unknown
    element with a "url" below it, text and a comment. *)
Definition mixedKids : list Node :=
  [ Chars " ";
    el "url" [ el "loc" [Chars "http://a/"] ];
    Element "x" "url" [] [ el "loc" [Chars "http://x/"] ];
    Other KComment "c";
    el "group" [ el "url" [ el "loc" [Chars "http://g/"] ] ];
    el "URL" [ el "loc" [Chars "http://b/"]; Element "x" "note" [] [Chars "n"] ] ].

Definition mixedPrologue : list Node := [ Other KProcInst "xml"; Chars " " ].

Definition mixedDoc : list Token :=
  forest mixedPrologue ++ tokens (el "urlset" mixedKids) ++ [CharData " "].

(** The value of a call that returns one. *)
Definition valueOf (o : outcome xpp.error sitemap.Feed) : sitemap.Feed :=
  match o with
  | Done feed => feed
  | _ => sitemap.Feed0
  end.

Definition nsFeed : sitemap.Feed := valueOf (Parse nsDoc).
Definition mixedFeed : sitemap.Feed := valueOf (Parse mixedDoc).

(** The cursor on the root start tag of [nsDoc]. *)
Definition nsRoot : xpp.XMLPullParser :=
  xpp.onStart "" "urlset" [mkAttr "" "xmlns" sitemapNS] (List.tl nsDoc).

(** *** Collaborators of the orchestrating parser *)

(** A decoder that knows five byte streams; any other stream is malformed
    from its first token on. *)
Definition decode (feed : list Byte.byte) : list Token :=
  let s := string_of_list_byte feed in
  if bool_decide (s = "<RSS/>") then tokens (el "RSS" [])
  else if bool_decide (s = "<!--c--><Feed/>") then Misc KComment "c" :: tokens (el "Feed" [])
  else if bool_decide (s = "<urlset/>") then tokens (el "urlset" [])
  else if bool_decide (s = "<html/>") then tokens (el "html" [])
  else if bool_decide (s = "<!--c-->") then [Misc KComment "c"]
  else [Malformed "syntax error"].

(** The detector has pulled the whole stream when it returns. *)
Definition pulled (feed : list Byte.byte) : nat := List.length feed.

Definition rssParse (feed : list Byte.byte) : gofeed.foreign + string := inr "rss tree".
Definition atomParse (feed : list Byte.byte) : gofeed.foreign + string := inr "atom tree".

(** A translator to a canonical feed that is a string. *)
Definition translator : gofeed.Translator string string string :=
  gofeed.mkTranslator string string string
    (λ v, match v with
          | gofeed.OfAtom _ _ af => inr af
          | gofeed.OfRSS _ _ rf => inr rf
          | gofeed.OfSitemap _ _ sf => inr (sitemap.Feed_Version sf)
          end).

(** [http.NewRequest] refuses a URL without a scheme before its colon. *)
Definition NewRequest (method url : string) : string + http.Request :=
  if bool_decide (url = ":") then inl "parse: missing protocol scheme"
  else inr (http.mkRequest method url []).

(** A server that answers every request with the stream of an empty
    Sitemap. *)
Definition roundTrip (c : http.Client) (req : http.Request) : string + http.Response :=
  inr (http.mkResponse 200 "200 OK" (list_byte_of_string "<urlset/>") None).

Definition base64 (s : string) : string := s.

Definition gofeedParse :=
  gofeed.Parse recognizes extend decodeText ParseDate decode pulled string string string
    rssParse atomParse translator translator translator.

Definition ParseURL :=
  gofeed.ParseURL recognizes extend decodeText ParseDate decode pulled string string string
    rssParse atomParse translator translator translator NewRequest roundTrip.

Definition ParseURLWithProxy :=
  gofeed.ParseURLWithProxy recognizes extend decodeText ParseDate decode pulled
    string string string rssParse atomParse translator translator translator
    NewRequest roundTrip base64.

(** A fresh parser after one call of [ParseURL]. *)
Definition usedParser : gofeed.Parser string string string :=
  (ParseURL (gofeed.NewParser string string string) "http://a/").2.

(** A server that does not know the page, and one whose body fails to
    close. *)
Definition notFound (c : http.Client) (req : http.Request) : string + http.Response :=
  inr (http.mkResponse 404 "404 Not Found" (list_byte_of_string "<urlset/>") None).

Definition brokenBody (c : http.Client) (req : http.Request) : string + http.Response :=
  inr (http.mkResponse 200 "200 OK" (list_byte_of_string "<urlset/>")
         (Some "connection reset")).

Definition ParseURLFrom (server : http.Client → http.Request → string + http.Response) :=
  gofeed.ParseURL recognizes extend decodeText ParseDate decode pulled string string string
    rssParse atomParse translator translator translator NewRequest server.

End example.

(** * Facts about the cursor *)

Lemma bind_Done {E A B} (m : outcome E A) (f : A → outcome E B) b :
  m ≫= f = Done b → ∃ a, m = Done a ∧ f a = Done b.
Proof. destruct m; simpl; intros H; try discriminate. eauto. Qed.

Lemma check_Done {A} err (k : outcome xpp.error A) r :
  sitemap.check err k = Done r → err = None ∧ k = Done r.
Proof. destruct err; simpl; intros H; [discriminate | auto]. Qed.

(** Induction over a node and, with it, over the nodes below it. *)
Lemma Node_forest_ind (P : Node → Prop) :
  (∀ s n a cs, Forall P cs → P (Element s n a cs)) →
  (∀ d, P (Chars d)) →
  (∀ k d, P (Other k d)) →
  ∀ n, P n.
Proof.
  intros HE HC HO. fix IH 1. intros [s n a cs | d | k d].
  - apply HE. induction cs as [| c cs IHcs]; constructor; [apply IH | exact IHcs].
  - apply HC.
  - apply HO.
Qed.

Lemma forest_cons n cs : forest (n :: cs) = tokens n ++ forest cs.
Proof. reflexivity. Qed.

Lemma forest_app cs1 cs2 : forest (cs1 ++ cs2) = forest cs1 ++ forest cs2.
Proof. unfold forest. apply flat_map_app. Qed.

Lemma tokens_Element s n a cs :
  tokens (Element s n a cs) = StartElement s n a :: forest cs ++ [EndElement s n].
Proof. reflexivity. Qed.

(** Reading the content of an element runs through whole nodes. *)
Lemma element_tokens n : ∀ d more,
  xpp.element d (tokens n ++ more) =
  '(inner, nm, after) ← xpp.element d more; mret (tokens n ++ inner, nm, after).
Proof.
  induction n as [s n a cs IH | t | k t] using Node_forest_ind; intros d more.
  - assert (Hcs : ∀ d more, xpp.element d (forest cs ++ more) =
        '(inner, nm, after) ← xpp.element d more; mret (forest cs ++ inner, nm, after)).
    { clear d more. induction IH as [| c cs Hc _ IHcs]; intros d more.
      - simpl. destruct (xpp.element d more) as [[[? ?] ?] | | |]; reflexivity.
      - rewrite forest_cons, <- app_assoc, Hc, IHcs.
        destruct (xpp.element d more) as [[[? ?] ?] | | |]; simpl; try reflexivity.
        by rewrite <- app_assoc. }
    rewrite tokens_Element. simpl. rewrite <- app_assoc, Hcs. simpl.
    destruct (xpp.element d more) as [[[? ?] ?] | | |]; simpl; try reflexivity.
    by rewrite <- app_assoc.
  - simpl. destruct (xpp.element d more) as [[[? ?] ?] | | |]; reflexivity.
  - simpl. destruct (xpp.element d more) as [[[? ?] ?] | | |]; reflexivity.
Qed.

Lemma element_forest cs s n rest :
  xpp.element 0 (forest cs ++ EndElement s n :: rest) = Done (forest cs, (s, n), rest).
Proof.
  induction cs as [| c cs IH]; [reflexivity |].
  rewrite forest_cons, <- app_assoc, element_tokens, IH. simpl.
  reflexivity.
Qed.

(** Skipping runs through whole nodes, whatever the event before them. *)
Lemma skipFrom_tokens n : ∀ d ev more,
  ∃ ev', xpp.skipFrom d ev (tokens n ++ more) = xpp.skipFrom d ev' more.
Proof.
  induction n as [s n a cs IH | t | k t] using Node_forest_ind; intros d ev more.
  - assert (Hcs : ∀ d ev more,
        ∃ ev', xpp.skipFrom d ev (forest cs ++ more) = xpp.skipFrom d ev' more).
    { clear d ev more. induction IH as [| c cs Hc _ IHcs]; intros d ev more.
      - by exists ev.
      - rewrite forest_cons, <- app_assoc.
        destruct (Hc d ev (forest cs ++ more)) as [ev1 ->]. apply IHcs. }
    rewrite tokens_Element. simpl. rewrite <- app_assoc.
    destruct (Hcs (S d) xpp.StartTag ([EndElement s n] ++ more)) as [ev1 ->].
    simpl. by eexists.
  - simpl. by eexists.
  - simpl. by eexists.
Qed.

Lemma Skip_forest cs s n rest p :
  xpp.input p = forest cs ++ EndElement s n :: rest →
  xpp.Skip p = (xpp.onEnd s n rest, None).
Proof.
  unfold xpp.Skip. intros ->. generalize (xpp.Event p). 
  induction cs as [| c cs IH]; intros ev; [reflexivity |].
  rewrite forest_cons, <- app_assoc.
  destruct (skipFrom_tokens c 0 ev (forest cs ++ EndElement s n :: rest)) as [ev1 ->].
  apply IH.
Qed.

Lemma forest_Element_cons sp nm at_ cs ks more :
  forest (Element sp nm at_ cs :: ks) ++ more =
  StartElement sp nm at_ :: forest cs ++ EndElement sp nm :: forest ks ++ more.
Proof.
  rewrite forest_cons, tokens_Element. simpl. by rewrite <- !app_assoc.
Qed.

(** The next tag is looked for behind text, comments and the like. *)
Lemma nextTagFrom_leaf n more :
  document.isLeaf n = true →
  shared.nextTagFrom (tokens n ++ more) = shared.nextTagFrom more.
Proof. destruct n; [discriminate | reflexivity | reflexivity]. Qed.

Lemma ParseText_forest decodeText sp nm at_ cs s n rest :
  shared.ParseText decodeText (xpp.onStart sp nm at_ (forest cs ++ EndElement s n :: rest)) =
  match decodeText (forest cs) with
  | inl m => Fail (xpp.ErrDecodeText m)
  | inr t => Done (t, xpp.onEnd "" nm rest)
  end.
Proof.
  unfold shared.ParseText. simpl. rewrite element_forest. reflexivity.
Qed.

Lemma ParseExtension_forest extend fe sp nm at_ cs s n rest :
  shared.ParseExtension extend fe (xpp.onStart sp nm at_ (forest cs ++ EndElement s n :: rest)) =
  match extend fe sp nm at_ (forest cs) with
  | inl m => Fail (xpp.ErrExtension m)
  | inr fe' => Done (fe', xpp.onEnd s n rest)
  end.
Proof.
  unfold shared.ParseExtension. simpl. rewrite element_forest. reflexivity.
Qed.

Lemma Skip_onStart sp nm at_ cs s n rest :
  xpp.Skip (xpp.onStart sp nm at_ (forest cs ++ EndElement s n :: rest)) =
  (xpp.onEnd s n rest, None).
Proof. by apply (Skip_forest cs). Qed.

(** [Expect] on the cursors the sub-parsers are started and left on. *)
Lemma Expect_onStart sp nm at_ rest name :
  ToLower nm = ToLower name → xpp.Expect (xpp.onStart sp nm at_ rest) xpp.StartTag name = None.
Proof.
  intros H. unfold xpp.Expect, xpp.ExpectAll. simpl.
  rewrite (bool_decide_eq_true_2 _ H), orb_true_r. reflexivity.
Qed.

Lemma Expect_onEnd sp nm rest name :
  ToLower nm = ToLower name → xpp.Expect (xpp.onEnd sp nm rest) xpp.EndTag name = None.
Proof.
  intros H. unfold xpp.Expect, xpp.ExpectAll. simpl.
  rewrite (bool_decide_eq_true_2 _ H), orb_true_r. reflexivity.
Qed.

Lemma Expect_None p ev name :
  xpp.Expect p ev name = None →
  xpp.Event p = ev ∧ (ToLower (xpp.Name p) = ToLower name ∨ name = "*").
Proof.
  unfold xpp.Expect, xpp.ExpectAll.
  destruct (bool_decide (xpp.Event p = ev)) eqn:E1; simpl; [| discriminate].
  destruct (bool_decide (ToLower (xpp.Name p) = ToLower name)) eqn:E2;
    destruct (bool_decide (name = "*")) eqn:E3; simpl;
    rewrite ?orb_true_r; simpl; try discriminate; intros _;
    apply bool_decide_eq_true in E1; split; auto.
  - left. by apply bool_decide_eq_true in E2.
  - left. by apply bool_decide_eq_true in E2.
  - right. by apply bool_decide_eq_true in E3.
Qed.

(** * The sub-parsers read the tree *)

#[local] Arguments shared.ParseText : simpl never.
#[local] Arguments shared.ParseExtension : simpl never.
#[local] Arguments xpp.Skip : simpl never.
#[local] Arguments sitemap.parsePublication : simpl never.
#[local] Arguments sitemap.parseNews : simpl never.
#[local] Arguments sitemap.parseImage : simpl never.
#[local] Arguments sitemap.parseItem : simpl never.

Section Refinement.

Variable recognizes : string → bool.
Variable extend : ext.Extensions → string → string → list Attr → list Token
                  → string + ext.Extensions.
Variable decodeText : list Token → string + string.
Variable ParseDate : string → option time.Time.

Lemma parsePublicationLoop_reads fuel : ∀ kids news p s n rest news' p',
  xpp.input p = forest kids ++ EndElement s n :: rest →
  sitemap.parsePublicationLoop decodeText fuel news p = Done (news', p') →
  document.publicationOf decodeText news kids = Some news' ∧ p' = xpp.onEnd s n rest.
Proof.
  induction fuel as [| fuel IHf]; [discriminate |].
  induction kids as [| [sp nm at_ cs | d | k d] ks IHk]; intros news p s n rest news' p' Hin H;
    simpl in H; unfold shared.NextTag in H; rewrite Hin in H.
  - simpl in H. by inversion H.
  - rewrite forest_Element_cons in H. simpl in H.
    cbn [document.publicationOf]. unfold document.textOf.
    repeat case_bool_decide; rewrite ?ParseText_forest, ?Skip_onStart in H;
      try (destruct (decodeText (forest cs)); simpl in H; [discriminate |]);
      simpl; eapply IHf in H; try reflexivity; exact H.
  - eapply (IHk news (xpp.NewXMLPullParser _)); [reflexivity |]. exact H.
  - eapply (IHk news (xpp.NewXMLPullParser _)); [reflexivity |]. exact H.
Qed.


Lemma parsePublication_reads fuel sp nm at_ cs s n rest news' p' :
  sitemap.parsePublication decodeText fuel
    (xpp.onStart sp nm at_ (forest cs ++ EndElement s n :: rest)) = Done (news', p') →
  document.publicationOf decodeText sitemap.News0 cs = Some news' ∧ p' = xpp.onEnd s n rest.
Proof.
  unfold sitemap.parsePublication. intros H.
  apply check_Done in H as [_ H]. apply bind_Done in H as [[news1 p1] [H1 H2]].
  apply check_Done in H2 as [_ H2]. inversion H2; subst.
  eapply parsePublicationLoop_reads in H1; [exact H1 | reflexivity].
Qed.

Lemma parseImageLoop_reads fuel : ∀ kids image p s n rest image' p',
  xpp.input p = forest kids ++ EndElement s n :: rest →
  sitemap.parseImageLoop decodeText fuel image p = Done (image', p') →
  document.imageOf decodeText image kids = Some image' ∧ p' = xpp.onEnd s n rest.
Proof.
  induction fuel as [| fuel IHf]; [discriminate |].
  induction kids as [| [sp nm at_ cs | d | k d] ks IHk]; intros image p s n rest image' p' Hin H;
    simpl in H; unfold shared.NextTag in H; rewrite Hin in H.
  - simpl in H. by inversion H.
  - rewrite forest_Element_cons in H. simpl in H.
    cbn [document.imageOf]. unfold document.textOf.
    repeat case_bool_decide; rewrite ?ParseText_forest, ?Skip_onStart in H;
      try (destruct (decodeText (forest cs)); simpl in H; [discriminate |]);
      simpl; eapply IHf in H; try reflexivity; exact H.
  - eapply (IHk image (xpp.NewXMLPullParser _)); [reflexivity |]. exact H.
  - eapply (IHk image (xpp.NewXMLPullParser _)); [reflexivity |]. exact H.
Qed.

Lemma parseImage_reads fuel sp nm at_ cs s n rest image' p' :
  sitemap.parseImage decodeText fuel
    (xpp.onStart sp nm at_ (forest cs ++ EndElement s n :: rest)) = Done (image', p') →
  document.imageOf decodeText sitemap.Image0 cs = Some image' ∧ p' = xpp.onEnd s n rest.
Proof.
  unfold sitemap.parseImage. intros H.
  apply check_Done in H as [_ H]. apply bind_Done in H as [[image1 p1] [H1 H2]].
  apply check_Done in H2 as [_ H2]. inversion H2; subst.
  eapply parseImageLoop_reads in H1; [exact H1 | reflexivity].
Qed.

Lemma parseNewsLoop_reads fuel : ∀ kids news p s n rest news' p',
  xpp.input p = forest kids ++ EndElement s n :: rest →
  sitemap.parseNewsLoop decodeText fuel news p = Done (news', p') →
  document.newsOf decodeText news kids = Some news' ∧ p' = xpp.onEnd s n rest.
Proof.
  induction fuel as [| fuel IHf]; [discriminate |].
  induction kids as [| [sp nm at_ cs | d | k d] ks IHk]; intros news p s n rest news' p' Hin H;
    simpl in H; unfold shared.NextTag in H; rewrite Hin in H.
  - simpl in H. by inversion H.
  - rewrite forest_Element_cons in H. simpl in H.
    cbn [document.newsOf]. unfold document.textOf.
    repeat case_bool_decide; rewrite ?ParseText_forest, ?Skip_onStart in H.
    + apply bind_Done in H as [[result p1] [Hsub Hrest]].
      apply parsePublication_reads in Hsub as [-> ->]. simpl.
      eapply IHf in Hrest; [exact Hrest | reflexivity].
    + destruct (decodeText (forest cs)); simpl in H; [discriminate |].
      simpl. eapply IHf in H; [exact H | reflexivity].
    + destruct (decodeText (forest cs)); simpl in H; [discriminate |].
      simpl. eapply IHf in H; [exact H | reflexivity].
    + simpl in H. eapply IHf in H; [exact H | reflexivity].
  - eapply (IHk news (xpp.NewXMLPullParser _)); [reflexivity |]. exact H.
  - eapply (IHk news (xpp.NewXMLPullParser _)); [reflexivity |]. exact H.
Qed.

Lemma parseNews_reads fuel sp nm at_ cs s n rest news' p' :
  sitemap.parseNews decodeText fuel
    (xpp.onStart sp nm at_ (forest cs ++ EndElement s n :: rest)) = Done (news', p') →
  document.newsOf decodeText sitemap.News0 cs = Some news' ∧ p' = xpp.onEnd s n rest.
Proof.
  unfold sitemap.parseNews. intros H.
  apply check_Done in H as [_ H]. apply bind_Done in H as [[news1 p1] [H1 H2]].
  apply check_Done in H2 as [_ H2]. inversion H2; subst.
  eapply parseNewsLoop_reads in H1; [exact H1 | reflexivity].
Qed.

(** The loop of [parseItem] either reads the children up to the end tag of
    the element, or stops on the end tag of a "loc" element that it has
    entered without reading it. *)
Lemma parseItemLoop_reads fuel : ∀ kids st p s n rest st' p',
  xpp.input p = forest kids ++ EndElement s n :: rest →
  sitemap.parseItemLoop recognizes extend decodeText ParseDate fuel st p = Done (st', p') →
  (document.itemChildren recognizes extend decodeText ParseDate st kids = Some st'
   ∧ p' = xpp.onEnd s n rest)
  ∨ (xpp.Event p' = xpp.EndTag ∧ ToLower (xpp.Name p') = "loc").
Proof.
  induction fuel as [| fuel IHf]; [discriminate |].
  induction kids as [| [sp nm at_ cs | d | k d] ks IHk]; intros st p s n rest st' p' Hin H;
    simpl in H; unfold shared.NextTag in H; rewrite Hin in H.
  - simpl in H. left. by inversion H.
  - rewrite forest_Element_cons in H. simpl in H.
    cbn [document.itemChildren]. unfold document.textOf.
    unfold shared.IsExtension in H. simpl in H.
    destruct (recognizes sp).
    { rewrite ParseExtension_forest in H.
      destruct (extend _ sp nm at_ (forest cs)); simpl in H; [discriminate |].
      eapply IHf in H; [exact H | reflexivity]. }
    repeat case_bool_decide; rewrite ?ParseText_forest, ?Skip_onStart in H.
    + apply bind_Done in H as [[result p1] [Hsub Hrest]].
      apply parseNews_reads in Hsub as [-> ->]. simpl.
      eapply IHf in Hrest; [exact Hrest | reflexivity].
    + right. eapply IHf in H; [| reflexivity].
      destruct H as [[_ ->] | H]; [by split | exact H].
    + destruct (decodeText (forest cs)); simpl in H; [discriminate |].
      simpl. eapply IHf in H; [exact H | reflexivity].
    + apply bind_Done in H as [[result p1] [Hsub Hrest]].
      apply parseImage_reads in Hsub as [-> ->]. simpl.
      eapply IHf in Hrest; [exact Hrest | reflexivity].
    + simpl in H. eapply IHf in H; [exact H | reflexivity].
  - eapply (IHk st (xpp.NewXMLPullParser _)); [reflexivity |]. exact H.
  - eapply (IHk st (xpp.NewXMLPullParser _)); [reflexivity |]. exact H.
Qed.

End Refinement.

Lemma mapM_cons_Some {A B} (f : A → option B) x l y k :
  f x = Some y → mapM f l = Some k → mapM f (x :: l) = Some (y :: k).
Proof. intros Hx Hl. cbn [mapM]. rewrite Hx. simpl. rewrite Hl. reflexivity. Qed.

Section Root.

Variable recognizes : string → bool.
Variable extend : ext.Extensions → string → string → list Attr → list Token
                  → string + ext.Extensions.
Variable decodeText : list Token → string + string.
Variable ParseDate : string → option time.Time.

Local Abbreviation parseItem := (sitemap.parseItem recognizes extend decodeText ParseDate).
Local Abbreviation parseRootLoop := (sitemap.parseRootLoop recognizes extend decodeText ParseDate).
Local Abbreviation parseRoot := (sitemap.parseRoot recognizes extend decodeText ParseDate).
Local Abbreviation Parse := (sitemap.Parse recognizes extend decodeText ParseDate).
Local Abbreviation itemOf := (document.itemOf recognizes extend decodeText ParseDate).
Local Abbreviation itemOfNode := (document.itemOfNode recognizes extend decodeText ParseDate).
Local Abbreviation urlChildren := (document.urlChildren recognizes).

(** [parseItem] returns an item only when it has read the element to its end
    tag, and the item is the one read off the tree. *)
Lemma parseItem_reads fuel sp nm at_ cs s n rest item feed p' :
  parseItem fuel (xpp.onStart sp nm at_ (forest cs ++ EndElement s n :: rest))
    = Done (item, feed, p') →
  itemOf cs = Some (item, feed) ∧ p' = xpp.onEnd s n rest.
Proof.
  unfold sitemap.parseItem. intros H.
  apply check_Done in H as [_ H]. apply bind_Done in H as [[st p1] [Hloop Hend]].
  apply check_Done in Hend as [Hexp Hend]. inversion Hend; subst; clear Hend.
  eapply parseItemLoop_reads in Hloop; [| reflexivity].
  destruct Hloop as [[Hkids ->] | [_ Hloc]].
  - split; [| reflexivity]. unfold document.itemOf. rewrite Hkids. reflexivity.
  - apply Expect_None in Hexp as [_ [Hname | Hstar]]; [| discriminate].
    rewrite Hloc in Hname. discriminate.
Qed.

(** The pointer [channel] is never nil in the root loop, so the loop leaves
    the feed it points to as it is. *)
Lemma parseRootLoop_channel fuel : ∀ c items p ch' items' p',
  parseRootLoop fuel (Some c) items p = Done (ch', items', p') → ch' = Some c.
Proof.
  induction fuel as [| fuel IHf]; [discriminate |].
  intros c items p ch' items' p' H. simpl in H.
  apply bind_Done in H as [[tok p1] [_ H]].
  destruct (bool_decide (tok = xpp.EndTag)); [by inversion H |].
  destruct (bool_decide (tok = xpp.StartTag)); [| by eapply IHf].
  destruct (shared.IsExtension recognizes p1); [by eapply IHf |].
  destruct (bool_decide (ToLower (xpp.Name p1) = "url")); [| by eapply IHf].
  apply bind_Done in H as [[[item feed] p2] [_ H]].
  by eapply IHf.
Qed.

Lemma parseRootLoop_reads fuel : ∀ kids c items p s n rest ch' items' p',
  xpp.input p = forest kids ++ EndElement s n :: rest →
  parseRootLoop fuel (Some c) items p = Done (ch', items', p') →
  p' = xpp.onEnd s n rest ∧
  ∃ its, mapM itemOfNode (urlChildren kids) = Some its ∧ items' = items ++ its.
Proof.
  induction fuel as [| fuel IHf]; [discriminate |].
  induction kids as [| [sp nm at_ cs | d | k d] ks IHk];
    intros c items p s n rest ch' items' p' Hin H;
    simpl in H; unfold shared.NextTag in H; rewrite Hin in H.
  - simpl in H. inversion H; subst. split; [reflexivity |].
    exists []. by rewrite app_nil_r.
  - rewrite forest_Element_cons in H. simpl in H.
    unfold shared.IsExtension in H. simpl in H.
    unfold document.urlChildren. cbn [List.filter document.isUrl].
    destruct (recognizes sp); simpl.
    { rewrite Skip_onStart in H. eapply IHf in H; [exact H | reflexivity]. }
    case_bool_decide as Hurl.
    + apply bind_Done in H as [[[item feed] p2] [Hitem H]].
      apply parseItem_reads in Hitem as [Hitem ->].
      eapply IHf in H; [| reflexivity].
      destruct H as [-> [its [Hits ->]]]. split; [reflexivity |].
      exists (item :: its). split; [| by rewrite <- app_assoc].
      apply mapM_cons_Some; [| exact Hits].
      unfold document.itemOfNode. by rewrite Hitem.
    + rewrite Skip_onStart in H. eapply IHf in H; [exact H | reflexivity].
  - eapply (IHk c items (xpp.NewXMLPullParser _)); [reflexivity |]. exact H.
  - eapply (IHk c items (xpp.NewXMLPullParser _)); [reflexivity |]. exact H.
Qed.

(** What [parseRoot] returns, for any token stream: the feed keeps the empty
    title and language it was created with. *)
Lemma parseRoot_Done fuel p feed :
  parseRoot fuel p = Done feed →
  xpp.Expect p xpp.StartTag "urlset" = None ∧
  ∃ items p',
    parseRootLoop fuel (Some sitemap.Feed0) [] p = Done (Some sitemap.Feed0, items, p') ∧
    feed = sitemap.mkFeed "" items "" (sitemap.parseVersion p).
Proof.
  unfold sitemap.parseRoot. intros H.
  destruct (xpp.Expect p xpp.StartTag "urlset"); [discriminate |].
  split; [reflexivity |].
  apply bind_Done in H as [[[ch items] p1] [Hloop H]].
  pose proof (parseRootLoop_channel _ _ _ _ _ _ _ Hloop) as ->.
  destruct (xpp.Expect p1 xpp.EndTag "urlset"); [discriminate |].
  exists items, p1. split; [exact Hloop |].
  inversion H; subst; clear H.
  case_bool_decide as Hlen; [reflexivity |].
  destruct items; [reflexivity | simpl in Hlen; lia].
Qed.

Lemma Parse_Done doc feed :
  Parse doc = Done feed →
  ∃ tok p, shared.FindRoot (xpp.NewXMLPullParser doc) = Done (tok, p) ∧
           parseRoot (S (List.length doc)) p = Done feed.
Proof.
  unfold sitemap.Parse. intros H.
  apply bind_Done in H as [[tok p] [Hroot H]]. eauto.
Qed.

Lemma findRootFrom_leaves pre rest :
  Forall (λ n, document.isLeaf n = true) pre →
  shared.findRootFrom (forest pre ++ rest) = shared.findRootFrom rest.
Proof.
  induction 1 as [| n pre Hn _ IH]; [reflexivity |].
  rewrite forest_cons, <- app_assoc.
  destruct n; [discriminate | exact IH | exact IH].
Qed.

(** The parse of a well-formed document whose root element has the children
    [kids], behind a prolog [pre] without elements. *)
Lemma Parse_document pre s n a kids post feed :
  Forall (λ n, document.isLeaf n = true) pre →
  Parse (forest pre ++ tokens (Element s n a kids) ++ post) = Done feed →
  ∃ items, mapM itemOfNode (urlChildren kids) = Some items ∧
           feed = sitemap.mkFeed "" items "" (sitemap.parseVersion (xpp.onStart s n a [])).
Proof.
  intros Hpre H. apply Parse_Done in H as [tok [p [Hroot H]]].
  unfold shared.FindRoot, xpp.NewXMLPullParser in Hroot. cbn [xpp.input] in Hroot.
  rewrite findRootFrom_leaves, tokens_Element in Hroot by exact Hpre.
  cbn [app shared.findRootFrom] in Hroot. inversion Hroot; subst; clear Hroot.
  apply parseRoot_Done in H as [_ [items [p' [Hloop ->]]]].
  rewrite <- app_assoc in Hloop.
  eapply parseRootLoop_reads in Hloop; [| reflexivity].
  destruct Hloop as [_ [its [Hits ->]]]. by exists its.
Qed.

End Root.

(** * What a "url" element gives, read off the tree *)

Section Items.

Variable recognizes : string → bool.
Variable extend : ext.Extensions → string → string → list Attr → list Token
                  → string + ext.Extensions.
Variable decodeText : list Token → string + string.
Variable ParseDate : string → option time.Time.

Local Abbreviation itemChildren := (document.itemChildren recognizes extend decodeText ParseDate).
Local Abbreviation itemOf := (document.itemOf recognizes extend decodeText ParseDate).
Local Abbreviation newsOf := (document.newsOf decodeText).
Local Abbreviation isNewsChild := (document.isNewsChild recognizes).
Local Abbreviation isExtensionChild := (document.isExtensionChild recognizes).

Lemma itemChildren_app k1 : ∀ st k2,
  itemChildren st (k1 ++ k2) = itemChildren st k1 ≫= λ st1, itemChildren st1 k2.
Proof.
  induction k1 as [| [sp nm at_ cs | d | k d] k1 IH]; intros st k2; simpl; try apply IH.
  - by destruct (itemChildren st k2).
  - destruct (recognizes sp).
    { destruct (extend _ sp nm at_ (forest cs)); [reflexivity | apply IH]. }
    repeat case_bool_decide; try apply IH; try reflexivity.
    + destruct (document.newsOf decodeText sitemap.News0 cs); simpl; [apply IH | reflexivity].
    + destruct (document.textOf decodeText cs); simpl; [apply IH | reflexivity].
    + destruct (document.imageOf decodeText sitemap.Image0 cs); simpl; [apply IH | reflexivity].
Qed.

Lemma newsOf_app n1 : ∀ news n2,
  newsOf news (n1 ++ n2) = newsOf news n1 ≫= λ news1, newsOf news1 n2.
Proof.
  induction n1 as [| [sp nm at_ cs | d | k d] n1 IH]; intros news n2; simpl; try apply IH.
  - by destruct (newsOf news n2).
  - repeat case_bool_decide; try apply IH.
    + destruct (document.publicationOf decodeText sitemap.News0 cs); simpl; [apply IH | reflexivity].
    + destruct (document.textOf decodeText cs); simpl; [apply IH | reflexivity].
    + destruct (document.textOf decodeText cs); simpl; [apply IH | reflexivity].
Qed.

(** Children other than "publication_date" leave the publication date. *)
Lemma newsOf_keeps_date n2 : ∀ news news',
  Forall (λ c, document.isPublicationDate c = false) n2 →
  newsOf news n2 = Some news' →
  sitemap.News_PublicationDate news' = sitemap.News_PublicationDate news.
Proof.
  induction n2 as [| [sp nm at_ cs | d | k d] n2 IH]; intros news news' Hall H;
    inversion Hall as [| ? ? Hc Hrest]; subst; simpl in H.
  - by inversion H.
  - simpl in Hc. apply bool_decide_eq_false in Hc.
    repeat case_bool_decide; try contradiction.
    + destruct (document.publicationOf decodeText sitemap.News0 cs); [| discriminate].
      simpl in H. by rewrite (IH _ _ Hrest H).
    + destruct (document.textOf decodeText cs); [| discriminate].
      simpl in H. by rewrite (IH _ _ Hrest H).
    + by apply IH.
  - by apply IH.
  - by apply IH.
Qed.

(** The publication date of the news is the text of its last
    "publication_date" child. *)
Lemma newsOf_date n1 ds dn da dkids n2 news0 news :
  ToLower dn = "publication_date" →
  Forall (λ c, document.isPublicationDate c = false) n2 →
  newsOf news0 (n1 ++ Element ds dn da dkids :: n2) = Some news →
  decodeText (forest dkids) = inr (sitemap.News_PublicationDate news).
Proof.
  intros Hdn Hn2 H. rewrite newsOf_app in H.
  destruct (newsOf news0 n1) as [news1 |]; [| discriminate]. simpl in H.
  rewrite Hdn in H. simpl in H. unfold document.textOf in H.
  destruct (decodeText (forest dkids)) as [| raw]; [discriminate |]. simpl in H.
  apply newsOf_keeps_date in H; [| exact Hn2]. by rewrite H.
Qed.

(** Children other than "news" leave the title and the dates of the item. *)
Lemma itemChildren_keeps_news k : ∀ st st',
  Forall (λ c, isNewsChild c = false) k →
  itemChildren st k = Some st' →
  sitemap.Item_Title (sitemap.st_item st') = sitemap.Item_Title (sitemap.st_item st) ∧
  sitemap.Item_PubDate (sitemap.st_item st') = sitemap.Item_PubDate (sitemap.st_item st) ∧
  sitemap.Item_PubDateParsed (sitemap.st_item st')
    = sitemap.Item_PubDateParsed (sitemap.st_item st).
Proof.
  induction k as [| [sp nm at_ cs | d | kd d] k IH]; intros st st' Hall H;
    inversion Hall as [| ? ? Hc Hrest]; subst; simpl in H.
  - by inversion H.
  - simpl in Hc. destruct (recognizes sp).
    { destruct (extend _ sp nm at_ (forest cs)); [discriminate |].
      by destruct (IH _ _ Hrest H) as (-> & -> & ->). }
    simpl in Hc. apply bool_decide_eq_false in Hc.
    repeat case_bool_decide; try contradiction; try discriminate.
    + destruct (document.textOf decodeText cs); [| discriminate].
      simpl in H. by destruct (IH _ _ Hrest H) as (-> & -> & ->).
    + destruct (document.imageOf decodeText sitemap.Image0 cs); [| discriminate].
      simpl in H. by destruct (IH _ _ Hrest H) as (-> & -> & ->).
    + by apply IH.
  - by apply IH.
  - by apply IH.
Qed.

(** The extensions of the item and the local map, by whether an extension
    child has been met. *)
Lemma itemChildren_extensions k : ∀ st st',
  itemChildren st k = Some st' →
  if existsb isExtensionChild k
  then is_Some (sitemap.Item_Extensions (sitemap.st_item st'))
  else sitemap.Item_Extensions (sitemap.st_item st')
         = sitemap.Item_Extensions (sitemap.st_item st)
       ∧ sitemap.st_extensions st' = sitemap.st_extensions st.
Proof.
  assert (Hsome : ∀ k st st', itemChildren st k = Some st' →
            is_Some (sitemap.Item_Extensions (sitemap.st_item st)) →
            is_Some (sitemap.Item_Extensions (sitemap.st_item st'))).
  { clear k. induction k as [| [sp nm at_ cs | d | kd d] k IH]; intros st st' H Hs; simpl in H.
    - by inversion H; subst.
    - destruct (recognizes sp).
      { destruct (extend _ sp nm at_ (forest cs)); [discriminate |].
        eapply IH; [exact H | by eexists]. }
      repeat case_bool_decide; try discriminate.
      + destruct (document.newsOf decodeText sitemap.News0 cs); [| discriminate].
        simpl in H. eapply IH; [exact H |].
        unfold sitemap.withParsedDate. by destruct (ParseDate _).
      + destruct (document.textOf decodeText cs); [| discriminate].
        simpl in H. by eapply IH.
      + destruct (document.imageOf decodeText sitemap.Image0 cs); [| discriminate].
        simpl in H. by eapply IH.
      + by eapply IH.
    - by eapply IH.
    - by eapply IH. }
  induction k as [| [sp nm at_ cs | d | kd d] k IH]; intros st st' H; simpl in H.
  - inversion H; subst. by split.
  - simpl. destruct (recognizes sp) eqn:Hsp; simpl.
    { destruct (extend _ sp nm at_ (forest cs)); [discriminate |].
      eapply Hsome; [exact H | by eexists]. }
    repeat case_bool_decide; try discriminate.
    + destruct (document.newsOf decodeText sitemap.News0 cs); [| discriminate].
      simpl in H. apply IH in H. destruct (existsb isExtensionChild k); [exact H |].
      destruct H as [-> ->]. split; [| reflexivity].
      unfold sitemap.withParsedDate. by destruct (ParseDate _).
    + destruct (document.textOf decodeText cs); [| discriminate].
      simpl in H. by apply IH in H.
    + destruct (document.imageOf decodeText sitemap.Image0 cs); [| discriminate].
      simpl in H. by apply IH in H.
    + by apply IH in H.
  - by apply IH in H.
  - by apply IH in H.
Qed.

End Items.

(** * The date parser only decides the parsed dates *)

Lemma outcome_rel_bind {E A1 A2 B1 B2} (R : A1 → A2 → Prop) (S : B1 → B2 → Prop)
    (m1 : outcome E A1) (m2 : outcome E A2) f1 f2 :
  outcome_rel R m1 m2 →
  (∀ a1 a2, R a1 a2 → outcome_rel S (f1 a1) (f2 a2)) →
  outcome_rel S (m1 ≫= f1) (m2 ≫= f2).
Proof.
  destruct m1, m2; simpl; intros Hm Hf; try contradiction; auto.
Qed.

Lemma outcome_rel_same {E C A B} (S : A → B → Prop) (m : outcome E C)
    (f1 : C → outcome E A) (f2 : C → outcome E B) :
  (∀ a, outcome_rel S (f1 a) (f2 a)) →
  outcome_rel S (m ≫= f1) (m ≫= f2).
Proof. destruct m; simpl; auto. Qed.

Lemma outcome_rel_check {A B} (S : A → B → Prop) err
    (k1 : outcome xpp.error A) (k2 : outcome xpp.error B) :
  outcome_rel S k1 k2 → outcome_rel S (sitemap.check err k1) (sitemap.check err k2).
Proof. destruct err; simpl; auto. Qed.

Lemma forgetDate_withParsedDate D raw item :
  document.forgetDate (sitemap.withParsedDate D raw item) = document.forgetDate item.
Proof. unfold sitemap.withParsedDate. by destruct (D raw). Qed.

Section Dates.

Variable recognizes : string → bool.
Variable extend : ext.Extensions → string → string → list Attr → list Token
                  → string + ext.Extensions.
Variable decodeText : list Token → string + string.
Variables D1 D2 : string → option time.Time.

Local Abbreviation sameState :=
  (λ a b : sitemap.ItemState * xpp.XMLPullParser,
     document.forgetState a.1 = document.forgetState b.1 ∧ a.2 = b.2).

Lemma parseItemLoop_dates fuel : ∀ st1 st2 p,
  document.forgetState st1 = document.forgetState st2 →
  outcome_rel sameState
    (sitemap.parseItemLoop recognizes extend decodeText D1 fuel st1 p)
    (sitemap.parseItemLoop recognizes extend decodeText D2 fuel st2 p).
Proof.
  induction fuel as [| fuel IHf]; [done |].
  intros [[t1 l1 i1 d1 pd1 e1] f1 x1] [[t2 l2 i2 d2 pd2 e2] f2 x2] p Hst.
  unfold document.forgetState, document.forgetDate in Hst. simpl in Hst.
  inversion Hst; subst; clear Hst.
  cbn [sitemap.parseItemLoop]. apply outcome_rel_same. intros [tok p1].
  case_bool_decide; [done |]. case_bool_decide; [| by apply IHf].
  cbn [sitemap.st_extensions sitemap.st_item sitemap.st_feed sitemap.Item_Link].
  destruct (shared.IsExtension recognizes p1).
  { apply outcome_rel_same. intros [e p2]. by apply IHf. }
  case_bool_decide.
  { apply outcome_rel_same. intros [result p2]. apply IHf.
    unfold document.forgetState. cbn [sitemap.st_item sitemap.st_feed sitemap.st_extensions].
    by rewrite !forgetDate_withParsedDate. }
  case_bool_decide.
  { case_bool_decide; [by apply IHf |].
    apply outcome_rel_same. intros [result p2]. by apply IHf. }
  case_bool_decide.
  { apply outcome_rel_same. intros [result p2]. by apply IHf. }
  by apply IHf.
Qed.

Local Abbreviation sameItem :=
  (λ a b : sitemap.Item * sitemap.Feed * xpp.XMLPullParser,
     document.forgetDate a.1.1 = document.forgetDate b.1.1 ∧ a.1.2 = b.1.2 ∧ a.2 = b.2).

Lemma parseItem_dates fuel p :
  outcome_rel sameItem
    (sitemap.parseItem recognizes extend decodeText D1 fuel p)
    (sitemap.parseItem recognizes extend decodeText D2 fuel p).
Proof.
  unfold sitemap.parseItem. apply outcome_rel_check.
  eapply outcome_rel_bind; [by apply parseItemLoop_dates |].
  intros [[[t1 l1 i1 d1 pd1 e1] f1 x1] p1] [[[t2 l2 i2 d2 pd2 e2] f2 x2] p2] [Hst Hp].
  simpl in Hp; subst p2.
  unfold document.forgetState, document.forgetDate in Hst. simpl in Hst.
  inversion Hst; subst; clear Hst.
  apply outcome_rel_check. simpl.
  by case_bool_decide.
Qed.

Local Abbreviation sameRoot :=
  (λ a b : option sitemap.Feed * list sitemap.Item * xpp.XMLPullParser,
     a.1.1 = b.1.1 ∧ document.forgetDate <$> a.1.2 = document.forgetDate <$> b.1.2
     ∧ a.2 = b.2).

Lemma parseRootLoop_dates fuel : ∀ ch items1 items2 p,
  document.forgetDate <$> items1 = document.forgetDate <$> items2 →
  outcome_rel sameRoot
    (sitemap.parseRootLoop recognizes extend decodeText D1 fuel ch items1 p)
    (sitemap.parseRootLoop recognizes extend decodeText D2 fuel ch items2 p).
Proof.
  induction fuel as [| fuel IHf]; [done |].
  intros ch items1 items2 p Hitems.
  cbn [sitemap.parseRootLoop]. apply outcome_rel_same. intros [tok p1].
  case_bool_decide; [done |]. case_bool_decide; [| by apply IHf].
  destruct (shared.IsExtension recognizes p1); [by apply IHf |].
  case_bool_decide; [| by apply IHf].
  eapply outcome_rel_bind; [apply parseItem_dates |].
  intros [[item1 feed1] p2] [[item2 feed2] p3] (Hi & Hf & Hp). simpl in *. subst.
  assert (Hnew : document.forgetDate <$> items1 ++ [item1]
                 = document.forgetDate <$> items2 ++ [item2]).
  { rewrite !fmap_app. simpl. by rewrite Hitems, Hi. }
  case_bool_decide; [| by apply IHf].
  apply outcome_rel_same. intros ch1. apply outcome_rel_same. intros ch2. by apply IHf.
Qed.

Lemma parseRoot_dates fuel p :
  outcome_rel (λ f1 f2, document.forgetDates f1 = document.forgetDates f2)
    (sitemap.parseRoot recognizes extend decodeText D1 fuel p)
    (sitemap.parseRoot recognizes extend decodeText D2 fuel p).
Proof.
  unfold sitemap.parseRoot. destruct (xpp.Expect p xpp.StartTag "urlset"); [done |].
  eapply outcome_rel_bind; [by apply parseRootLoop_dates |].
  intros [[ch1 items1] p1] [[ch2 items2] p2] (Hch & Hitems & Hp). simpl in *. subst.
  destruct (xpp.Expect p2 xpp.EndTag "urlset"); [done |]. simpl.
  assert (Hlen : List.length items1 = List.length items2).
  { rewrite <- (length_fmap document.forgetDate items1), Hitems. apply length_fmap. }
  rewrite Hlen. unfold document.forgetDates.
  case_bool_decide; simpl; [| reflexivity].
  by rewrite !fmap_app, Hitems.
Qed.

Lemma Parse_dates doc :
  outcome_rel (λ f1 f2, document.forgetDates f1 = document.forgetDates f2)
    (sitemap.Parse recognizes extend decodeText D1 doc)
    (sitemap.Parse recognizes extend decodeText D2 doc).
Proof.
  unfold sitemap.Parse. apply outcome_rel_same. intros [tok p]. apply parseRoot_dates.
Qed.

End Dates.

(** * The claims about the Sitemap parser *)

Section SitemapClaims.

Variable recognizes : string → bool.
Variable extend : ext.Extensions → string → string → list Attr → list Token
                  → string + ext.Extensions.
Variable decodeText : list Token → string + string.
Variable ParseDate : string → option time.Time.

Local Abbreviation Parse := (sitemap.Parse recognizes extend decodeText ParseDate).
Local Abbreviation parseItem := (sitemap.parseItem recognizes extend decodeText ParseDate).
Local Abbreviation itemChildren := (document.itemChildren recognizes extend decodeText ParseDate).
Local Abbreviation itemOf := (document.itemOf recognizes extend decodeText ParseDate).
Local Abbreviation itemOfNode := (document.itemOfNode recognizes extend decodeText ParseDate).
Local Abbreviation urlChildren := (document.urlChildren recognizes).

(** X5: whatever the document, the returned feed has no title and no
    language: the branch of [parseRoot] that would adopt them is never
    taken. *)
Lemma Parse_title_language doc feed :
  Parse doc = Done feed →
  sitemap.Feed_Title feed = "" ∧ sitemap.Feed_Language feed = "".
Proof.
  intros H. apply Parse_Done in H as [tok [p [_ H]]].
  apply parseRoot_Done in H as [_ [items [p' [_ ->]]]]. by split.
Qed.

(** Once the link is set, a further "loc" child stops the item. *)
Lemma itemChildren_loc_set k : ∀ st,
  (0 < String.length (sitemap.Item_Link (sitemap.st_item st)))%nat →
  Exists (λ c, document.isLocChild recognizes c = true) k →
  itemChildren st k = None.
Proof.
  induction k as [| [sp nm at_ cs | d | kd d] k IH]; intros st Hlink Hex;
    inversion Hex as [? ? Hc | ? ? Hrest]; subst; simpl.
  - simpl in Hc. destruct (recognizes sp); [discriminate |]. simpl in Hc.
    apply bool_decide_eq_true in Hc. rewrite Hc. simpl.
    by rewrite bool_decide_eq_true_2.
  - destruct (recognizes sp).
    { destruct (extend _ sp nm at_ (forest cs)); [reflexivity |]. by apply IH. }
    repeat case_bool_decide; try reflexivity; try contradiction; try (by apply IH).
    + destruct (document.newsOf decodeText sitemap.News0 cs); [| reflexivity].
      simpl. apply IH; [| exact Hrest].
      unfold sitemap.withParsedDate. by destruct (ParseDate _).
    + destruct (document.imageOf decodeText sitemap.Image0 cs); [| reflexivity].
      simpl. by apply IH.
  - discriminate.
  - by apply IH.
  - discriminate.
  - by apply IH.
Qed.

(** A "url" element in which a "loc" child with a text is followed by
    another "loc" child never gives an item. *)
Lemma parseItem_second_loc fuel s n a k1 s1 n1 a1 c1 k2 rest t item hints p' :
  document.isLocChild recognizes (Element s1 n1 a1 c1) = true →
  decodeText (forest c1) = inr t → t ≠ "" →
  Exists (λ c, document.isLocChild recognizes c = true) k2 →
  parseItem fuel
    (xpp.onStart s n a (forest (k1 ++ Element s1 n1 a1 c1 :: k2) ++ EndElement s n :: rest))
    ≠ Done (item, hints, p').
Proof.
  intros Hloc Ht Hne Hex H. apply parseItem_reads in H as [H _].
  unfold document.itemOf in H. rewrite itemChildren_app in H.
  destruct (itemChildren _ k1) as [st1 |]; [| discriminate]. simpl in H.
  simpl in Hloc. destruct (recognizes s1); [discriminate |]. simpl in Hloc.
  apply bool_decide_eq_true in Hloc. rewrite Hloc in H. simpl in H.
  case_bool_decide; [discriminate |].
  unfold document.textOf in H. rewrite Ht in H. simpl in H.
  rewrite itemChildren_loc_set in H; [discriminate | | exact Hex].
  simpl. destruct t; [contradiction | simpl; lia].
Qed.

(** C1 (the code does otherwise).  The claim: the feed adopts Title and
    Language from the news of its first item, with the fallbacks "unkonow"
    and "unknow".  In [parseRoot] the adoption is guarded by
    [channel == nil] while [channel] is [&Feed{}]: for a document whose first
    item bubbles up the name "N" and the language "en", the feed is returned
    with an empty title and an empty language. *)
Theorem C1_title_language_not_adopted :
  example.Parse example.newsDoc
    = Done (sitemap.mkFeed ""
              [sitemap.mkItem "T" "http://a/" None "2024-01-02T01:00:00+01:00"
                 (Some (time.mkTime 1704153600 "UTC")) None]
              "" "unknow")
  ∧ snd <$> document.itemOf example.recognizes example.extend example.decodeText
              example.ParseDate example.newsUrlKids
    = Some (sitemap.mkFeed "N" [] "en" "").
Proof. split; vm_compute; reflexivity. Qed.

(** C2, as the spec states it, fails for a root without namespace: the
    version is "unknow", not "unknown". *)
Lemma C2_version_unknown_counterexample :
  ∃ feed, example.Parse example.bareDoc = Done feed
          ∧ xpp.attributeOf [] "xmlns" ≠ example.sitemapNS
          ∧ sitemap.Feed_Version feed ≠ "unknown".
Proof.
  exists (sitemap.mkFeed "" [] "" "unknow").
  split; [vm_compute; reflexivity |]. split; discriminate.
Qed.

(** C2 (amended).  For every successfully parsed Sitemap document, the
    returned Feed.Version is "0.9" exactly when the urlset root carries the
    xmlns attribute "http://www.sitemaps.org/schemas/sitemap/0.9", and is the
    sentinel "unknow" for any other or missing namespace value; Version is
    never left unset. *)
Theorem C2_version doc feed tok p :
  Parse doc = Done feed →
  shared.FindRoot (xpp.NewXMLPullParser doc) = Done (tok, p) →
  (sitemap.Feed_Version feed = "0.9"
     ↔ xpp.Attribute p "xmlns" = "http://www.sitemaps.org/schemas/sitemap/0.9")
  ∧ (xpp.Attribute p "xmlns" ≠ "http://www.sitemaps.org/schemas/sitemap/0.9"
     → sitemap.Feed_Version feed = "unknow")
  ∧ sitemap.Feed_Version feed ≠ "".
Proof.
  intros H Hroot. apply Parse_Done in H as [tok' [p0 [Hroot' H]]].
  rewrite Hroot in Hroot'. inversion Hroot'; subst; clear Hroot'.
  apply parseRoot_Done in H as [Hexp [items [p' [_ ->]]]].
  apply Expect_None in Hexp as [_ [Hname | Hstar]]; [| discriminate].
  simpl. unfold sitemap.parseVersion.
  rewrite (bool_decide_eq_true_2 _ Hname).
  case_bool_decide as Hns; (split; [| split]); try done.
Qed.

(** C3 (the code does otherwise).  The claim: with two or more "loc"
    children the parser succeeds on the item and keeps the first non-empty
    text.  The loop of [parseItem] goes on without reading the second "loc",
    finds its end tag and leaves the loop there: the item, and with it the
    whole parse, fails on the end tag of "loc". *)
Theorem C3_second_loc_aborts :
  example.Parse example.twoLocDoc
    = Fail (xpp.ErrExpect xpp.EndTag "url" xpp.EndTag "" "loc").
Proof. vm_compute. reflexivity. Qed.

(** C4 (the code does otherwise).  The claim: for every well-formed
    Sitemap document the returned feed has exactly one item per "url" child
    of the root, in document order.  For a well-formed document with two
    "url" children, of which the second has two "loc" children, the loop of
    [parseItem] goes on without reading the second "loc" and leaves at its
    end tag, the item is not returned and [parseRoot] hands the error on:
    there is no feed, and no item for either "url" child. *)
Theorem C4_url_children_without_items :
  List.length (document.urlChildren example.recognizes example.secondLocKids) = 2%nat
  ∧ example.Parse example.secondLocDoc
    = Fail (xpp.ErrExpect xpp.EndTag "url" xpp.EndTag "" "loc").
Proof. split; vm_compute; reflexivity. Qed.

End SitemapClaims.

Lemma C2_version_witness :
  (sitemap.Feed_Version example.nsFeed = "0.9"
     ↔ xpp.Attribute example.nsRoot "xmlns" = "http://www.sitemaps.org/schemas/sitemap/0.9")
  ∧ (xpp.Attribute example.nsRoot "xmlns" ≠ "http://www.sitemaps.org/schemas/sitemap/0.9"
     → sitemap.Feed_Version example.nsFeed = "unknow")
  ∧ sitemap.Feed_Version example.nsFeed ≠ "".
Proof.
  apply (C2_version example.recognizes example.extend example.decodeText example.ParseDate
           example.nsDoc example.nsFeed xpp.StartTag example.nsRoot).
  - vm_compute. reflexivity.
  - vm_compute. reflexivity.
Defined.

(** * The claims about one item *)

Section ItemClaims.

Variable recognizes : string → bool.
Variable extend : ext.Extensions → string → string → list Attr → list Token
                  → string + ext.Extensions.
Variable decodeText : list Token → string + string.
Variable ParseDate : string → option time.Time.

Local Abbreviation parseItem := (sitemap.parseItem recognizes extend decodeText ParseDate).
Local Abbreviation itemChildren := (document.itemChildren recognizes extend decodeText ParseDate).
Local Abbreviation isNewsChild := (document.isNewsChild recognizes).
Local Abbreviation isExtensionChild := (document.isExtensionChild recognizes).

(** The item that [itemOf] returns differs from the item of the last state
    in its extensions only. *)
Lemma itemOf_fields cs item hints :
  document.itemOf recognizes extend decodeText ParseDate cs = Some (item, hints) →
  ∃ st, itemChildren (sitemap.mkItemState sitemap.Item0 sitemap.Feed0 ∅) cs = Some st
        ∧ sitemap.Item_Title item = sitemap.Item_Title (sitemap.st_item st)
        ∧ sitemap.Item_PubDate item = sitemap.Item_PubDate (sitemap.st_item st)
        ∧ sitemap.Item_PubDateParsed item = sitemap.Item_PubDateParsed (sitemap.st_item st)
        ∧ item = (if bool_decide (0 < size (sitemap.st_extensions st))%nat
                  then sitemap.setItemExtensions (Some (sitemap.st_extensions st))
                         (sitemap.st_item st)
                  else sitemap.st_item st).
Proof.
  unfold document.itemOf. intros H.
  destruct (document.itemChildren _ _ _ _ _ cs) as [st |]; [| discriminate].
  simpl in H. inversion H; subst; clear H. exists st.
  split; [reflexivity |]. by case_bool_decide.
Qed.

(** C6, as the spec states it, fails for an item with two news children:
    the date of the first parses, the date of the second does not, and
    PubDateParsed is not left unset but holds the date of the first, beside
    the raw date of the second. *)
Lemma C6_date_not_unset_counterexample :
  example.Parse example.twoNewsDoc
    = Done (sitemap.mkFeed ""
              [sitemap.mkItem "" "" None "yesterday"
                 (Some (time.mkTime 1704153600 "UTC")) None]
              "" "unknow")
  ∧ example.ParseDate "yesterday" = None.
Proof. split; vm_compute; reflexivity. Qed.

(** C6 (amended).  For every item whose last news element carries a
    publication_date, the raw text of that element's last publication_date
    is stored in Item.PubDate, and Item.PubDateParsed is set to the
    UTC-normalised parsed instant when parsing succeeds; when parsing fails,
    PubDateParsed keeps what the children before that news element have left
    in it, which is unset when there is no news element before it; the
    outcome of parsing any document is the same, up to the parsed dates,
    whatever the date parser answers: a date that does not parse never aborts
    the parse. *)
Theorem C6_publication_date fuel s n a k1 ns nn na n1 ds dn da dkids n2 k2 rest
    item hints p' :
  Forall (λ c, isNewsChild c = false) k2 →
  isNewsChild (Element ns nn na (n1 ++ Element ds dn da dkids :: n2)) = true →
  ToLower dn = "publication_date" →
  Forall (λ c, document.isPublicationDate c = false) n2 →
  parseItem fuel
    (xpp.onStart s n a
       (forest (k1 ++ Element ns nn na (n1 ++ Element ds dn da dkids :: n2) :: k2)
        ++ EndElement s n :: rest))
    = Done (item, hints, p') →
  decodeText (forest dkids) = inr (sitemap.Item_PubDate item)
  ∧ (∃ st1,
       itemChildren (sitemap.mkItemState sitemap.Item0 sitemap.Feed0 ∅) k1 = Some st1
       ∧ sitemap.Item_PubDateParsed item
         = match ParseDate (sitemap.Item_PubDate item) with
           | Some date => Some (time.UTC date)
           | None => sitemap.Item_PubDateParsed (sitemap.st_item st1)
           end)
  ∧ (Forall (λ c, isNewsChild c = false) k1 →
     sitemap.Item_PubDateParsed item = time.UTC <$> ParseDate (sitemap.Item_PubDate item))
  ∧ ∀ D doc,
      outcome_rel (λ f1 f2, document.forgetDates f1 = document.forgetDates f2)
        (sitemap.Parse recognizes extend decodeText ParseDate doc)
        (sitemap.Parse recognizes extend decodeText D doc).
Proof.
  intros Hk2 Hnews Hdn Hn2 H.
  assert (Hmain :
    decodeText (forest dkids) = inr (sitemap.Item_PubDate item)
    ∧ ∃ st1,
        itemChildren (sitemap.mkItemState sitemap.Item0 sitemap.Feed0 ∅) k1 = Some st1
        ∧ sitemap.Item_PubDateParsed item
          = match ParseDate (sitemap.Item_PubDate item) with
            | Some date => Some (time.UTC date)
            | None => sitemap.Item_PubDateParsed (sitemap.st_item st1)
            end).
  { apply parseItem_reads in H as [H _].
    apply itemOf_fields in H as [st [H [_ [Hdate [Hparsed _]]]]].
    rewrite Hdate, Hparsed. clear Hdate Hparsed.
    rewrite itemChildren_app in H.
    destruct (itemChildren _ k1) as [st1 |] eqn:H1; [| discriminate].
    simpl in H, Hnews.
    destruct (recognizes ns); [discriminate |]. simpl in Hnews.
    apply bool_decide_eq_true in Hnews. rewrite Hnews in H. simpl in H.
    destruct (document.newsOf decodeText sitemap.News0 _) as [result |] eqn:Hres;
      [| discriminate].
    simpl in H.
    eapply itemChildren_keeps_news in H as [_ [Hd Hp]]; [| exact Hk2].
    simpl in Hd, Hp.
    apply newsOf_date in Hres; [| exact Hdn | exact Hn2].
    assert (Hsame : sitemap.Item_PubDate (sitemap.st_item st)
                    = sitemap.News_PublicationDate result).
    { rewrite Hd. unfold sitemap.withParsedDate.
      by destruct (ParseDate (sitemap.News_PublicationDate result)). }
    rewrite Hsame. split; [exact Hres |].
    exists st1. split; [reflexivity |].
    rewrite Hp. unfold sitemap.withParsedDate.
    by destruct (ParseDate (sitemap.News_PublicationDate result)). }
  destruct Hmain as [Hraw [st1 [Hst1 Hparsed]]].
  split; [exact Hraw |]. split; [by exists st1 |].
  split; [| intros D doc; apply Parse_dates].
  intros Hk1. rewrite Hparsed.
  destruct (ParseDate (sitemap.Item_PubDate item)); [reflexivity |]. simpl.
  eapply itemChildren_keeps_news in Hst1 as [_ [_ Hp1]]; [| exact Hk1].
  exact Hp1.
Qed.

(** C7.  The Extensions field of a parsed item is set exactly when an
    element of an extension namespace is a child of the item's url
    element. *)
Theorem C7_extensions_iff_seen fuel s n a kids rest item hints p' :
  parseItem fuel (xpp.onStart s n a (forest kids ++ EndElement s n :: rest))
    = Done (item, hints, p') →
  is_Some (sitemap.Item_Extensions item) ↔ existsb isExtensionChild kids = true.
Proof.
  intros H. apply parseItem_reads in H as [H _].
  apply itemOf_fields in H as [st [H [_ [_ [_ ->]]]]].
  apply itemChildren_extensions in H.
  destruct (existsb isExtensionChild kids).
  - split; [done |]. intros _. case_bool_decide; [by eexists | exact H].
  - destruct H as [Hitem Hext]. simpl in Hitem, Hext. rewrite Hext.
    rewrite bool_decide_eq_false_2; [| rewrite map_size_empty; lia].
    rewrite Hitem. split; [| done]. by intros [? ?].
Qed.

(** C8.  For a url element without a news child, the item has the empty
    string as Title and no PubDateParsed. *)
Theorem C8_no_news fuel s n a kids rest item hints p' :
  Forall (λ c, isNewsChild c = false) kids →
  parseItem fuel (xpp.onStart s n a (forest kids ++ EndElement s n :: rest))
    = Done (item, hints, p') →
  sitemap.Item_Title item = "" ∧ sitemap.Item_PubDateParsed item = None.
Proof.
  intros Hkids H. apply parseItem_reads in H as [H _].
  apply itemOf_fields in H as [st [H [-> [_ [-> _]]]]].
  eapply itemChildren_keeps_news in H as [Ht [_ Hp]]; [| exact Hkids].
  by rewrite Ht, Hp.
Qed.

End ItemClaims.

Lemma C6_publication_date_witness :
  example.decodeText (forest [Chars "2024-01-02T01:00:00+01:00"])
    = inr (sitemap.Item_PubDate
             (sitemap.mkItem "T" "http://a/" None "2024-01-02T01:00:00+01:00"
                (Some (time.mkTime 1704153600 "UTC")) None))
  ∧ (∃ st1,
       document.itemChildren example.recognizes example.extend example.decodeText
         example.ParseDate (sitemap.mkItemState sitemap.Item0 sitemap.Feed0 ∅)
         [example.el "loc" [Chars "http://a/"]] = Some st1
       ∧ sitemap.Item_PubDateParsed
           (sitemap.mkItem "T" "http://a/" None "2024-01-02T01:00:00+01:00"
              (Some (time.mkTime 1704153600 "UTC")) None)
         = match example.ParseDate
                   (sitemap.Item_PubDate
                      (sitemap.mkItem "T" "http://a/" None "2024-01-02T01:00:00+01:00"
                         (Some (time.mkTime 1704153600 "UTC")) None)) with
           | Some date => Some (time.UTC date)
           | None => sitemap.Item_PubDateParsed (sitemap.st_item st1)
           end)
  ∧ (Forall (λ c, document.isNewsChild example.recognizes c = false)
       [example.el "loc" [Chars "http://a/"]] →
     sitemap.Item_PubDateParsed
       (sitemap.mkItem "T" "http://a/" None "2024-01-02T01:00:00+01:00"
          (Some (time.mkTime 1704153600 "UTC")) None)
     = time.UTC <$> example.ParseDate
         (sitemap.Item_PubDate
            (sitemap.mkItem "T" "http://a/" None "2024-01-02T01:00:00+01:00"
               (Some (time.mkTime 1704153600 "UTC")) None)))
  ∧ ∀ D doc,
      outcome_rel (λ f1 f2, document.forgetDates f1 = document.forgetDates f2)
        (sitemap.Parse example.recognizes example.extend example.decodeText
           example.ParseDate doc)
        (sitemap.Parse example.recognizes example.extend example.decodeText D doc).
Proof.
  apply (C6_publication_date example.recognizes example.extend example.decodeText
           example.ParseDate 10 "" "url" []
           [example.el "loc" [Chars "http://a/"]]
           "" "news" []
           [example.el "publication"
              [example.el "name" [Chars "N"]; example.el "language" [Chars "en"]]]
           "" "publication_date" [] [Chars "2024-01-02T01:00:00+01:00"]
           [example.el "title" [Chars "T"]]
           [] []
           (sitemap.mkItem "T" "http://a/" None "2024-01-02T01:00:00+01:00"
              (Some (time.mkTime 1704153600 "UTC")) None)
           (sitemap.mkFeed "N" [] "en" "")
           (xpp.onEnd "" "url" [])).
  - constructor.
  - reflexivity.
  - reflexivity.
  - repeat constructor.
  - vm_compute. reflexivity.
Defined.

Lemma C7_extensions_iff_seen_witness :
  is_Some (sitemap.Item_Extensions
             (sitemap.mkItem "" "http://b/" None "" None
                (Some (<["x" := <["note" := [[CharData "n"]]]> ∅]> ∅))))
  ↔ existsb (document.isExtensionChild example.recognizes)
      [example.el "loc" [Chars "http://b/"]; Element "x" "note" [] [Chars "n"]] = true.
Proof.
  apply (C7_extensions_iff_seen example.recognizes example.extend example.decodeText
           example.ParseDate 10 "" "url" []
           [example.el "loc" [Chars "http://b/"]; Element "x" "note" [] [Chars "n"]]
           [] _ sitemap.Feed0 (xpp.onEnd "" "url" [])).
  vm_compute. reflexivity.
Defined.

Lemma C8_no_news_witness :
  sitemap.Item_Title (sitemap.mkItem "" "http://a/" None "" None None) = ""
  ∧ sitemap.Item_PubDateParsed (sitemap.mkItem "" "http://a/" None "" None None) = None.
Proof.
  apply (C8_no_news example.recognizes example.extend example.decodeText
           example.ParseDate 10 "" "url" []
           [example.el "loc" [Chars "http://a/"]; Chars " "]
           [] _ sitemap.Feed0 (xpp.onEnd "" "url" [])).
  - repeat constructor.
  - vm_compute. reflexivity.
Defined.

(** * The claims about the orchestrating parser *)

Lemma findRootFrom_prolog pre rest :
  Forall (λ t, document.isProlog t = true) pre →
  shared.findRootFrom (pre ++ rest) = shared.findRootFrom rest.
Proof.
  induction 1 as [| t pre Ht _ IH]; [reflexivity |].
  destruct t; try discriminate; exact IH.
Qed.

Lemma findRootFrom_no_root l :
  Forall (λ t, document.isProlog t = true) l →
  shared.findRootFrom l = Fail xpp.ErrNoRoot.
Proof.
  induction 1 as [| t pre Ht _ IH]; [reflexivity |].
  destruct t; try discriminate; exact IH.
Qed.

(** *** [ToLower] and the spec's case-insensitive names *)

Lemma ascii_all (P : ascii → bool) :
  forallb P (List.map ascii_of_nat (seq 0 256)) = true → ∀ a, P a = true.
Proof.
  intros H a. rewrite forallb_forall in H. apply H.
  apply in_map_iff. exists (nat_of_ascii a). split; [apply ascii_nat_embedding |].
  apply in_seq. pose proof (nat_ascii_bounded a). lia.
Qed.

(** Letter by letter: a byte is folded to a plain letter exactly when it is
    one of the two forms of that letter. *)
Lemma lower_ascii_plain a b :
  spec.plainLetter b = true →
  Ascii.eqb (lower_ascii a) b = Ascii.eqb a b || Ascii.eqb a (spec.capital b).
Proof.
  intros Hb.
  pose (Q := λ a b : ascii,
          implb (spec.plainLetter b)
            (Bool.eqb (Ascii.eqb (lower_ascii a) b)
                      (Ascii.eqb a b || Ascii.eqb a (spec.capital b)))).
  assert (Hall : ∀ a, forallb (Q a) (List.map ascii_of_nat (seq 0 256)) = true).
  { apply ascii_all. vm_compute. reflexivity. }
  pose proof (ascii_all (Q a) (Hall a) b) as H.
  unfold Q in H. rewrite Hb in H. simpl in H. by apply Bool.eqb_prop.
Qed.

(** No form of a plain letter is the first byte of one of the two letters
    outside ASCII that are folded into ASCII, and no plain letter is what
    these are folded to. *)
Lemma plainLetter_apart b :
  spec.plainLetter b = true →
  Ascii.eqb "196" b || Ascii.eqb "196" (spec.capital b) = false
  ∧ Ascii.eqb "226" b || Ascii.eqb "226" (spec.capital b) = false
  ∧ b ≠ "i"%char ∧ b ≠ "k"%char.
Proof.
  intros Hb.
  assert (H : ∀ b, implb (spec.plainLetter b)
                     (negb (Ascii.eqb "196" b || Ascii.eqb "196" (spec.capital b))
                      && negb (Ascii.eqb "226" b || Ascii.eqb "226" (spec.capital b))
                      && negb (Ascii.eqb b "i") && negb (Ascii.eqb b "k")) = true).
  { clear. apply ascii_all. vm_compute. reflexivity. }
  specialize (H b). rewrite Hb in H. simpl in H.
  apply andb_true_iff in H as [H Hk]. apply andb_true_iff in H as [H Hi].
  apply andb_true_iff in H as [H1 H2].
  apply negb_true_iff in H1, H2, Hi, Hk.
  repeat split; try assumption.
  - by apply Ascii.eqb_neq.
  - by apply Ascii.eqb_neq.
Qed.

(** What [ToLower] does with the first byte of a string. *)
Lemma ToLower_String a n :
  ToLower (String a n) = String (lower_ascii a) (ToLower n)
  ∨ (a = "196"%char ∧ ∃ r, ToLower (String a n) = String "i" (ToLower r))
  ∨ (a = "226"%char ∧ ∃ r, ToLower (String a n) = String "k" (ToLower r)).
Proof.
  destruct n as [| d [| e r2]].
  - by left.
  - cbn [ToLower].
    destruct (Ascii.eqb a "196") eqn:Ha; destruct (Ascii.eqb d "176"); simpl; auto.
    apply Ascii.eqb_eq in Ha. right. left. split; [exact Ha |].
    by exists EmptyString.
  - destruct (Ascii.eqb a "196" && Ascii.eqb d "176") eqn:Hi.
    { apply andb_true_iff in Hi as [Ha Hd]. apply Ascii.eqb_eq in Ha.
      right. left. split; [exact Ha |]. exists (String e r2).
      cbn [ToLower]. apply Ascii.eqb_eq in Hd. subst. reflexivity. }
    destruct (Ascii.eqb a "226" && Ascii.eqb d "132" && Ascii.eqb e "170") eqn:Hk.
    { apply andb_true_iff in Hk as [Hk He]. apply andb_true_iff in Hk as [Ha Hd].
      apply Ascii.eqb_eq in Ha, Hd, He.
      right. right. split; [exact Ha |]. exists r2. subst. reflexivity. }
    left. change (ToLower (String a (String d (String e r2))))
      with (if Ascii.eqb a "196" && Ascii.eqb d "176"
            then String "i" (ToLower (String e r2))
            else if Ascii.eqb a "226" && Ascii.eqb d "132" && Ascii.eqb e "170"
                 then String "k" (ToLower r2)
                 else String (lower_ascii a) (ToLower (String d (String e r2)))).
    by rewrite Hi, Hk.
Qed.

(** For a name [c] in plain letters, the comparison of the code,
    [ToLower n = c], is the spec's "[n] is named [c], case-insensitively". *)
Lemma ToLower_named n : ∀ c,
  spec.plain c = true → ToLower n = c ↔ spec.named n c = true.
Proof.
  induction n as [| a n IH]; intros [| b c] Hc; simpl spec.named.
  - done.
  - done.
  - destruct (ToLower_String a n) as [H | [[_ [r H]] | [_ [r H]]]]; rewrite H; done.
  - simpl in Hc. apply andb_true_iff in Hc as [Hb Hc].
    destruct (plainLetter_apart b Hb) as (H196 & H226 & Hi & Hk).
    destruct (ToLower_String a n) as [H | [[-> [r H]] | [-> [r H]]]]; rewrite H.
    + rewrite <- (lower_ascii_plain a b Hb), andb_true_iff, <- (IH c Hc), Ascii.eqb_eq.
      split; [by intros [= -> ->] | by intros [-> ->]].
    + rewrite H196. simpl. split; [intros [= Hb' _]; by rewrite Hb' in Hi | done].
    + rewrite H226. simpl. split; [intros [= Hb' _]; by rewrite Hb' in Hk | done].
Qed.

Section OrchestratorClaims.

Variable recognizes : string → bool.
Variable extend : ext.Extensions → string → string → list Attr → list Token
                  → string + ext.Extensions.
Variable decodeText : list Token → string + string.
Variable ParseDate : string → option time.Time.
Variable decode : list Byte.byte → list Token.
Variable pulled : list Byte.byte → nat.
Variable RSSFeed AtomFeed Feed : Type.
Variable rssParse : list Byte.byte → gofeed.foreign + RSSFeed.
Variable atomParse : list Byte.byte → gofeed.foreign + AtomFeed.
Variable DefaultAtomTranslator DefaultRSSTranslator DefaultSitemapTranslator
  : gofeed.Translator RSSFeed AtomFeed Feed.
Variable NewRequest : string → string → string + http.Request.
Variable roundTrip : http.Client → http.Request → string + http.Response.
Variable base64 : string → string.

Local Abbreviation Parser := (gofeed.Parser RSSFeed AtomFeed Feed).
Local Abbreviation DetectFeedType := (gofeed.DetectFeedType decode).
Local Abbreviation Parse :=
  (gofeed.Parse recognizes extend decodeText ParseDate decode pulled RSSFeed AtomFeed Feed
     rssParse atomParse DefaultAtomTranslator DefaultRSSTranslator DefaultSitemapTranslator).
Local Abbreviation ParseString :=
  (gofeed.ParseString recognizes extend decodeText ParseDate decode pulled RSSFeed AtomFeed
     Feed rssParse atomParse DefaultAtomTranslator DefaultRSSTranslator
     DefaultSitemapTranslator).
Local Abbreviation answer :=
  (gofeed.answer recognizes extend decodeText ParseDate decode pulled RSSFeed AtomFeed Feed
     rssParse atomParse DefaultAtomTranslator DefaultRSSTranslator DefaultSitemapTranslator).
Local Abbreviation ParseURL :=
  (gofeed.ParseURL recognizes extend decodeText ParseDate decode pulled RSSFeed AtomFeed Feed
     rssParse atomParse DefaultAtomTranslator DefaultRSSTranslator DefaultSitemapTranslator
     NewRequest roundTrip).
Local Abbreviation ParseURLWithProxy :=
  (gofeed.ParseURLWithProxy recognizes extend decodeText ParseDate decode pulled RSSFeed
     AtomFeed Feed rssParse atomParse DefaultAtomTranslator DefaultRSSTranslator
     DefaultSitemapTranslator NewRequest roundTrip base64).
Local Abbreviation httpClient := (gofeed.httpClient RSSFeed AtomFeed Feed).
Local Abbreviation httpClientWithProxy := (gofeed.httpClientWithProxy RSSFeed AtomFeed Feed).
Local Abbreviation Client := (gofeed.Client RSSFeed AtomFeed Feed).

(** What the detector answers for a stream whose first start tag has the
    name [n]. *)
Lemma DetectFeedType_root feed pre s n a rest :
  decode feed = pre ++ StartElement s n a :: rest →
  Forall (λ t, document.isProlog t = true) pre →
  DetectFeedType feed =
    (if bool_decide (ToLower n = "rdf") then gofeed.FeedTypeRSS
     else if bool_decide (ToLower n = "rss") then gofeed.FeedTypeRSS
     else if bool_decide (ToLower n = "feed") then gofeed.FeedTypeAtom
     else if bool_decide (ToLower n = "urlset") then gofeed.FeedTypeSitemap
     else gofeed.FeedTypeUnknown).
Proof.
  intros Hdec Hpre. unfold gofeed.DetectFeedType, shared.FindRoot, xpp.NewXMLPullParser.
  cbn [xpp.input]. rewrite Hdec, findRootFrom_prolog by exact Hpre. reflexivity.
Qed.

(** The parser keeps its client through [Parse]. *)
Lemma Parse_Client f feed : Client (Parse f feed).2 = Client f.
Proof.
  unfold gofeed.Parse.
  destruct (gofeed.DetectFeedType decode feed); [reflexivity | | |].
  - unfold gofeed.parseAtomFeed. destruct (atomParse _); [reflexivity |].
    unfold gofeed.atomTrans. by destruct (gofeed.AtomTranslator _ _ _ f).
  - unfold gofeed.parseRSSFeed. destruct (rssParse _); [reflexivity |].
    unfold gofeed.rssTrans. by destruct (gofeed.RSSTranslator _ _ _ f).
  - unfold gofeed.parseSitemapFeed. destruct (sitemap.Parse _ _ _ _ _); try reflexivity.
    unfold gofeed.sitemapTrans. by destruct (gofeed.SitemapTranslator _ _ _ f).
Qed.

Lemma answer_Client f sent : Client (answer f sent).2 = Client f.
Proof.
  unfold gofeed.answer. destruct sent as [m | resp]; [reflexivity |].
  destruct (_ || _); [reflexivity |].
  pose proof (Parse_Client f (http.Body resp)) as H.
  by destruct (gofeed.Parse _ _ _ _ _ _ _ _ _ _ _ _ _ _ f (http.Body resp)).
Qed.

(** C5.  The detector maps a root element named, whatever the case of its
    letters, "rdf" or "rss" to RSS, "feed" to Atom and "urlset" to Sitemap,
    and answers Unknown for every other root, for a stream that is malformed
    before its root and for a stream without a root (the empty one among
    them); [Parse] fails with the detection error exactly when the detector
    answers Unknown. *)
Theorem C5_detection feed :
  (∀ pre s n a rest,
     decode feed = pre ++ StartElement s n a :: rest →
     Forall (λ t, document.isProlog t = true) pre →
     (spec.named n "rdf" = true ∨ spec.named n "rss" = true
      → DetectFeedType feed = gofeed.FeedTypeRSS)
     ∧ (spec.named n "feed" = true → DetectFeedType feed = gofeed.FeedTypeAtom)
     ∧ (spec.named n "urlset" = true → DetectFeedType feed = gofeed.FeedTypeSitemap)
     ∧ (spec.named n "rdf" = false → spec.named n "rss" = false →
        spec.named n "feed" = false → spec.named n "urlset" = false →
        DetectFeedType feed = gofeed.FeedTypeUnknown))
  ∧ (∀ pre m rest,
       decode feed = pre ++ Malformed m :: rest →
       Forall (λ t, document.isProlog t = true) pre →
       DetectFeedType feed = gofeed.FeedTypeUnknown)
  ∧ (Forall (λ t, document.isProlog t = true) (decode feed) →
     DetectFeedType feed = gofeed.FeedTypeUnknown)
  ∧ ∀ f, (Parse f feed).1 = Fail gofeed.ErrFailedToDetect
         ↔ DetectFeedType feed = gofeed.FeedTypeUnknown.
Proof.
  split; [| split; [| split]].
  - intros pre s n a rest Hdec Hpre.
    rewrite (DetectFeedType_root _ _ _ _ _ _ Hdec Hpre).
    rewrite <- !(ToLower_named n) by reflexivity.
    repeat split.
    + intros [-> | ->]; reflexivity.
    + intros ->. reflexivity.
    + intros ->. reflexivity.
    + intros H1 H2 H3 H4.
      assert (Hno : ∀ c, spec.plain c = true → spec.named n c = false → ToLower n ≠ c).
      { intros c Hc Hf Hn. apply ToLower_named in Hn; [congruence | exact Hc]. }
      rewrite !bool_decide_eq_false_2 by (apply Hno; [reflexivity | assumption]).
      reflexivity.
  - intros pre m rest Hdec Hpre.
    unfold gofeed.DetectFeedType, shared.FindRoot, xpp.NewXMLPullParser.
    cbn [xpp.input]. rewrite Hdec, findRootFrom_prolog by exact Hpre. reflexivity.
  - intros Hall.
    unfold gofeed.DetectFeedType, shared.FindRoot, xpp.NewXMLPullParser.
    cbn [xpp.input]. by rewrite findRootFrom_no_root.
  - intros f. unfold gofeed.Parse.
    destruct (gofeed.DetectFeedType decode feed); [done | | |]; split; try discriminate.
    + unfold gofeed.parseAtomFeed. destruct (atomParse _) as [[] |]; [discriminate.. |].
      unfold gofeed.atomTrans, gofeed.translated.
      destruct (gofeed.AtomTranslator _ _ _ f); simpl;
        by destruct (gofeed.Translate _ _ _ _ _) as [[] |].
    + unfold gofeed.parseRSSFeed. destruct (rssParse _) as [[] |]; [discriminate.. |].
      unfold gofeed.rssTrans, gofeed.translated.
      destruct (gofeed.RSSTranslator _ _ _ f); simpl;
        by destruct (gofeed.Translate _ _ _ _ _) as [[] |].
    + unfold gofeed.parseSitemapFeed.
      destruct (sitemap.Parse _ _ _ _ _); try discriminate.
      unfold gofeed.sitemapTrans, gofeed.translated.
      destruct (gofeed.SitemapTranslator _ _ _ f); simpl;
        by destruct (gofeed.Translate _ _ _ _ _) as [[] |].
Qed.

(** C9.  A second call of [Parse] on the same bytes, with the parser as the
    first call has left it (its translators are installed on first use),
    returns what the first call has returned, feed or error, and leaves the
    parser as it is; the same holds for [ParseString]. *)
Theorem C9_parse_twice f feed s :
  (Parse (Parse f feed).2 feed).1 = (Parse f feed).1
  ∧ (Parse (Parse f feed).2 feed).2 = (Parse f feed).2
  ∧ (ParseString (ParseString f s).2 s).1 = (ParseString f s).1.
Proof.
  assert (H : ∀ feed, Parse (Parse f feed).2 feed = Parse f feed).
  { clear feed. intros feed. unfold gofeed.Parse.
    destruct (gofeed.DetectFeedType decode feed); [reflexivity | | |].
    - unfold gofeed.parseAtomFeed. destruct (atomParse _) eqn:Hp; simpl; rewrite ?Hp;
        [reflexivity |].
      unfold gofeed.atomTrans. destruct (gofeed.AtomTranslator _ _ _ f) eqn:Ht; simpl;
        by rewrite ?Hp, ?Ht.
    - unfold gofeed.parseRSSFeed. destruct (rssParse _) eqn:Hp; simpl; rewrite ?Hp;
        [reflexivity |].
      unfold gofeed.rssTrans. destruct (gofeed.RSSTranslator _ _ _ f) eqn:Ht; simpl;
        by rewrite ?Hp, ?Ht.
    - unfold gofeed.parseSitemapFeed. destruct (sitemap.Parse _ _ _ _ _) eqn:Hp; simpl;
        rewrite ?Hp; try reflexivity.
      unfold gofeed.sitemapTrans. destruct (gofeed.SitemapTranslator _ _ _ f) eqn:Ht; simpl;
        by rewrite ?Hp, ?Ht. }
  split; [| split].
  - by rewrite H.
  - by rewrite H.
  - unfold gofeed.ParseString. by rewrite H.
Qed.

(** C10.  When the parser has a client, [httpClientWithProxy] returns that
    client and leaves the parser as it is, so [ParseURLWithProxy] sends its
    request with that client and returns the same whatever its proxyURL
    argument; and a parser without a client has, after [ParseURL], the
    default client, which has no proxy transport. *)
Theorem C10_proxy_ignored f c feedURL proxyURL proxyURL' proxyName proxyPasswd :
  Client f = Some c →
  httpClientWithProxy f proxyURL = (c, f)
  ∧ ParseURLWithProxy f feedURL proxyURL proxyName proxyPasswd
    = match NewRequest "GET" feedURL with
      | inl _ => (gofeed.Panics Feed, f)
      | inr req =>
          answer f
            (roundTrip c
               (http.HeaderSet "Proxy-Authorization"
                  ("Basic " +:+ base64 (proxyName +:+ ":" +:+ proxyPasswd)) req))
      end
  ∧ ParseURLWithProxy f feedURL proxyURL proxyName proxyPasswd
    = ParseURLWithProxy f feedURL proxyURL' proxyName proxyPasswd
  ∧ ∀ f0 url, Client f0 = None →
      Client (ParseURL f0 url).2 = Some (http.mkClient None (15 * gofeed.Second)%Z).
Proof.
  intros Hc.
  assert (Hw : ∀ u, httpClientWithProxy f u = (c, f)).
  { intros u. unfold gofeed.httpClientWithProxy. by rewrite Hc. }
  split; [apply Hw |]. split; [| split].
  - unfold gofeed.ParseURLWithProxy. rewrite Hw. reflexivity.
  - unfold gofeed.ParseURLWithProxy. rewrite !Hw. reflexivity.
  - intros f0 url H0. unfold gofeed.ParseURL, gofeed.httpClient. rewrite H0.
    rewrite answer_Client. reflexivity.
Qed.

End OrchestratorClaims.

Lemma C5_detection_witness :
  gofeed.DetectFeedType example.decode (list_byte_of_string "<RSS/>") = gofeed.FeedTypeRSS
  ∧ gofeed.DetectFeedType example.decode (list_byte_of_string "<!--c--><Feed/>")
    = gofeed.FeedTypeAtom
  ∧ gofeed.DetectFeedType example.decode (list_byte_of_string "<html/>")
    = gofeed.FeedTypeUnknown.
Proof.
  split; [| split].
  - apply (proj1 (C5_detection example.recognizes example.extend example.decodeText
                    example.ParseDate example.decode example.pulled string string string
                    example.rssParse example.atomParse example.translator
                    example.translator example.translator
                    (list_byte_of_string "<RSS/>"))
             [] "" "RSS" [] [EndElement "" "RSS"]).
    + reflexivity.
    + constructor.
    + right. reflexivity.
  - apply (proj1 (C5_detection example.recognizes example.extend example.decodeText
                    example.ParseDate example.decode example.pulled string string string
                    example.rssParse example.atomParse example.translator
                    example.translator example.translator
                    (list_byte_of_string "<!--c--><Feed/>"))
             [Misc KComment "c"] "" "Feed" [] [EndElement "" "Feed"]).
    + reflexivity.
    + repeat constructor.
    + reflexivity.
  - apply (proj1 (C5_detection example.recognizes example.extend example.decodeText
                    example.ParseDate example.decode example.pulled string string string
                    example.rssParse example.atomParse example.translator
                    example.translator example.translator
                    (list_byte_of_string "<html/>"))
             [] "" "html" [] [EndElement "" "html"]); reflexivity || constructor.
Defined.

Lemma C10_proxy_ignored_witness :
  gofeed.httpClientWithProxy string string string example.usedParser "10.0.0.1:8080"
    = (http.mkClient None (15 * gofeed.Second)%Z, example.usedParser)
  ∧ example.ParseURLWithProxy example.usedParser "http://a/" "10.0.0.1:8080" "u" "p"
    = match example.NewRequest "GET" "http://a/" with
      | inl _ => (gofeed.Panics string, example.usedParser)
      | inr req =>
          gofeed.answer example.recognizes example.extend example.decodeText
            example.ParseDate example.decode example.pulled string string string
            example.rssParse example.atomParse example.translator example.translator
            example.translator example.usedParser
            (example.roundTrip (http.mkClient None (15 * gofeed.Second)%Z)
               (http.HeaderSet "Proxy-Authorization"
                  ("Basic " +:+ example.base64 ("u" +:+ ":" +:+ "p")) req))
      end
  ∧ example.ParseURLWithProxy example.usedParser "http://a/" "10.0.0.1:8080" "u" "p"
    = example.ParseURLWithProxy example.usedParser "http://a/" "10.0.0.2:3128" "u" "p"
  ∧ ∀ f0 url, gofeed.Client string string string f0 = None →
      gofeed.Client string string string (example.ParseURL f0 url).2
      = Some (http.mkClient None (15 * gofeed.Second)%Z).
Proof.
  apply (C10_proxy_ignored example.recognizes example.extend example.decodeText
           example.ParseDate example.decode example.pulled string string string
           example.rssParse example.atomParse example.translator example.translator
           example.translator example.NewRequest example.roundTrip example.base64
           example.usedParser (http.mkClient None (15 * gofeed.Second)%Z)
           "http://a/" "10.0.0.1:8080" "10.0.0.2:3128" "u" "p").
  vm_compute. reflexivity.
Defined.

(** * Every call of the Sitemap parser returns *)

Lemma below_bind {A B} n n' (m : outcome xpp.error (A * xpp.XMLPullParser))
    (f : A * xpp.XMLPullParser → outcome xpp.error (B * xpp.XMLPullParser)) :
  below n m →
  (∀ a p, (List.length (xpp.input p) < n)%nat → below n' (f (a, p))) →
  below n' (m ≫= f).
Proof. destruct m as [[a p] | | |]; simpl; intros Hm Hf; auto. Qed.

Lemma below_mono {A} n n' (o : outcome xpp.error (A * xpp.XMLPullParser)) :
  below n o → (n ≤ n')%nat → below n' o.
Proof. destruct o as [[a p] | | |]; simpl; intros H Hn; auto. lia. Qed.

Lemma below_check {A} n err (k : outcome xpp.error (A * xpp.XMLPullParser)) :
  below n k → below n (sitemap.check err k).
Proof. by destruct err. Qed.

Lemma nextTagFrom_below inp : below (List.length inp) (shared.nextTagFrom inp).
Proof.
  induction inp as [| t inp IH]; [exact I |].
  destruct t; simpl; try lia; try exact I;
    (eapply below_mono; [exact IH | simpl; lia]).
Qed.

Lemma NextTag_below p : below (List.length (xpp.input p)) (shared.NextTag p).
Proof. apply nextTagFrom_below. Qed.

Lemma element_after inp : ∀ d,
  match xpp.element d inp with
  | Done (_, _, after) => (List.length after < List.length inp)%nat
  | Fail _ => True
  | _ => False
  end.
Proof.
  induction inp as [| t inp IH]; intros d; [exact I |].
  destruct t as [s n a | s n | c | k c | m]; simpl; try exact I.
  - specialize (IH (S d)). destruct (xpp.element (S d) inp) as [[[i nm] af] | | |]; simpl; auto.
  - destruct d as [| d]; [simpl; lia |].
    specialize (IH d). destruct (xpp.element d inp) as [[[i nm] af] | | |]; simpl; auto.
  - specialize (IH d). destruct (xpp.element d inp) as [[[i nm] af] | | |]; simpl; auto.
  - specialize (IH d). destruct (xpp.element d inp) as [[[i nm] af] | | |]; simpl; auto.
Qed.

Lemma ParseText_below decodeText p :
  below (List.length (xpp.input p)) (shared.ParseText decodeText p).
Proof.
  unfold shared.ParseText. case_bool_decide as Hev; [| exact I].
  pose proof (element_after (xpp.input p) 0) as H.
  destruct (xpp.element 0 (xpp.input p)) as [[[i nm] af] | | |]; simpl; auto.
  by destruct (decodeText i).
Qed.

Lemma ParseExtension_below extend fe p :
  below (List.length (xpp.input p)) (shared.ParseExtension extend fe p).
Proof.
  unfold shared.ParseExtension.
  pose proof (element_after (xpp.input p) 0) as H.
  destruct (xpp.element 0 (xpp.input p)) as [[[i nm] af] | | |]; simpl; auto.
  by destruct (extend fe _ _ _ i).
Qed.

Lemma skipFrom_length inp : ∀ d ev,
  (List.length (xpp.input (xpp.skipFrom d ev inp).1) ≤ List.length inp)%nat.
Proof.
  induction inp as [| t inp IH]; intros d ev; [simpl; lia |].
  destruct t as [s n a | s n | c | k c | m]; simpl; try lia.
  - specialize (IH (S d) xpp.StartTag). lia.
  - destruct d as [| d]; [simpl; lia |]. specialize (IH d xpp.EndTag). lia.
  - specialize (IH d xpp.Text). lia.
  - specialize (IH d (xpp.miscEvent k)). lia.
Qed.

Lemma Skip_length p :
  (List.length (xpp.input (xpp.Skip p).1) ≤ List.length (xpp.input p))%nat.
Proof. apply skipFrom_length. Qed.

Section Returns.

Variable recognizes : string → bool.
Variable extend : ext.Extensions → string → string → list Attr → list Token
                  → string + ext.Extensions.
Variable decodeText : list Token → string + string.
Variable ParseDate : string → option time.Time.

(** One turn of a loop: after [NextTag], the rest runs with fewer tokens. *)
Ltac turn IH :=
  eapply below_bind; [apply NextTag_below |];
  let tok := fresh "tok" in let p1 := fresh "p" in let H1 := fresh "Hp" in
  intros tok p1 H1; cbn beta iota;
  destruct (bool_decide (tok = xpp.EndTag)); [simpl; lia |];
  destruct (bool_decide (tok = xpp.StartTag));
    [| eapply below_mono; [apply IH; lia | lia]].

(** The rest of a turn, after a sub-parser that has gone forward. *)
Ltac after IH lemma :=
  eapply below_bind; [apply lemma |];
  let r := fresh "r" in let p2 := fresh "p" in let H2 := fresh "Hp" in
  intros r p2 H2; cbn beta iota;
  eapply below_mono; [apply IH; lia | lia].

Ltac skipped IH p :=
  pose proof (Skip_length p);
  eapply below_mono; [apply IH; lia | lia].

Lemma parsePublicationLoop_below fuel : ∀ news p,
  (List.length (xpp.input p) < fuel)%nat →
  below (List.length (xpp.input p)) (sitemap.parsePublicationLoop decodeText fuel news p).
Proof.
  induction fuel as [| fuel IH]; intros news p Hlt; [lia |].
  cbn [sitemap.parsePublicationLoop]. turn IH.
  destruct (bool_decide (ToLower (xpp.Name p0) = "name"));
    [after IH ParseText_below |].
  destruct (bool_decide (ToLower (xpp.Name p0) = "language"));
    [after IH ParseText_below |].
  skipped IH p0.
Qed.

Lemma parsePublication_below fuel p :
  (List.length (xpp.input p) < fuel)%nat →
  below (List.length (xpp.input p)) (sitemap.parsePublication decodeText fuel p).
Proof.
  intros Hlt. unfold sitemap.parsePublication. apply below_check.
  eapply below_bind; [by apply parsePublicationLoop_below |].
  intros news p1 H1. cbn beta iota. by apply below_check.
Qed.

Lemma parseImageLoop_below fuel : ∀ image p,
  (List.length (xpp.input p) < fuel)%nat →
  below (List.length (xpp.input p)) (sitemap.parseImageLoop decodeText fuel image p).
Proof.
  induction fuel as [| fuel IH]; intros image p Hlt; [lia |].
  cbn [sitemap.parseImageLoop]. turn IH.
  destruct (bool_decide (ToLower (xpp.Name p0) = "loc"));
    [after IH ParseText_below |].
  skipped IH p0.
Qed.

Lemma parseImage_below fuel p :
  (List.length (xpp.input p) < fuel)%nat →
  below (List.length (xpp.input p)) (sitemap.parseImage decodeText fuel p).
Proof.
  intros Hlt. unfold sitemap.parseImage. apply below_check.
  eapply below_bind; [by apply parseImageLoop_below |].
  intros image p1 H1. cbn beta iota. by apply below_check.
Qed.

Lemma parseNewsLoop_below fuel : ∀ news p,
  (List.length (xpp.input p) < fuel)%nat →
  below (List.length (xpp.input p)) (sitemap.parseNewsLoop decodeText fuel news p).
Proof.
  induction fuel as [| fuel IH]; intros news p Hlt; [lia |].
  cbn [sitemap.parseNewsLoop]. turn IH.
  destruct (bool_decide (ToLower (xpp.Name p0) = "publication")).
  { eapply below_bind; [apply parsePublication_below; lia |].
    intros r p2 H2. cbn beta iota. eapply below_mono; [apply IH; lia | lia]. }
  destruct (bool_decide (ToLower (xpp.Name p0) = "publication_date"));
    [after IH ParseText_below |].
  destruct (bool_decide (ToLower (xpp.Name p0) = "title"));
    [after IH ParseText_below |].
  skipped IH p0.
Qed.

Lemma parseNews_below fuel p :
  (List.length (xpp.input p) < fuel)%nat →
  below (List.length (xpp.input p)) (sitemap.parseNews decodeText fuel p).
Proof.
  intros Hlt. unfold sitemap.parseNews. apply below_check.
  eapply below_bind; [by apply parseNewsLoop_below |].
  intros news p1 H1. cbn beta iota. by apply below_check.
Qed.

Lemma parseItemLoop_below fuel : ∀ st p,
  (List.length (xpp.input p) < fuel)%nat →
  below (List.length (xpp.input p))
    (sitemap.parseItemLoop recognizes extend decodeText ParseDate fuel st p).
Proof.
  induction fuel as [| fuel IH]; intros st p Hlt; [lia |].
  cbn [sitemap.parseItemLoop]. turn IH.
  destruct (shared.IsExtension recognizes p0);
    [after IH ParseExtension_below |].
  destruct (bool_decide (ToLower (xpp.Name p0) = "news")).
  { eapply below_bind; [apply parseNews_below; lia |].
    intros r p2 H2. cbn beta iota zeta. eapply below_mono; [apply IH; lia | lia]. }
  destruct (bool_decide (ToLower (xpp.Name p0) = "loc")).
  { destruct (bool_decide (0 < String.length _)%nat);
      [eapply below_mono; [apply IH; lia | lia] | after IH ParseText_below]. }
  destruct (bool_decide (ToLower (xpp.Name p0) = "image")).
  { eapply below_bind; [apply parseImage_below; lia |].
    intros r p2 H2. cbn beta iota. eapply below_mono; [apply IH; lia | lia]. }
  skipped IH p0.
Qed.

Lemma parseItem_below fuel p :
  (List.length (xpp.input p) < fuel)%nat →
  below (List.length (xpp.input p))
    (sitemap.parseItem recognizes extend decodeText ParseDate fuel p).
Proof.
  intros Hlt. unfold sitemap.parseItem. apply below_check.
  eapply below_bind; [by apply parseItemLoop_below |].
  intros st p1 H1. cbn beta iota zeta. by apply below_check.
Qed.

Lemma parseRootLoop_below fuel : ∀ c items p,
  (List.length (xpp.input p) < fuel)%nat →
  below (List.length (xpp.input p))
    (sitemap.parseRootLoop recognizes extend decodeText ParseDate fuel (Some c) items p).
Proof.
  induction fuel as [| fuel IH]; intros c items p Hlt; [lia |].
  cbn [sitemap.parseRootLoop]. turn IH.
  destruct (shared.IsExtension recognizes p0); [skipped IH p0 |].
  destruct (bool_decide (ToLower (xpp.Name p0) = "url")); [| skipped IH p0].
  eapply below_bind; [apply parseItem_below; lia |].
  intros [item feed] p2 H2. cbn beta iota zeta.
  rewrite bool_decide_eq_false_2 by discriminate.
  eapply below_mono; [apply IH; lia | lia].
Qed.

End Returns.

(** * The sub-parsers return what the tree gives *)

Lemma forest_Element_length sp nm at_ cs ks :
  List.length (forest (Element sp nm at_ cs :: ks))
  = S (List.length (forest cs) + S (List.length (forest ks))).
Proof.
  rewrite forest_cons, tokens_Element. simpl. rewrite !length_app. simpl. lia.
Qed.

Section Completeness.

Variable recognizes : string → bool.
Variable extend : ext.Extensions → string → string → list Attr → list Token
                  → string + ext.Extensions.
Variable decodeText : list Token → string + string.
Variable ParseDate : string → option time.Time.

Lemma parsePublicationLoop_complete fuel : ∀ kids news p s n rest news',
  xpp.input p = forest kids ++ EndElement s n :: rest →
  (List.length (forest kids) < fuel)%nat →
  document.publicationOf decodeText news kids = Some news' →
  sitemap.parsePublicationLoop decodeText fuel news p = Done (news', xpp.onEnd s n rest).
Proof.
  induction fuel as [| fuel IHf]; [lia |].
  induction kids as [| [sp nm at_ cs | d | k d] ks IHk]; intros news p s n rest news' Hin Hlen H;
    cbn [sitemap.parsePublicationLoop]; unfold shared.NextTag; rewrite Hin.
  - simpl. by inversion H.
  - rewrite forest_Element_cons. rewrite forest_Element_length in Hlen. simpl.
    cbn [document.publicationOf] in H. unfold document.textOf in H.
    repeat case_bool_decide; rewrite ?ParseText_forest, ?Skip_onStart.
    + destruct (decodeText (forest cs)); simpl in H; [discriminate |].
      simpl. eapply IHf; [reflexivity | lia | exact H].
    + destruct (decodeText (forest cs)); simpl in H; [discriminate |].
      simpl. eapply IHf; [reflexivity | lia | exact H].
    + simpl. eapply IHf; [reflexivity | lia | exact H].
  - simpl in Hlen.
    apply (IHk news (xpp.NewXMLPullParser _) s n rest news'); [reflexivity | lia | exact H].
  - simpl in Hlen.
    apply (IHk news (xpp.NewXMLPullParser _) s n rest news'); [reflexivity | lia | exact H].
Qed.

Lemma parsePublication_complete fuel sp nm at_ cs s n rest news' :
  ToLower nm = "publication" → ToLower n = "publication" →
  (List.length (forest cs) < fuel)%nat →
  document.publicationOf decodeText sitemap.News0 cs = Some news' →
  sitemap.parsePublication decodeText fuel
    (xpp.onStart sp nm at_ (forest cs ++ EndElement s n :: rest))
  = Done (news', xpp.onEnd s n rest).
Proof.
  intros Hnm Hn Hlen H. unfold sitemap.parsePublication.
  rewrite Expect_onStart by exact Hnm. simpl.
  erewrite parsePublicationLoop_complete; [| reflexivity | exact Hlen | exact H].
  simpl. rewrite Expect_onEnd by exact Hn. reflexivity.
Qed.

Lemma parseImageLoop_complete fuel : ∀ kids image p s n rest image',
  xpp.input p = forest kids ++ EndElement s n :: rest →
  (List.length (forest kids) < fuel)%nat →
  document.imageOf decodeText image kids = Some image' →
  sitemap.parseImageLoop decodeText fuel image p = Done (image', xpp.onEnd s n rest).
Proof.
  induction fuel as [| fuel IHf]; [lia |].
  induction kids as [| [sp nm at_ cs | d | k d] ks IHk];
    intros image p s n rest image' Hin Hlen H;
    cbn [sitemap.parseImageLoop]; unfold shared.NextTag; rewrite Hin.
  - simpl. by inversion H.
  - rewrite forest_Element_cons. rewrite forest_Element_length in Hlen. simpl.
    cbn [document.imageOf] in H. unfold document.textOf in H.
    repeat case_bool_decide; rewrite ?ParseText_forest, ?Skip_onStart.
    + destruct (decodeText (forest cs)); simpl in H; [discriminate |].
      simpl. eapply IHf; [reflexivity | lia | exact H].
    + simpl. eapply IHf; [reflexivity | lia | exact H].
  - simpl in Hlen.
    apply (IHk image (xpp.NewXMLPullParser _) s n rest image'); [reflexivity | lia | exact H].
  - simpl in Hlen.
    apply (IHk image (xpp.NewXMLPullParser _) s n rest image'); [reflexivity | lia | exact H].
Qed.

Lemma parseImage_complete fuel sp nm at_ cs s n rest image' :
  ToLower nm = "image" → ToLower n = "image" →
  (List.length (forest cs) < fuel)%nat →
  document.imageOf decodeText sitemap.Image0 cs = Some image' →
  sitemap.parseImage decodeText fuel
    (xpp.onStart sp nm at_ (forest cs ++ EndElement s n :: rest))
  = Done (image', xpp.onEnd s n rest).
Proof.
  intros Hnm Hn Hlen H. unfold sitemap.parseImage.
  rewrite Expect_onStart by exact Hnm. simpl.
  erewrite parseImageLoop_complete; [| reflexivity | exact Hlen | exact H].
  simpl. rewrite Expect_onEnd by exact Hn. reflexivity.
Qed.

Lemma parseNewsLoop_complete fuel : ∀ kids news p s n rest news',
  xpp.input p = forest kids ++ EndElement s n :: rest →
  (List.length (forest kids) < fuel)%nat →
  document.newsOf decodeText news kids = Some news' →
  sitemap.parseNewsLoop decodeText fuel news p = Done (news', xpp.onEnd s n rest).
Proof.
  induction fuel as [| fuel IHf]; [lia |].
  induction kids as [| [sp nm at_ cs | d | k d] ks IHk]; intros news p s n rest news' Hin Hlen H;
    cbn [sitemap.parseNewsLoop]; unfold shared.NextTag; rewrite Hin.
  - simpl. by inversion H.
  - rewrite forest_Element_cons. rewrite forest_Element_length in Hlen. simpl.
    cbn [document.newsOf] in H. unfold document.textOf in H.
    repeat case_bool_decide; rewrite ?ParseText_forest, ?Skip_onStart.
    + destruct (document.publicationOf decodeText sitemap.News0 cs) as [result |] eqn:Hsub;
        [| discriminate].
      erewrite parsePublication_complete; [| done | done | lia | exact Hsub].
      simpl. simpl in H. eapply IHf; [reflexivity | lia | exact H].
    + destruct (decodeText (forest cs)); simpl in H; [discriminate |].
      simpl. eapply IHf; [reflexivity | lia | exact H].
    + destruct (decodeText (forest cs)); simpl in H; [discriminate |].
      simpl. eapply IHf; [reflexivity | lia | exact H].
    + simpl. eapply IHf; [reflexivity | lia | exact H].
  - simpl in Hlen.
    apply (IHk news (xpp.NewXMLPullParser _) s n rest news'); [reflexivity | lia | exact H].
  - simpl in Hlen.
    apply (IHk news (xpp.NewXMLPullParser _) s n rest news'); [reflexivity | lia | exact H].
Qed.

Lemma parseNews_complete fuel sp nm at_ cs s n rest news' :
  ToLower nm = "news" → ToLower n = "news" →
  (List.length (forest cs) < fuel)%nat →
  document.newsOf decodeText sitemap.News0 cs = Some news' →
  sitemap.parseNews decodeText fuel
    (xpp.onStart sp nm at_ (forest cs ++ EndElement s n :: rest))
  = Done (news', xpp.onEnd s n rest).
Proof.
  intros Hnm Hn Hlen H. unfold sitemap.parseNews.
  rewrite Expect_onStart by exact Hnm. simpl.
  erewrite parseNewsLoop_complete; [| reflexivity | exact Hlen | exact H].
  simpl. rewrite Expect_onEnd by exact Hn. reflexivity.
Qed.

Lemma parseItemLoop_complete fuel : ∀ kids st p s n rest st',
  xpp.input p = forest kids ++ EndElement s n :: rest →
  (List.length (forest kids) < fuel)%nat →
  document.itemChildren recognizes extend decodeText ParseDate st kids = Some st' →
  sitemap.parseItemLoop recognizes extend decodeText ParseDate fuel st p
  = Done (st', xpp.onEnd s n rest).
Proof.
  induction fuel as [| fuel IHf]; [lia |].
  induction kids as [| [sp nm at_ cs | d | k d] ks IHk]; intros st p s n rest st' Hin Hlen H;
    cbn [sitemap.parseItemLoop]; unfold shared.NextTag; rewrite Hin.
  - simpl. by inversion H.
  - rewrite forest_Element_cons. rewrite forest_Element_length in Hlen. simpl.
    cbn [document.itemChildren] in H. unfold document.textOf in H.
    unfold shared.IsExtension. simpl.
    destruct (recognizes sp).
    { rewrite ParseExtension_forest.
      destruct (extend _ sp nm at_ (forest cs)); [discriminate |].
      simpl. eapply IHf; [reflexivity | lia | exact H]. }
    repeat case_bool_decide; try discriminate; rewrite ?ParseText_forest, ?Skip_onStart.
    + destruct (document.newsOf decodeText sitemap.News0 cs) as [result |] eqn:Hsub;
        [| discriminate].
      erewrite parseNews_complete; [| done | done | lia | exact Hsub].
      simpl. simpl in H. eapply IHf; [reflexivity | lia | exact H].
    + destruct (decodeText (forest cs)); simpl in H; [discriminate |].
      simpl. eapply IHf; [reflexivity | lia | exact H].
    + destruct (document.imageOf decodeText sitemap.Image0 cs) as [result |] eqn:Hsub;
        [| discriminate].
      erewrite parseImage_complete; [| done | done | lia | exact Hsub].
      simpl. simpl in H. eapply IHf; [reflexivity | lia | exact H].
    + simpl. eapply IHf; [reflexivity | lia | exact H].
  - simpl in Hlen.
    apply (IHk st (xpp.NewXMLPullParser _) s n rest st'); [reflexivity | lia | exact H].
  - simpl in Hlen.
    apply (IHk st (xpp.NewXMLPullParser _) s n rest st'); [reflexivity | lia | exact H].
Qed.

Lemma parseItem_complete fuel sp nm at_ cs s n rest item feed :
  ToLower nm = "url" → ToLower n = "url" →
  (List.length (forest cs) < fuel)%nat →
  document.itemOf recognizes extend decodeText ParseDate cs = Some (item, feed) →
  sitemap.parseItem recognizes extend decodeText ParseDate fuel
    (xpp.onStart sp nm at_ (forest cs ++ EndElement s n :: rest))
  = Done (item, feed, xpp.onEnd s n rest).
Proof.
  intros Hnm Hn Hlen H. unfold sitemap.parseItem, document.itemOf in *.
  rewrite Expect_onStart by exact Hnm. simpl.
  destruct (document.itemChildren _ _ _ _ _ cs) as [st |] eqn:Hst; [| discriminate].
  erewrite parseItemLoop_complete; [| reflexivity | exact Hlen | exact Hst].
  simpl. rewrite Expect_onEnd by exact Hn. simpl. simpl in H. by inversion H.
Qed.

Lemma parseRootLoop_complete fuel : ∀ kids c items p s n rest its,
  xpp.input p = forest kids ++ EndElement s n :: rest →
  (List.length (forest kids) < fuel)%nat →
  mapM (document.itemOfNode recognizes extend decodeText ParseDate)
       (document.urlChildren recognizes kids) = Some its →
  sitemap.parseRootLoop recognizes extend decodeText ParseDate fuel (Some c) items p
  = Done (Some c, items ++ its, xpp.onEnd s n rest).
Proof.
  induction fuel as [| fuel IHf]; [lia |].
  induction kids as [| [sp nm at_ cs | d | k d] ks IHk]; intros c items p s n rest its Hin Hlen H;
    cbn [sitemap.parseRootLoop]; unfold shared.NextTag; rewrite Hin.
  - simpl. inversion H; subst. by rewrite app_nil_r.
  - rewrite forest_Element_cons. rewrite forest_Element_length in Hlen. simpl.
    unfold shared.IsExtension. simpl.
    unfold document.urlChildren in H. cbn [List.filter document.isUrl] in H.
    destruct (recognizes sp); simpl in H.
    { rewrite Skip_onStart. simpl. eapply IHf; [reflexivity | lia | exact H]. }
    case_bool_decide as Hurl.
    + cbn [mapM] in H.
      destruct (document.itemOfNode recognizes extend decodeText ParseDate
                  (Element sp nm at_ cs)) as [item0 |] eqn:Hnode; [| discriminate].
      cbn [document.itemOfNode] in Hnode.
      destruct (document.itemOf recognizes extend decodeText ParseDate cs)
        as [[item feed] |] eqn:Hitem; [| discriminate].
      simpl in Hnode. inversion Hnode; subst; clear Hnode.
      cbn [mbind option_bind] in H.
      destruct (mapM _ _) as [its' |] eqn:Hits; [| discriminate].
      simpl in H. inversion H; subst; clear H.
      erewrite parseItem_complete; [| done | done | lia | exact Hitem].
      simpl. erewrite IHf; [| reflexivity | lia | exact Hits].
      by rewrite <- app_assoc.
    + rewrite Skip_onStart. simpl. eapply IHf; [reflexivity | lia | exact H].
  - simpl in Hlen.
    apply (IHk c items (xpp.NewXMLPullParser _) s n rest its); [reflexivity | lia | exact H].
  - simpl in Hlen.
    apply (IHk c items (xpp.NewXMLPullParser _) s n rest its); [reflexivity | lia | exact H].
Qed.

Lemma Parse_complete pre s n a kids post items :
  Forall (λ c, document.isLeaf c = true) pre →
  ToLower n = "urlset" →
  mapM (document.itemOfNode recognizes extend decodeText ParseDate)
       (document.urlChildren recognizes kids) = Some items →
  sitemap.Parse recognizes extend decodeText ParseDate
    (forest pre ++ tokens (Element s n a kids) ++ post)
  = Done (sitemap.mkFeed "" items "" (sitemap.parseVersion (xpp.onStart s n a []))).
Proof.
  intros Hpre Hn H. unfold sitemap.Parse, shared.FindRoot, xpp.NewXMLPullParser.
  cbn [xpp.input]. rewrite findRootFrom_leaves, tokens_Element by exact Hpre.
  cbn [app shared.findRootFrom]. cbn [mbind outcome_bind outcome_bind_def].
  unfold sitemap.parseRoot. rewrite Expect_onStart by exact Hn.
  rewrite <- app_assoc.
  erewrite parseRootLoop_complete; [| reflexivity | | exact H].
  - cbn [mbind outcome_bind outcome_bind_def app]. rewrite Expect_onEnd by exact Hn.
    unfold sitemap.parseVersion. simpl.
    destruct items; reflexivity.
  - rewrite !length_app. simpl. rewrite !length_app. simpl. lia.
Qed.

End Completeness.

(** * Further properties of the Sitemap parser *)

Lemma findRootFrom_below inp : below (List.length inp) (shared.findRootFrom inp).
Proof.
  induction inp as [| t inp IH]; [exact I |].
  destruct t; simpl; try lia; try exact I;
    (eapply below_mono; [exact IH | simpl; lia]).
Qed.

Section SitemapFurther.

Variable recognizes : string → bool.
Variable extend : ext.Extensions → string → string → list Attr → list Token
                  → string + ext.Extensions.
Variable decodeText : list Token → string + string.
Variable ParseDate : string → option time.Time.

Local Abbreviation Parse := (sitemap.Parse recognizes extend decodeText ParseDate).
Local Abbreviation parseItem := (sitemap.parseItem recognizes extend decodeText ParseDate).
Local Abbreviation itemChildren := (document.itemChildren recognizes extend decodeText ParseDate).
Local Abbreviation itemOf := (document.itemOf recognizes extend decodeText ParseDate).
Local Abbreviation itemOfNode := (document.itemOfNode recognizes extend decodeText ParseDate).
Local Abbreviation urlChildren := (document.urlChildren recognizes).
Local Abbreviation isLocChild := (document.isLocChild recognizes).
Local Abbreviation isNewsChild := (document.isNewsChild recognizes).
Local Abbreviation isImageChild := (document.isImageChild recognizes).

Lemma parseRoot_outcome fuel p :
  (List.length (xpp.input p) < fuel)%nat →
  (∃ feed, sitemap.parseRoot recognizes extend decodeText ParseDate fuel p = Done feed)
  ∨ (∃ e, sitemap.parseRoot recognizes extend decodeText ParseDate fuel p = Fail e).
Proof.
  intros Hlt. unfold sitemap.parseRoot.
  destruct (xpp.Expect p xpp.StartTag "urlset"); [right; eauto |].
  pose proof (parseRootLoop_below recognizes extend decodeText ParseDate fuel
                sitemap.Feed0 [] p Hlt) as Hloop.
  cbv zeta.
  destruct (sitemap.parseRootLoop _ _ _ _ _ _ _ _) as [[[ch its] p1] | e | |];
    simpl in Hloop; try contradiction; cbn [mbind outcome_bind outcome_bind_def].
  - destruct (xpp.Expect p1 xpp.EndTag "urlset"); [right; eauto | left; eauto].
  - right; eauto.
Qed.

Lemma Parse_outcome doc :
  (∃ feed, Parse doc = Done feed) ∨ (∃ e, Parse doc = Fail e).
Proof.
  unfold sitemap.Parse, shared.FindRoot, xpp.NewXMLPullParser. cbn [xpp.input].
  pose proof (findRootFrom_below doc) as Hroot.
  destruct (shared.findRootFrom doc) as [[tok p] | e | |]; simpl in Hroot;
    try contradiction; cbn [mbind outcome_bind outcome_bind_def].
  - apply parseRoot_outcome. lia.
  - right; eauto.
Qed.

(** X1: [Parse] returns on every token stream: its loops end within the
    number of tokens of the stream, and it never panics; the outcome is a
    feed or an error. *)
Theorem Parse_returns doc : returns (Parse doc).
Proof.
  destruct (Parse_outcome doc) as [[feed H] | [e H]]; rewrite H; exact I.
Qed.

(** X2: a well-formed document with a root named "urlset" (in any letter
    case) is accepted exactly when every "url" child of the root gives an
    item; the feed then has these items in order, an empty title and
    language, and the version read off the root. *)
Theorem Parse_accepts_iff pre s n a kids post feed :
  Forall (λ c, document.isLeaf c = true) pre →
  ToLower n = "urlset" →
  Parse (forest pre ++ tokens (Element s n a kids) ++ post) = Done feed
  ↔ ∃ items, mapM itemOfNode (urlChildren kids) = Some items
             ∧ feed = sitemap.mkFeed "" items "" (sitemap.parseVersion (xpp.onStart s n a [])).
Proof.
  intros Hpre Hn. split.
  - by apply Parse_document.
  - intros [items [Hitems ->]]. by apply Parse_complete.
Qed.

Lemma root_name pre s n a more feed :
  Forall (λ c, document.isLeaf c = true) pre →
  Parse (forest pre ++ StartElement s n a :: more) = Done feed →
  ToLower n = "urlset".
Proof.
  intros Hpre H. apply Parse_Done in H as [tok [p [Hroot H]]].
  unfold shared.FindRoot, xpp.NewXMLPullParser in Hroot. cbn [xpp.input] in Hroot.
  rewrite findRootFrom_leaves in Hroot by exact Hpre.
  cbn [shared.findRootFrom] in Hroot. inversion Hroot; subst; clear Hroot.
  apply parseRoot_Done in H as [Hexp _].
  apply Expect_None in Hexp as [_ [Hname | Hstar]]; [exact Hname | discriminate].
Qed.

(** X3: what follows the end tag of the root is not read: when a document
    is accepted, it is accepted with the same feed whatever stands behind
    its root element. *)
Theorem Parse_ignores_trailer pre s n a kids post post' feed :
  Forall (λ c, document.isLeaf c = true) pre →
  Parse (forest pre ++ tokens (Element s n a kids) ++ post) = Done feed →
  Parse (forest pre ++ tokens (Element s n a kids) ++ post') = Done feed.
Proof.
  intros Hpre H.
  assert (Hn : ToLower n = "urlset").
  { rewrite tokens_Element in H. simpl in H. by eapply root_name. }
  apply Parse_document in H as [items [Hitems ->]]; [| exact Hpre].
  by apply Parse_complete.
Qed.

(** X4: a stream whose first start tag is not named "urlset" is refused
    with the error of the root expectation, wrapped by [fmt.Errorf]; nothing
    below the root is read. *)
Theorem Parse_wrong_root pre s n a rest :
  Forall (λ t, document.isProlog t = true) pre →
  ToLower n ≠ "urlset" →
  Parse (pre ++ StartElement s n a :: rest)
  = Fail (xpp.Errorf (xpp.ErrExpect xpp.StartTag "urlset" xpp.StartTag s n)).
Proof.
  intros Hpre Hn. unfold sitemap.Parse, shared.FindRoot, xpp.NewXMLPullParser.
  cbn [xpp.input]. rewrite findRootFrom_prolog by exact Hpre.
  cbn [shared.findRootFrom mbind outcome_bind outcome_bind_def].
  unfold sitemap.parseRoot, xpp.Expect, xpp.ExpectAll. simpl.
  rewrite (bool_decide_eq_false_2 _ Hn), orb_true_r. reflexivity.
Qed.

(** The tree has no item for a "url" element in which a "loc" child with a
    text is followed by another "loc" child. *)
Lemma itemOf_second_loc k1 s1 n1 a1 c1 k2 t :
  isLocChild (Element s1 n1 a1 c1) = true →
  decodeText (forest c1) = inr t → t ≠ "" →
  Exists (λ c, isLocChild c = true) k2 →
  itemOf (k1 ++ Element s1 n1 a1 c1 :: k2) = None.
Proof.
  intros Hloc Ht Hne Hex.
  unfold document.itemOf. rewrite itemChildren_app.
  destruct (itemChildren _ k1) as [st1 |]; [| reflexivity]. simpl.
  simpl in Hloc. destruct (recognizes s1); [discriminate |]. simpl in Hloc.
  apply bool_decide_eq_true in Hloc. rewrite Hloc. simpl.
  case_bool_decide; [reflexivity |].
  unfold document.textOf. rewrite Ht. simpl.
  rewrite itemChildren_loc_set; [reflexivity | | exact Hex].
  simpl. destruct t; [contradiction | simpl; lia].
Qed.

Lemma mapM_None_app {A B} (f : A → option B) l1 x l2 :
  f x = None → mapM f (l1 ++ x :: l2) = None.
Proof.
  intros Hx. induction l1 as [| y l1 IH]; cbn [app mapM].
  - by rewrite Hx.
  - rewrite IH. by destruct (f y).
Qed.

(** X6: a document in which some "url" child of the root has a "loc" with
    a text followed by another "loc" is refused as a whole: [Parse] returns
    an error and no feed, whatever the other entries are. *)
Theorem Parse_second_loc_fails pre s n a r1 su nu au k1 s1 n1 a1 c1 k2 r2 post t :
  Forall (λ c, document.isLeaf c = true) pre →
  document.isUrl recognizes (Element su nu au (k1 ++ Element s1 n1 a1 c1 :: k2)) = true →
  isLocChild (Element s1 n1 a1 c1) = true →
  decodeText (forest c1) = inr t → t ≠ "" →
  Exists (λ c, isLocChild c = true) k2 →
  ∃ e, Parse (forest pre
              ++ tokens (Element s n a
                           (r1 ++ Element su nu au (k1 ++ Element s1 n1 a1 c1 :: k2) :: r2))
              ++ post) = Fail e.
Proof.
  intros Hpre Hurl Hloc Ht Hne Hex.
  destruct (Parse_outcome (forest pre
              ++ tokens (Element s n a
                           (r1 ++ Element su nu au (k1 ++ Element s1 n1 a1 c1 :: k2) :: r2))
              ++ post)) as [[feed H] | He]; [| exact He].
  exfalso. apply Parse_document in H as [items [Hitems _]]; [| exact Hpre].
  unfold document.urlChildren in Hitems.
  rewrite List.filter_app in Hitems. cbn [List.filter] in Hitems. rewrite Hurl in Hitems.
  rewrite mapM_None_app in Hitems; [discriminate |].
  cbn [document.itemOfNode]. by rewrite (itemOf_second_loc _ _ _ _ _ _ t).
Qed.

End SitemapFurther.

Lemma Parse_accepts_iff_witness :
  example.Parse (forest example.mixedPrologue ++ tokens (example.el "urlset" example.mixedKids)
                 ++ [CharData " "]) = Done example.mixedFeed
  ↔ ∃ items,
      mapM (document.itemOfNode example.recognizes example.extend example.decodeText
              example.ParseDate)
           (document.urlChildren example.recognizes example.mixedKids) = Some items
      ∧ example.mixedFeed
        = sitemap.mkFeed "" items ""
            (sitemap.parseVersion (xpp.onStart "" "urlset" [] [])).
Proof.
  apply (Parse_accepts_iff example.recognizes example.extend example.decodeText
           example.ParseDate example.mixedPrologue "" "urlset" [] example.mixedKids
           [CharData " "] example.mixedFeed).
  - repeat constructor.
  - reflexivity.
Defined.

Lemma Parse_ignores_trailer_witness :
  example.Parse (forest example.mixedPrologue ++ tokens (example.el "urlset" example.mixedKids)
                 ++ [Malformed "</x>"; StartElement "" "url" []]) = Done example.mixedFeed.
Proof.
  apply (Parse_ignores_trailer example.recognizes example.extend example.decodeText
           example.ParseDate example.mixedPrologue "" "urlset" [] example.mixedKids
           [CharData " "] [Malformed "</x>"; StartElement "" "url" []] example.mixedFeed).
  - repeat constructor.
  - vm_compute. reflexivity.
Defined.

Lemma Parse_wrong_root_witness :
  example.Parse ([Misc KComment "c"; CharData " "]
                 ++ StartElement "" "sitemapindex" [] :: [EndElement "" "sitemapindex"])
  = Fail (xpp.Errorf (xpp.ErrExpect xpp.StartTag "urlset" xpp.StartTag "" "sitemapindex")).
Proof.
  apply (Parse_wrong_root example.recognizes example.extend example.decodeText
           example.ParseDate [Misc KComment "c"; CharData " "] "" "sitemapindex" []
           [EndElement "" "sitemapindex"]).
  - repeat constructor.
  - discriminate.
Defined.

Lemma Parse_title_language_witness :
  sitemap.Feed_Title (example.valueOf (example.Parse example.newsDoc)) = ""
  ∧ sitemap.Feed_Language (example.valueOf (example.Parse example.newsDoc)) = "".
Proof.
  apply (Parse_title_language example.recognizes example.extend example.decodeText
           example.ParseDate example.newsDoc).
  vm_compute. reflexivity.
Defined.

Lemma Parse_second_loc_fails_witness :
  ∃ e, example.Parse
         (forest example.mixedPrologue
          ++ tokens (example.el "urlset"
                       ([example.el "url" [example.el "loc" [Chars "http://a/"]]]
                        ++ example.el "url"
                             ([Chars " "] ++ example.el "loc" [Chars "b"]
                              :: [Chars " "; example.el "LOC" []])
                        :: [Chars " "]))
          ++ []) = Fail e.
Proof.
  apply (Parse_second_loc_fails example.recognizes example.extend example.decodeText
           example.ParseDate example.mixedPrologue "" "urlset" []
           [example.el "url" [example.el "loc" [Chars "http://a/"]]]
           "" "url" [] [Chars " "] "" "loc" [] [Chars "b"]
           [Chars " "; example.el "LOC" []] [Chars " "] [] "b").
  - repeat constructor.
  - reflexivity.
  - reflexivity.
  - reflexivity.
  - discriminate.
  - apply Exists_cons_tl, Exists_cons_hd. reflexivity.
Defined.

(** * Further properties of one item *)

Section ItemFurther.

Variable recognizes : string → bool.
Variable extend : ext.Extensions → string → string → list Attr → list Token
                  → string + ext.Extensions.
Variable decodeText : list Token → string + string.
Variable ParseDate : string → option time.Time.

Local Abbreviation Parse := (sitemap.Parse recognizes extend decodeText ParseDate).
Local Abbreviation parseItem := (sitemap.parseItem recognizes extend decodeText ParseDate).
Local Abbreviation parseItemLoop :=
  (sitemap.parseItemLoop recognizes extend decodeText ParseDate).
Local Abbreviation parseRootLoop :=
  (sitemap.parseRootLoop recognizes extend decodeText ParseDate).
Local Abbreviation itemChildren := (document.itemChildren recognizes extend decodeText ParseDate).
Local Abbreviation itemOf := (document.itemOf recognizes extend decodeText ParseDate).
Local Abbreviation newsOf := (document.newsOf decodeText).
Local Abbreviation isLocChild := (document.isLocChild recognizes).
Local Abbreviation isNewsChild := (document.isNewsChild recognizes).
Local Abbreviation isImageChild := (document.isImageChild recognizes).
Local Abbreviation state0 := (sitemap.mkItemState sitemap.Item0 sitemap.Feed0 ∅).

(** The link and the image of the returned item are those of the last
    state. *)
Lemma itemOf_link_image cs item hints :
  itemOf cs = Some (item, hints) →
  ∃ st, itemChildren state0 cs = Some st
        ∧ sitemap.Item_Link item = sitemap.Item_Link (sitemap.st_item st)
        ∧ sitemap.Item_Image item = sitemap.Item_Image (sitemap.st_item st).
Proof.
  intros H. apply itemOf_fields in H as [st [H [_ [_ [_ ->]]]]].
  exists st. split; [exact H |]. by case_bool_decide.
Qed.

Lemma itemChildren_keeps_link k : ∀ st st',
  Forall (λ c, isLocChild c = false) k →
  itemChildren st k = Some st' →
  sitemap.Item_Link (sitemap.st_item st') = sitemap.Item_Link (sitemap.st_item st).
Proof.
  induction k as [| [sp nm at_ cs | d | kd d] k IH]; intros st st' Hall H;
    inversion Hall as [| ? ? Hc Hrest]; subst; simpl in H.
  - by inversion H.
  - simpl in Hc. destruct (recognizes sp).
    { destruct (extend _ sp nm at_ (forest cs)); [discriminate |].
      by rewrite (IH _ _ Hrest H). }
    simpl in Hc. apply bool_decide_eq_false in Hc.
    repeat case_bool_decide; try contradiction; try discriminate.
    + destruct (document.newsOf decodeText sitemap.News0 cs); [| discriminate].
      simpl in H. rewrite (IH _ _ Hrest H). simpl.
      unfold sitemap.withParsedDate. by destruct (ParseDate _).
    + destruct (document.imageOf decodeText sitemap.Image0 cs); [| discriminate].
      simpl in H. by rewrite (IH _ _ Hrest H).
    + by apply IH.
  - by apply IH.
  - by apply IH.
Qed.

(** X7: the link of a returned item is the text of the last "loc" child of
    its "url" element.  (An earlier "loc" child is read too, and the item is
    only returned when its text is empty.) *)
Theorem parseItem_link_last_loc fuel s n a k1 s1 n1 a1 c1 k2 rest item hints p' :
  isLocChild (Element s1 n1 a1 c1) = true →
  Forall (λ c, isLocChild c = false) k2 →
  parseItem fuel
    (xpp.onStart s n a (forest (k1 ++ Element s1 n1 a1 c1 :: k2) ++ EndElement s n :: rest))
    = Done (item, hints, p') →
  decodeText (forest c1) = inr (sitemap.Item_Link item)
  ∧ ∀ st1, itemChildren state0 k1 = Some st1 →
           sitemap.Item_Link (sitemap.st_item st1) = "".
Proof.
  intros Hloc Hk2 H. apply parseItem_reads in H as [H _].
  apply itemOf_link_image in H as [st [H [-> _]]].
  rewrite itemChildren_app in H.
  destruct (itemChildren _ k1) as [st1 |]; [| discriminate]. simpl in H.
  simpl in Hloc. destruct (recognizes s1); [discriminate |]. simpl in Hloc.
  apply bool_decide_eq_true in Hloc. rewrite Hloc in H. simpl in H.
  case_bool_decide as Hlink; [discriminate |].
  unfold document.textOf in H.
  destruct (decodeText (forest c1)) as [| t]; [discriminate |]. simpl in H.
  apply itemChildren_keeps_link in H; [| exact Hk2]. simpl in H.
  split; [by rewrite H |].
  intros st1' Hst. inversion Hst; subst.
  destruct (sitemap.Item_Link (sitemap.st_item st1')); [reflexivity |].
  exfalso. apply Hlink. simpl. lia.
Qed.

Lemma itemChildren_image k : ∀ st st',
  itemChildren st k = Some st' →
  if existsb isImageChild k
  then is_Some (sitemap.Item_Image (sitemap.st_item st'))
  else sitemap.Item_Image (sitemap.st_item st') = sitemap.Item_Image (sitemap.st_item st).
Proof.
  assert (Hsome : ∀ k st st', itemChildren st k = Some st' →
            is_Some (sitemap.Item_Image (sitemap.st_item st)) →
            is_Some (sitemap.Item_Image (sitemap.st_item st'))).
  { clear k. induction k as [| [sp nm at_ cs | d | kd d] k IH]; intros st st' H Hs; simpl in H.
    - by inversion H; subst.
    - destruct (recognizes sp).
      { destruct (extend _ sp nm at_ (forest cs)); [discriminate |].
        eapply IH; [exact H | exact Hs]. }
      repeat case_bool_decide; try discriminate.
      + destruct (document.newsOf decodeText sitemap.News0 cs); [| discriminate].
        simpl in H. eapply IH; [exact H |]. simpl.
        unfold sitemap.withParsedDate. by destruct (ParseDate _).
      + destruct (document.textOf decodeText cs); [| discriminate].
        simpl in H. by eapply IH.
      + destruct (document.imageOf decodeText sitemap.Image0 cs); [| discriminate].
        simpl in H. eapply IH; [exact H | by eexists].
      + by eapply IH.
    - by eapply IH.
    - by eapply IH. }
  induction k as [| [sp nm at_ cs | d | kd d] k IH]; intros st st' H; simpl in H.
  - by inversion H; subst.
  - simpl. destruct (recognizes sp) eqn:Hsp; simpl.
    { destruct (extend _ sp nm at_ (forest cs)); [discriminate |].
      apply IH in H. exact H. }
    repeat case_bool_decide; try discriminate; try congruence; simpl.
    + destruct (document.newsOf decodeText sitemap.News0 cs); [| discriminate].
      simpl in H. apply IH in H. destruct (existsb isImageChild k); [exact H |].
      rewrite H. simpl. unfold sitemap.withParsedDate. by destruct (ParseDate _).
    + destruct (document.textOf decodeText cs); [| discriminate].
      simpl in H. by apply IH in H.
    + destruct (document.imageOf decodeText sitemap.Image0 cs); [| discriminate].
      simpl in H. eapply Hsome; [exact H | by eexists].
    + by apply IH in H.
  - by apply IH in H.
  - by apply IH in H.
Qed.


Lemma newsOf_keeps_publication n2 : ∀ news news',
  Forall (λ c, document.isPublication c = false) n2 →
  newsOf news n2 = Some news' →
  sitemap.News_Name news' = sitemap.News_Name news
  ∧ sitemap.News_Language news' = sitemap.News_Language news.
Proof.
  induction n2 as [| [sp nm at_ cs | d | k d] n2 IH]; intros news news' Hall H;
    inversion Hall as [| ? ? Hc Hrest]; subst; simpl in H.
  - by inversion H.
  - simpl in Hc. apply bool_decide_eq_false in Hc.
    repeat case_bool_decide; try contradiction.
    + destruct (document.textOf decodeText cs); [| discriminate].
      simpl in H. by destruct (IH _ _ Hrest H) as [-> ->].
    + destruct (document.textOf decodeText cs); [| discriminate].
      simpl in H. by destruct (IH _ _ Hrest H) as [-> ->].
    + by apply IH.
  - by apply IH.
  - by apply IH.
Qed.

(** X9: the name and the language that [parseNews] returns are those of
    the last "publication" child alone: both are overwritten by every
    publication, so a name given by an earlier publication does not survive
    a later one without a name. *)
Theorem parseNews_last_publication fuel sp nm at_ n1 ps pn pa pkids n2 s n rest news p' :
  document.isPublication (Element ps pn pa pkids) = true →
  Forall (λ c, document.isPublication c = false) n2 →
  sitemap.parseNews decodeText fuel
    (xpp.onStart sp nm at_
       (forest (n1 ++ Element ps pn pa pkids :: n2) ++ EndElement s n :: rest))
    = Done (news, p') →
  ∃ result, document.publicationOf decodeText sitemap.News0 pkids = Some result
            ∧ sitemap.News_Name news = sitemap.News_Name result
            ∧ sitemap.News_Language news = sitemap.News_Language result.
Proof.
  intros Hpub Hn2 H. apply parseNews_reads in H as [H _].
  rewrite newsOf_app in H.
  destruct (newsOf sitemap.News0 n1) as [news1 |]; [| discriminate]. simpl in H.
  simpl in Hpub. apply bool_decide_eq_true in Hpub. rewrite Hpub in H. simpl in H.
  destruct (document.publicationOf decodeText sitemap.News0 pkids) as [result |];
    [| discriminate].
  simpl in H. exists result. split; [reflexivity |].
  apply newsOf_keeps_publication in H; [| exact Hn2]. exact H.
Qed.

Local Abbreviation inUTC :=
  (λ item : sitemap.Item,
     ∀ t, sitemap.Item_PubDateParsed item = Some t → time.location t = "UTC").

Lemma parseItemLoop_utc fuel : ∀ st p st' p',
  inUTC (sitemap.st_item st) →
  parseItemLoop fuel st p = Done (st', p') →
  inUTC (sitemap.st_item st').
Proof.
  induction fuel as [| fuel IH]; [discriminate |].
  intros st p st' p' Hst H. cbn [sitemap.parseItemLoop] in H.
  apply bind_Done in H as [[tok p1] [_ H]]. cbn beta iota in H.
  destruct (bool_decide (tok = xpp.EndTag)); [by inversion H; subst |].
  destruct (bool_decide (tok = xpp.StartTag)); [| by eapply IH].
  destruct (shared.IsExtension recognizes p1).
  { apply bind_Done in H as [[e p2] [_ H]]. eapply IH; [| exact H]. exact Hst. }
  destruct (bool_decide (ToLower (xpp.Name p1) = "news")).
  { apply bind_Done in H as [[result p2] [_ H]]. eapply IH; [| exact H].
    cbn [sitemap.st_item]. unfold sitemap.withParsedDate.
    destruct (ParseDate _) as [date |]; simpl; [| exact Hst].
    intros t Ht. by inversion Ht. }
  destruct (bool_decide (ToLower (xpp.Name p1) = "loc")).
  { destruct (bool_decide (0 < String.length _)%nat); [by eapply IH |].
    apply bind_Done in H as [[result p2] [_ H]]. eapply IH; [| exact H]. exact Hst. }
  destruct (bool_decide (ToLower (xpp.Name p1) = "image")).
  { apply bind_Done in H as [[result p2] [_ H]]. eapply IH; [| exact H]. exact Hst. }
  by eapply IH.
Qed.

Lemma parseItem_utc fuel p item hints p' :
  parseItem fuel p = Done (item, hints, p') → inUTC item.
Proof.
  unfold sitemap.parseItem. intros H. apply check_Done in H as [_ H].
  apply bind_Done in H as [[st p1] [Hloop H]]. cbn beta iota zeta in H.
  apply check_Done in H as [_ H]. inversion H; subst; clear H.
  assert (H0 : inUTC (sitemap.st_item state0)) by (intros t Ht; discriminate).
  pose proof (parseItemLoop_utc _ _ _ _ _ H0 Hloop) as Hutc.
  by case_bool_decide.
Qed.

Lemma parseRootLoop_utc fuel : ∀ ch items p ch' items' p',
  Forall inUTC items →
  parseRootLoop fuel ch items p = Done (ch', items', p') →
  Forall inUTC items'.
Proof.
  induction fuel as [| fuel IH]; [discriminate |].
  intros ch items p ch' items' p' Hitems H. cbn [sitemap.parseRootLoop] in H.
  apply bind_Done in H as [[tok p1] [_ H]]. cbn beta iota in H.
  destruct (bool_decide (tok = xpp.EndTag)); [by inversion H; subst |].
  destruct (bool_decide (tok = xpp.StartTag)); [| by eapply IH].
  destruct (shared.IsExtension recognizes p1); [by eapply IH |].
  destruct (bool_decide (ToLower (xpp.Name p1) = "url")); [| by eapply IH].
  apply bind_Done in H as [[[item feed] p2] [Hitem H]]. cbn beta iota zeta in H.
  pose proof (parseItem_utc _ _ _ _ _ Hitem) as Hutc.
  assert (Hall : Forall inUTC (items ++ [item])).
  { apply Forall_app. split; [exact Hitems | by constructor]. }
  destruct (bool_decide (ch = None)); [| by eapply IH].
  apply bind_Done in H as [ch1 [_ H]]. apply bind_Done in H as [ch2 [_ H]].
  by eapply IH.
Qed.

(** X10: in a returned feed, every parsed date is shown in UTC, whatever
    location the date parser has given it. *)
Theorem Parse_dates_in_UTC doc feed :
  Parse doc = Done feed →
  Forall (λ item, ∀ t, sitemap.Item_PubDateParsed item = Some t → time.location t = "UTC")
    (sitemap.Feed_Items feed).
Proof.
  intros H. apply Parse_Done in H as [tok [p [_ H]]].
  apply parseRoot_Done in H as [_ [items [p' [Hloop ->]]]]. simpl.
  eapply parseRootLoop_utc; [| exact Hloop]. constructor.
Qed.

(** X11: when the raw date of the last "news" child does not parse,
    PubDate is that raw date while PubDateParsed is what the children before
    that news have left: the parsed date of an earlier "news" child stays in
    the item. *)
Theorem parseItem_stale_date fuel s n a k1 ns nn na nkids k2 rest item hints p' :
  isNewsChild (Element ns nn na nkids) = true →
  Forall (λ c, isNewsChild c = false) k2 →
  parseItem fuel
    (xpp.onStart s n a (forest (k1 ++ Element ns nn na nkids :: k2) ++ EndElement s n :: rest))
    = Done (item, hints, p') →
  ParseDate (sitemap.Item_PubDate item) = None →
  ∃ st1 result,
    itemChildren state0 k1 = Some st1
    ∧ newsOf sitemap.News0 nkids = Some result
    ∧ sitemap.Item_PubDate item = sitemap.News_PublicationDate result
    ∧ sitemap.Item_PubDateParsed item = sitemap.Item_PubDateParsed (sitemap.st_item st1).
Proof.
  intros Hnews Hk2 H Hdate. apply parseItem_reads in H as [H _].
  apply itemOf_fields in H as [st [H [_ [Hraw [Hparsed _]]]]].
  rewrite Hraw in Hdate. rewrite Hraw, Hparsed. clear Hraw Hparsed.
  rewrite itemChildren_app in H.
  destruct (itemChildren _ k1) as [st1 |]; [| discriminate]. simpl in H.
  simpl in Hnews. destruct (recognizes ns); [discriminate |]. simpl in Hnews.
  apply bool_decide_eq_true in Hnews. rewrite Hnews in H. simpl in H.
  destruct (document.newsOf decodeText sitemap.News0 nkids) as [result |]; [| discriminate].
  simpl in H. exists st1, result. split; [reflexivity |]. split; [reflexivity |].
  eapply itemChildren_keeps_news in H as [_ [Hd Hp]]; [| exact Hk2].
  simpl in Hd, Hp.
  assert (Hsame : sitemap.Item_PubDate (sitemap.st_item st) = sitemap.News_PublicationDate result).
  { rewrite Hd. unfold sitemap.withParsedDate.
    by destruct (ParseDate (sitemap.News_PublicationDate result)). }
  split; [exact Hsame |].
  rewrite Hp. rewrite Hsame in Hdate. unfold sitemap.withParsedDate. by rewrite Hdate.
Qed.

End ItemFurther.

Lemma parseItem_link_last_loc_witness :
  example.decodeText (forest [Chars "http://b/"])
    = inr (sitemap.Item_Link (sitemap.mkItem "" "http://b/" None "" None None))
  ∧ ∀ st1, document.itemChildren example.recognizes example.extend example.decodeText
             example.ParseDate (sitemap.mkItemState sitemap.Item0 sitemap.Feed0 ∅)
             [example.el "loc" []; Chars " "] = Some st1 →
           sitemap.Item_Link (sitemap.st_item st1) = "".
Proof.
  apply (parseItem_link_last_loc example.recognizes example.extend example.decodeText
           example.ParseDate 10 "" "url" []
           [example.el "loc" []; Chars " "] "" "loc" [] [Chars "http://b/"]
           [example.el "lastmod" [Chars "2024"]] []
           (sitemap.mkItem "" "http://b/" None "" None None) sitemap.Feed0
           (xpp.onEnd "" "url" [])).
  - reflexivity.
  - repeat constructor.
  - vm_compute. reflexivity.
Defined.


Lemma parseNews_last_publication_witness :
  ∃ result,
    document.publicationOf example.decodeText sitemap.News0
      [example.el "language" [Chars "fr"]] = Some result
    ∧ sitemap.News_Name (sitemap.mkNews "" "T" "fr" "") = sitemap.News_Name result
    ∧ sitemap.News_Language (sitemap.mkNews "" "T" "fr" "") = sitemap.News_Language result.
Proof.
  apply (parseNews_last_publication example.decodeText 10 "" "news" []
           [example.el "publication"
              [example.el "name" [Chars "A"]; example.el "language" [Chars "en"]]]
           "" "Publİcation" [] [example.el "language" [Chars "fr"]]
           [example.el "title" [Chars "T"]]
           "" "news" [] (sitemap.mkNews "" "T" "fr" "") (xpp.onEnd "" "news" [])).
  - reflexivity.
  - repeat constructor.
  - vm_compute. reflexivity.
Defined.

Lemma Parse_dates_in_UTC_witness :
  Forall (λ item, ∀ t, sitemap.Item_PubDateParsed item = Some t → time.location t = "UTC")
    (sitemap.Feed_Items (example.valueOf (example.Parse example.newsDoc))).
Proof.
  apply (Parse_dates_in_UTC example.recognizes example.extend example.decodeText
           example.ParseDate example.newsDoc).
  vm_compute. reflexivity.
Defined.

Lemma parseItem_stale_date_witness :
  ∃ st1 result,
    document.itemChildren example.recognizes example.extend example.decodeText
      example.ParseDate (sitemap.mkItemState sitemap.Item0 sitemap.Feed0 ∅)
      [example.el "news" [example.el "publication_date" [Chars "2024-01-02T00:00:00Z"]]]
    = Some st1
    ∧ document.newsOf example.decodeText sitemap.News0
        [example.el "publİcation_date" [Chars "yesterday"]] = Some result
    ∧ sitemap.Item_PubDate
        (sitemap.mkItem "" "" None "yesterday" (Some (time.mkTime 1704153600 "UTC")) None)
      = sitemap.News_PublicationDate result
    ∧ sitemap.Item_PubDateParsed
        (sitemap.mkItem "" "" None "yesterday" (Some (time.mkTime 1704153600 "UTC")) None)
      = sitemap.Item_PubDateParsed (sitemap.st_item st1).
Proof.
  apply (parseItem_stale_date example.recognizes example.extend example.decodeText
           example.ParseDate 10 "" "url" []
           [example.el "news" [example.el "publication_date" [Chars "2024-01-02T00:00:00Z"]]]
           "" "news" [] [example.el "publİcation_date" [Chars "yesterday"]]
           [] []
           (sitemap.mkItem "" "" None "yesterday" (Some (time.mkTime 1704153600 "UTC")) None)
           sitemap.Feed0 (xpp.onEnd "" "url" [])).
  - reflexivity.
  - constructor.
  - vm_compute. reflexivity.
  - reflexivity.
Defined.

(** * Further properties of the orchestrating parser *)

Section OrchestratorFurther.

Variable recognizes : string → bool.
Variable extend : ext.Extensions → string → string → list Attr → list Token
                  → string + ext.Extensions.
Variable decodeText : list Token → string + string.
Variable ParseDate : string → option time.Time.
Variable decode : list Byte.byte → list Token.
Variable pulled : list Byte.byte → nat.
Variable RSSFeed AtomFeed Feed : Type.
Variable rssParse : list Byte.byte → gofeed.foreign + RSSFeed.
Variable atomParse : list Byte.byte → gofeed.foreign + AtomFeed.
Variable DefaultAtomTranslator DefaultRSSTranslator DefaultSitemapTranslator
  : gofeed.Translator RSSFeed AtomFeed Feed.
Variable NewRequest : string → string → string + http.Request.
Variable roundTrip : http.Client → http.Request → string + http.Response.
Variable base64 : string → string.

Local Abbreviation DetectFeedType := (gofeed.DetectFeedType decode).
Local Abbreviation Parse :=
  (gofeed.Parse recognizes extend decodeText ParseDate decode pulled RSSFeed AtomFeed Feed
     rssParse atomParse DefaultAtomTranslator DefaultRSSTranslator DefaultSitemapTranslator).
Local Abbreviation parseAtomFeed :=
  (gofeed.parseAtomFeed RSSFeed AtomFeed Feed atomParse DefaultAtomTranslator).
Local Abbreviation parseRSSFeed :=
  (gofeed.parseRSSFeed RSSFeed AtomFeed Feed rssParse DefaultRSSTranslator).
Local Abbreviation parseSitemapFeed :=
  (gofeed.parseSitemapFeed recognizes extend decodeText ParseDate decode RSSFeed AtomFeed
     Feed DefaultSitemapTranslator).
Local Abbreviation answer :=
  (gofeed.answer recognizes extend decodeText ParseDate decode pulled RSSFeed AtomFeed Feed
     rssParse atomParse DefaultAtomTranslator DefaultRSSTranslator DefaultSitemapTranslator).
Local Abbreviation ParseURL :=
  (gofeed.ParseURL recognizes extend decodeText ParseDate decode pulled RSSFeed AtomFeed Feed
     rssParse atomParse DefaultAtomTranslator DefaultRSSTranslator DefaultSitemapTranslator
     NewRequest roundTrip).
Local Abbreviation ParseURLWithProxy :=
  (gofeed.ParseURLWithProxy recognizes extend decodeText ParseDate decode pulled RSSFeed
     AtomFeed Feed rssParse atomParse DefaultAtomTranslator DefaultRSSTranslator
     DefaultSitemapTranslator NewRequest roundTrip base64).
Local Abbreviation httpClient := (gofeed.httpClient RSSFeed AtomFeed Feed).
Local Abbreviation httpClientWithProxy := (gofeed.httpClientWithProxy RSSFeed AtomFeed Feed).
Local Abbreviation Client := (gofeed.Client RSSFeed AtomFeed Feed).
Local Abbreviation Get := (gofeed.Get NewRequest roundTrip).
Local Abbreviation sitemapTrans :=
  (gofeed.sitemapTrans RSSFeed AtomFeed Feed DefaultSitemapTranslator).

Lemma Parse_dispatch f feed :
  Parse f feed =
  match DetectFeedType feed with
  | gofeed.FeedTypeAtom => parseAtomFeed f feed
  | gofeed.FeedTypeRSS => parseRSSFeed f feed
  | gofeed.FeedTypeSitemap => parseSitemapFeed f feed
  | gofeed.FeedTypeUnknown => (Fail gofeed.ErrFailedToDetect, f)
  end.
Proof. unfold gofeed.Parse. by rewrite take_drop. Qed.

(** X13: [ParseURL] returns an [HTTPError] with the status of the
    response, and does not parse the body, when the status code is below 200
    or at least 400; a response with any code from 200 to 399 is handed to
    [Parse], and [ParseURL] returns what [Parse] makes of its body, under the
    deferred close of the body. *)
Theorem ParseURL_http_error f feedURL resp :
  Get (httpClient f).1 feedURL = inr resp →
  ((http.StatusCode resp < 200 ∨ 400 ≤ http.StatusCode resp)%Z →
     ParseURL f feedURL
     = (gofeed.Return Feed None
          (Some (gofeed.HTTPError (http.StatusCode resp) (http.Status resp))),
        (httpClient f).2))
  ∧ ((200 ≤ http.StatusCode resp < 400)%Z →
     (ParseURL f feedURL).1
     = gofeed.closing Feed (http.CloseError resp)
         (Parse (httpClient f).2 (http.Body resp)).1
     ∧ (ParseURL f feedURL).2 = (Parse (httpClient f).2 (http.Body resp)).2).
Proof.
  intros Hget. unfold gofeed.ParseURL.
  destruct (gofeed.httpClient RSSFeed AtomFeed Feed f) as [c f1] eqn:Hc.
  simpl in Hget. rewrite Hget. unfold gofeed.answer. cbn [fst snd]. split.
  - intros Hcode.
    destruct (bool_decide (http.StatusCode resp < 200)%Z) eqn:Hlow;
      destruct (bool_decide (400 ≤ http.StatusCode resp)%Z) eqn:Hhigh; try reflexivity.
    apply bool_decide_eq_false in Hlow, Hhigh. lia.
  - intros Hcode. rewrite !bool_decide_eq_false_2 by lia. simpl.
    by destruct (gofeed.Parse _ _ _ _ _ _ _ _ _ _ _ _ _ _ f1 (http.Body resp)) as [r f2].
Qed.

(** X14: when closing the body fails, the error of the close is what
    [ParseURL] returns: it takes the place of the error of [Parse], and it is
    returned beside the feed when [Parse] has given one. *)
Theorem ParseURL_close_error f feedURL resp m :
  Get (httpClient f).1 feedURL = inr resp →
  (200 ≤ http.StatusCode resp < 400)%Z →
  http.CloseError resp = Some m →
  (∀ feed, (Parse (httpClient f).2 (http.Body resp)).1 = Done feed →
     (ParseURL f feedURL).1 = gofeed.Return Feed (Some feed) (Some (gofeed.FromBody m)))
  ∧ (∀ e, (Parse (httpClient f).2 (http.Body resp)).1 = Fail e →
       (ParseURL f feedURL).1 = gofeed.Return Feed None (Some (gofeed.FromBody m))).
Proof.
  intros Hget Hcode Hclose. unfold gofeed.ParseURL.
  destruct (gofeed.httpClient RSSFeed AtomFeed Feed f) as [c f1] eqn:Hc.
  simpl in Hget. simpl. rewrite Hget. unfold gofeed.answer.
  rewrite !bool_decide_eq_false_2 by lia. simpl.
  destruct (gofeed.Parse _ _ _ _ _ _ _ _ _ _ _ _ _ _ f1 (http.Body resp)) as [r f2].
  simpl. split; intros x ->; simpl; by rewrite Hclose.
Qed.

(** X15: when the request cannot be built, [ParseURLWithProxy] panics (it
    drops the error of [http.NewRequest] and sets a header on the nil
    request), while [ParseURL] returns the error. *)
Theorem ParseURLWithProxy_nil_request f feedURL proxyURL proxyName proxyPasswd m :
  NewRequest "GET" feedURL = inl m →
  (ParseURLWithProxy f feedURL proxyURL proxyName proxyPasswd).1 = gofeed.Panics Feed
  ∧ (ParseURL f feedURL).1 = gofeed.Return Feed None (Some (gofeed.FromClient m)).
Proof.
  intros Hreq. split.
  - unfold gofeed.ParseURLWithProxy.
    destruct (gofeed.httpClientWithProxy RSSFeed AtomFeed Feed f proxyURL) as [c f1].
    by rewrite Hreq.
  - unfold gofeed.ParseURL.
    destruct (gofeed.httpClient RSSFeed AtomFeed Feed f) as [c f1].
    unfold gofeed.Get. by rewrite Hreq.
Qed.

(** X16: on a parser without client, [ParseURLWithProxy] installs a client
    whose transport goes through the given proxy, and that client stays: a
    later [ParseURL] sends its request with it, through the proxy. *)
Theorem ParseURLWithProxy_installs f feedURL proxyURL proxyName proxyPasswd feedURL' :
  Client f = None →
  let c := http.mkClient
             (Some (http.mkTransport (10 * gofeed.Second)%Z (1 * gofeed.Second)%Z
                      (Some (http.mkURL proxyURL))))
             (15 * gofeed.Second)%Z in
  let f1 := (ParseURLWithProxy f feedURL proxyURL proxyName proxyPasswd).2 in
  Client f1 = Some c
  ∧ ParseURL f1 feedURL' = answer f1 (Get c feedURL').
Proof.
  intros Hc c f1.
  assert (H1 : Client f1 = Some c).
  { subst f1. unfold gofeed.ParseURLWithProxy, gofeed.httpClientWithProxy. rewrite Hc.
    destruct (NewRequest "GET" feedURL); [reflexivity |].
    rewrite answer_Client. reflexivity. }
  split; [exact H1 |].
  unfold gofeed.ParseURL, gofeed.httpClient. by rewrite H1.
Qed.

(** X17: a translator that the user has set is never replaced by [Parse],
    and it is the one applied: for a stream that the Sitemap parser accepts,
    [Parse] returns what the set translator makes of the Sitemap feed and
    leaves the parser as it is. *)
Theorem Parse_keeps_translators f feed :
  (∀ t, gofeed.AtomTranslator _ _ _ f = Some t →
        gofeed.AtomTranslator _ _ _ (Parse f feed).2 = Some t)
  ∧ (∀ t, gofeed.RSSTranslator _ _ _ f = Some t →
          gofeed.RSSTranslator _ _ _ (Parse f feed).2 = Some t)
  ∧ (∀ t, gofeed.SitemapTranslator _ _ _ f = Some t →
          gofeed.SitemapTranslator _ _ _ (Parse f feed).2 = Some t)
  ∧ (∀ t sf, gofeed.SitemapTranslator _ _ _ f = Some t →
             DetectFeedType feed = gofeed.FeedTypeSitemap →
             sitemap.Parse recognizes extend decodeText ParseDate (decode feed) = Done sf →
             Parse f feed = (gofeed.translated _ _ _ t (gofeed.OfSitemap _ _ sf), f)).
Proof.
  rewrite Parse_dispatch.
  assert (Hatom : ∀ g, gofeed.RSSTranslator _ _ _ (parseAtomFeed f g).2
                        = gofeed.RSSTranslator _ _ _ f
                      ∧ gofeed.SitemapTranslator _ _ _ (parseAtomFeed f g).2
                        = gofeed.SitemapTranslator _ _ _ f
                      ∧ ∀ t, gofeed.AtomTranslator _ _ _ f = Some t →
                             gofeed.AtomTranslator _ _ _ (parseAtomFeed f g).2 = Some t).
  { intros g. unfold gofeed.parseAtomFeed. destruct (atomParse g); [by repeat split |].
    unfold gofeed.atomTrans.
    destruct (gofeed.AtomTranslator _ _ _ f) eqn:Ht; simpl; repeat split; try done.
    by rewrite Ht. }
  assert (Hrss : ∀ g, gofeed.AtomTranslator _ _ _ (parseRSSFeed f g).2
                       = gofeed.AtomTranslator _ _ _ f
                     ∧ gofeed.SitemapTranslator _ _ _ (parseRSSFeed f g).2
                       = gofeed.SitemapTranslator _ _ _ f
                     ∧ ∀ t, gofeed.RSSTranslator _ _ _ f = Some t →
                            gofeed.RSSTranslator _ _ _ (parseRSSFeed f g).2 = Some t).
  { intros g. unfold gofeed.parseRSSFeed. destruct (rssParse g); [by repeat split |].
    unfold gofeed.rssTrans.
    destruct (gofeed.RSSTranslator _ _ _ f) eqn:Ht; simpl; repeat split; try done.
    by rewrite Ht. }
  assert (Hsm : ∀ g, gofeed.AtomTranslator _ _ _ (parseSitemapFeed f g).2
                      = gofeed.AtomTranslator _ _ _ f
                    ∧ gofeed.RSSTranslator _ _ _ (parseSitemapFeed f g).2
                      = gofeed.RSSTranslator _ _ _ f
                    ∧ ∀ t, gofeed.SitemapTranslator _ _ _ f = Some t →
                           gofeed.SitemapTranslator _ _ _ (parseSitemapFeed f g).2 = Some t).
  { intros g. unfold gofeed.parseSitemapFeed.
    destruct (sitemap.Parse _ _ _ _ _); try by repeat split.
    unfold gofeed.sitemapTrans.
    destruct (gofeed.SitemapTranslator _ _ _ f) eqn:Ht; simpl; repeat split; try done.
    by rewrite Ht. }
  destruct (Hatom feed) as (Ha1 & Ha2 & Ha3).
  destruct (Hrss feed) as (Hr1 & Hr2 & Hr3).
  destruct (Hsm feed) as (Hs1 & Hs2 & Hs3).
  destruct (gofeed.DetectFeedType decode feed); (split; [| split; [| split]]);
    try (intros t Ht; simpl; rewrite ?Ha1, ?Ha2, ?Hr1, ?Hr2, ?Hs1, ?Hs2; auto; fail);
    try (intros t sf _ Hd _; discriminate).
  intros t sf Ht _ Hsf. unfold gofeed.parseSitemapFeed. rewrite Hsf.
  unfold gofeed.sitemapTrans. by rewrite Ht.
Qed.

(** X18: every stream that the Sitemap parser accepts is detected as a
    Sitemap, so [Parse] hands the feed of the Sitemap parser to the Sitemap
    translator. *)
Theorem Parse_sitemap_accepted f feed sf :
  sitemap.Parse recognizes extend decodeText ParseDate (decode feed) = Done sf →
  DetectFeedType feed = gofeed.FeedTypeSitemap
  ∧ (Parse f feed).1 = gofeed.translated _ _ _ (sitemapTrans f).1 (gofeed.OfSitemap _ _ sf).
Proof.
  intros Hsf.
  assert (Hd : DetectFeedType feed = gofeed.FeedTypeSitemap).
  { pose proof Hsf as H. apply Parse_Done in H as [tok [p [Hroot H]]].
    apply parseRoot_Done in H as [Hexp _].
    apply Expect_None in Hexp as [_ [Hname | Hstar]]; [| discriminate].
    unfold gofeed.DetectFeedType. rewrite Hroot.
    change (ToLower "urlset") with "urlset" in Hname. rewrite Hname. reflexivity. }
  split; [exact Hd |].
  rewrite Parse_dispatch, Hd. unfold gofeed.parseSitemapFeed. rewrite Hsf.
  by destruct (gofeed.sitemapTrans RSSFeed AtomFeed Feed DefaultSitemapTranslator f).
Qed.

End OrchestratorFurther.

Lemma ParseURL_http_error_witness :
  ((404 < 200 ∨ 400 ≤ 404)%Z →
     example.ParseURLFrom example.notFound (gofeed.NewParser string string string)
       "http://a/"
     = (gofeed.Return string None (Some (gofeed.HTTPError 404 "404 Not Found")),
        (gofeed.httpClient string string string (gofeed.NewParser string string string)).2))
  ∧ ((200 ≤ 404 < 400)%Z →
     (example.ParseURLFrom example.notFound (gofeed.NewParser string string string)
        "http://a/").1
     = gofeed.closing string None
         (example.gofeedParse
            (gofeed.httpClient string string string
               (gofeed.NewParser string string string)).2
            (list_byte_of_string "<urlset/>")).1
     ∧ (example.ParseURLFrom example.notFound (gofeed.NewParser string string string)
          "http://a/").2
       = (example.gofeedParse
            (gofeed.httpClient string string string
               (gofeed.NewParser string string string)).2
            (list_byte_of_string "<urlset/>")).2).
Proof.
  apply (ParseURL_http_error example.recognizes example.extend example.decodeText
           example.ParseDate example.decode example.pulled string string string
           example.rssParse example.atomParse example.translator example.translator
           example.translator example.NewRequest example.notFound
           (gofeed.NewParser string string string) "http://a/"
           (http.mkResponse 404 "404 Not Found" (list_byte_of_string "<urlset/>") None)).
  reflexivity.
Defined.

Lemma ParseURL_close_error_witness :
  (∀ feed,
     (example.gofeedParse
        (gofeed.httpClient string string string (gofeed.NewParser string string string)).2
        (list_byte_of_string "<urlset/>")).1 = Done feed →
     (example.ParseURLFrom example.brokenBody (gofeed.NewParser string string string)
        "http://a/").1
     = gofeed.Return string (Some feed) (Some (gofeed.FromBody "connection reset")))
  ∧ (∀ e,
       (example.gofeedParse
          (gofeed.httpClient string string string (gofeed.NewParser string string string)).2
          (list_byte_of_string "<urlset/>")).1 = Fail e →
       (example.ParseURLFrom example.brokenBody (gofeed.NewParser string string string)
          "http://a/").1
       = gofeed.Return string None (Some (gofeed.FromBody "connection reset"))).
Proof.
  apply (ParseURL_close_error example.recognizes example.extend example.decodeText
           example.ParseDate example.decode example.pulled string string string
           example.rssParse example.atomParse example.translator example.translator
           example.translator example.NewRequest example.brokenBody
           (gofeed.NewParser string string string) "http://a/"
           (http.mkResponse 200 "200 OK" (list_byte_of_string "<urlset/>")
              (Some "connection reset"))
           "connection reset").
  - reflexivity.
  - simpl. lia.
  - reflexivity.
Defined.

Lemma ParseURLWithProxy_nil_request_witness :
  (example.ParseURLWithProxy (gofeed.NewParser string string string) ":"
     "10.0.0.1:8080" "u" "p").1 = gofeed.Panics string
  ∧ (example.ParseURL (gofeed.NewParser string string string) ":").1
    = gofeed.Return string None
        (Some (gofeed.FromClient "parse: missing protocol scheme")).
Proof.
  apply (ParseURLWithProxy_nil_request example.recognizes example.extend example.decodeText
           example.ParseDate example.decode example.pulled string string string
           example.rssParse example.atomParse example.translator example.translator
           example.translator example.NewRequest example.roundTrip example.base64
           (gofeed.NewParser string string string) ":" "10.0.0.1:8080" "u" "p"
           "parse: missing protocol scheme").
  reflexivity.
Defined.

Lemma ParseURLWithProxy_installs_witness :
  gofeed.Client string string string
    (example.ParseURLWithProxy (gofeed.NewParser string string string) "http://a/"
       "10.0.0.1:8080" "u" "p").2
  = Some (http.mkClient
            (Some (http.mkTransport (10 * gofeed.Second)%Z (1 * gofeed.Second)%Z
                     (Some (http.mkURL "10.0.0.1:8080"))))
            (15 * gofeed.Second)%Z)
  ∧ example.ParseURL
      (example.ParseURLWithProxy (gofeed.NewParser string string string) "http://a/"
         "10.0.0.1:8080" "u" "p").2 "http://b/"
    = gofeed.answer example.recognizes example.extend example.decodeText example.ParseDate
        example.decode example.pulled string string string example.rssParse
        example.atomParse example.translator example.translator example.translator
        (example.ParseURLWithProxy (gofeed.NewParser string string string) "http://a/"
           "10.0.0.1:8080" "u" "p").2
        (gofeed.Get example.NewRequest example.roundTrip
           (http.mkClient
              (Some (http.mkTransport (10 * gofeed.Second)%Z (1 * gofeed.Second)%Z
                       (Some (http.mkURL "10.0.0.1:8080"))))
              (15 * gofeed.Second)%Z)
           "http://b/").
Proof.
  apply (ParseURLWithProxy_installs example.recognizes example.extend example.decodeText
           example.ParseDate example.decode example.pulled string string string
           example.rssParse example.atomParse example.translator example.translator
           example.translator example.NewRequest example.roundTrip example.base64
           (gofeed.NewParser string string string) "http://a/" "10.0.0.1:8080" "u" "p"
           "http://b/").
  reflexivity.
Defined.

Lemma Parse_sitemap_accepted_witness :
  gofeed.DetectFeedType example.decode (list_byte_of_string "<urlset/>")
    = gofeed.FeedTypeSitemap
  ∧ (example.gofeedParse (gofeed.NewParser string string string)
       (list_byte_of_string "<urlset/>")).1
    = gofeed.translated string string string
        (gofeed.sitemapTrans string string string example.translator
           (gofeed.NewParser string string string)).1
        (gofeed.OfSitemap string string (sitemap.mkFeed "" [] "" "unknow")).
Proof.
  apply (Parse_sitemap_accepted example.recognizes example.extend example.decodeText
           example.ParseDate example.decode example.pulled string string string
           example.rssParse example.atomParse example.translator example.translator
           example.translator (gofeed.NewParser string string string)
           (list_byte_of_string "<urlset/>") (sitemap.mkFeed "" [] "" "unknow")).
  vm_compute. reflexivity.
Defined.
